(** * Clinical research assistant: extraction, caching, retry and history

    A shallow embedding of [app_with_hash_cache.py]: the PDF text
    extractor, the two memoised entry points, the model client with its
    retry decorator, and the persisted history store.  Python values are
    modelled by an inductive type, exceptions by an error result, and every
    effect (network, clock, caches, session state, history file) by an
    explicit [world] threaded through a state-and-exception monad in which
    the state survives a raised exception, as it does in Python. *)

From Stdlib Require Import ZArith NArith List Bool Lia.
From Stdlib.Strings Require Import Ascii Byte.
From Stdlib.Strings Require String.
From Stdlib.Numbers Require DecimalString.
Import String.StringSyntax.
Import ListNotations.
Local Open Scope Z_scope.

Set Implicit Arguments.

(** ** Python data *)

(** A Python [str] is a sequence of Unicode code points; [len] counts them. *)
Definition char := N.
Definition str := list char.
Definition bytes := list byte.

Definition lit (s : String.string) : str :=
  map N_of_ascii (String.list_ascii_of_string s).
Arguments lit s%_string_scope.

Definition len {A : Type} (l : list A) : Z := Z.of_nat (length l).

Definition str_eq_dec : forall a b : str, {a = b} + {a <> b} :=
  list_eq_dec N.eq_dec.

Definition bytes_eq_dec : forall a b : bytes, {a = b} + {a <> b} :=
  list_eq_dec byte_eq_dec.

Definition str_eqb (a b : str) : bool := if str_eq_dec a b then true else false.

(** [s[:n]] for [0 <= n] *)
Definition slice_to {A : Type} (n : Z) (s : list A) : list A := firstn (Z.to_nat n) s.
Arguments slice_to : simpl never.

(** ["sep".join(parts)] *)
Fixpoint join (sep : str) (parts : list str) : str :=
  match parts with
  | [] => []
  | [p] => p
  | p :: rest => p ++ sep ++ join sep rest
  end.

(** Values that [json.load] produces and that the application stores in its
    history: [None], booleans, numbers, strings, lists and dicts with string
    keys (a dict is the list of its items, keys distinct). *)
#[warnings="-register-all"]
Inductive pyval : Type :=
| PNone
| PBool (b : bool)
| PInt (z : Z)
| PFloat (repr : str)
| PStr (s : str)
| PList (items : list pyval)
| PDict (items : list (str * pyval)).

(** Truthiness, as tested by [if not x]. *)
Definition truthy (v : pyval) : bool :=
  match v with
  | PNone => false
  | PBool b => b
  | PInt z => negb (z =? 0)
  | PFloat _ => true
  | PStr s => match s with [] => false | _ => true end
  | PList l => match l with [] => false | _ => true end
  | PDict d => match d with [] => false | _ => true end
  end.

(** The exception classes that the program can meet.  [RequestException]
    stands for [requests.exceptions.RequestException] and all its
    subclasses; [RetryError] is what tenacity raises when it gives up. *)
Inductive request_failure := ConnectionFailed | TimedOut | HTTPError | InvalidJSON.

Inductive exn : Type :=
| RequestException (why : request_failure)
| KeyError
| IndexError
| TypeError
| ValueError
| AttributeError
| FileDataError
| JSONDecodeError
| UnicodeEncodeError
| OSError
| RetryError (last : exn).

Definition is_request_exception (e : exn) : bool :=
  match e with RequestException _ => true | _ => false end.

Inductive result (A : Type) : Type :=
| Ok (a : A)
| Raise (e : exn).
Arguments Ok {A} a.
Arguments Raise {A} e.

Definition result_bind {A B : Type} (r : result A) (f : A -> result B) : result B :=
  match r with Ok a => f a | Raise e => Raise e end.

(** Lookup in the items of a dict. *)
Fixpoint dict_get (d : list (str * pyval)) (k : str) : option pyval :=
  match d with
  | [] => None
  | (k', v) :: rest => if str_eq_dec k k' then Some v else dict_get rest k
  end.

(** [v[key]] for a string key. *)
Definition getitem_str (v : pyval) (k : str) : result pyval :=
  match v with
  | PDict d => match dict_get d k with Some x => Ok x | None => Raise KeyError end
  | _ => Raise TypeError
  end.

(** [v[i]] for an integer index. *)
Definition getitem_int (v : pyval) (i : Z) : result pyval :=
  match v with
  | PList l =>
      let j := if i <? 0 then len l + i else i in
      if (j <? 0) || (len l <=? j) then Raise IndexError
      else match nth_error l (Z.to_nat j) with
           | Some x => Ok x
           | None => Raise IndexError
           end
  | PStr s =>
      let j := if i <? 0 then len s + i else i in
      if (j <? 0) || (len s <=? j) then Raise IndexError
      else match nth_error s (Z.to_nat j) with
           | Some c => Ok (PStr [c])
           | None => Raise IndexError
           end
  | PDict _ => Raise KeyError
  | _ => Raise TypeError
  end.

(** [d.get(key)]: only dicts have the method. *)
Definition dict_get_method (v : pyval) (k : str) : result pyval :=
  match v with
  | PDict d => Ok (match dict_get d k with Some x => x | None => PNone end)
  | _ => Raise AttributeError
  end.

(** [v != s] for a string [s]. *)
Definition ne_str (v : pyval) (s : str) : bool :=
  match v with
  | PStr t => negb (str_eqb t s)
  | _ => true
  end.

(** ** PyMuPDF documents *)

(** One entry of [page.get_text("blocks")]: the code reads [b[4]] (the text)
    and [b[6]] (the block type, 0 for text, 1 for an image). *)
Record block := { b4 : str; b6 : Z }.
Definition page := list block.
Definition document := list page.

(** An [UploadedFile] of the web framework. *)
Record uploaded_file := { uf_name : str; uf_value : bytes }.

(** The two kinds of object that reach [process_large_file]. *)
Inductive pyobj :=
| ObjBytes (b : bytes)
| ObjUploadedFile (f : uploaded_file).

Definition getvalue (o : pyobj) : result bytes :=
  match o with
  | ObjUploadedFile f => Ok (uf_value f)
  | ObjBytes _ => Raise AttributeError
  end.

(** ** The remote API *)

Record response := { status_code : Z; json_result : result pyval }.

Inductive post_outcome :=
| PostRaises (e : exn)
| PostReturns (r : response).

(** [response.raise_for_status()] *)
Definition raise_for_status (r : response) : result unit :=
  if (400 <=? status_code r) && (status_code r <? 600)
  then Raise (RequestException HTTPError)
  else Ok tt.

(** ** The world *)

Inductive notice := FileTooLarge | NotPdf | ModelCallWillRetry | ProcessingError.

Inductive event :=
| EvExtract (file_bytes : bytes)   (* the extractor under the cache starts to run:
                                      an observation point that counts its runs *)
| EvPost (prompt : str)            (* requests.post issued *)
| EvSleep (seconds : Z)            (* the retry decorator sleeps *)
| EvStError (n : notice).          (* st.error shown *)

Record world := mkWorld {
  w_net : nat -> post_outcome;          (* outcome of the k-th POST *)
  w_posts : nat;                        (* POSTs issued so far *)
  w_clock : nat -> Z;                   (* k-th reading of datetime.now(), in microseconds *)
  w_clock_reads : nat;
  w_trace : list event;
  w_pdf_cache : list ((str * bytes) * str);
  w_study_cache : list ((str * str) * pyval);
  w_history_file : option str;          (* text of history.json, None when missing *)
  w_history_writable : bool;            (* whether opening it for writing succeeds *)
  w_session_history : option (list pyval)   (* st.session_state.history *)
}.

Definition M (A : Type) : Type := world -> result A * world.

Definition ret {A : Type} (a : A) : M A := fun w => (Ok a, w).

Definition raise {A : Type} (e : exn) : M A := fun w => (Raise e, w).

Definition bind {A B : Type} (m : M A) (f : A -> M B) : M B :=
  fun w => match m w with
           | (Ok a, w') => f a w'
           | (Raise e, w') => (Raise e, w')
           end.

Definition lift {A : Type} (r : result A) : M A := fun w => (r, w).

(** [try: m except Exception as e: h e] *)
Definition try_except {A : Type} (m : M A) (h : exn -> M A) : M A :=
  fun w => match m w with
           | (Ok a, w') => (Ok a, w')
           | (Raise e, w') => h e w'
           end.

Declare Scope py_scope.
Delimit Scope py_scope with py.
Notation "x <- m ;; k" := (bind m (fun x => k))
  (at level 100, m at next level, right associativity) : py_scope.
Notation "m ;;; k" := (bind m (fun _ => k))
  (at level 100, right associativity) : py_scope.
Local Open Scope py_scope.

Definition logged (e : event) (w : world) : world :=
  mkWorld (w_net w) (w_posts w) (w_clock w) (w_clock_reads w)
          (w_trace w ++ [e]) (w_pdf_cache w) (w_study_cache w)
          (w_history_file w) (w_history_writable w) (w_session_history w).

Definition log (e : event) : M unit := fun w => (Ok tt, logged e w).

Definition st_error (n : notice) : M unit := log (EvStError n).

Definition ticked (w : world) : world :=
  mkWorld (w_net w) (w_posts w) (w_clock w) (S (w_clock_reads w))
          (w_trace w) (w_pdf_cache w) (w_study_cache w)
          (w_history_file w) (w_history_writable w) (w_session_history w).

(** [datetime.now()] *)
Definition datetime_now : M Z :=
  fun w => (Ok (w_clock w (w_clock_reads w)), ticked w).

Definition posted (prompt : str) (w : world) : world :=
  mkWorld (w_net w) (S (w_posts w)) (w_clock w) (w_clock_reads w)
          (w_trace w ++ [EvPost prompt]) (w_pdf_cache w) (w_study_cache w)
          (w_history_file w) (w_history_writable w) (w_session_history w).

(** [requests.post(...)]: the environment decides the outcome. *)
Definition requests_post (prompt : str) : M response :=
  fun w =>
    match w_net w (w_posts w) with
    | PostRaises e => (Raise e, posted prompt w)
    | PostReturns r => (Ok r, posted prompt w)
    end.

Definition set_pdf_cache (c : list ((str * bytes) * str)) (w : world) : world :=
  mkWorld (w_net w) (w_posts w) (w_clock w) (w_clock_reads w)
          (w_trace w) c (w_study_cache w)
          (w_history_file w) (w_history_writable w) (w_session_history w).

Definition set_study_cache (c : list ((str * str) * pyval)) (w : world) : world :=
  mkWorld (w_net w) (w_posts w) (w_clock w) (w_clock_reads w)
          (w_trace w) (w_pdf_cache w) c
          (w_history_file w) (w_history_writable w) (w_session_history w).

Definition set_history_file (f : option str) (w : world) : world :=
  mkWorld (w_net w) (w_posts w) (w_clock w) (w_clock_reads w)
          (w_trace w) (w_pdf_cache w) (w_study_cache w)
          f (w_history_writable w) (w_session_history w).

Definition set_session_history (h : option (list pyval)) (w : world) : world :=
  mkWorld (w_net w) (w_posts w) (w_clock w) (w_clock_reads w)
          (w_trace w) (w_pdf_cache w) (w_study_cache w)
          (w_history_file w) (w_history_writable w) h.

(** ** Library functions

    Functions of the libraries the program imports.  They are pure and
    deterministic; their code is not part of the repository, so they are
    the fields of an interface. *)
Class Libraries := {
  (** [hashlib.md5(b).hexdigest()] *)
  md5_hexdigest : bytes -> str;
  (** [fitz.open(stream=b, filetype="pdf")] followed by
      [page.get_text("blocks")] on every page; [None] when [fitz.open] raises. *)
  fitz_open : bytes -> option document;
  (** [datetime.strptime(s, '%Y-%m-%d %H:%M:%S')] in microseconds; [None]
      when it raises [ValueError]. *)
  strptime : str -> option Z;
  (** [t.strftime("%Y-%m-%d %H:%M:%S")] *)
  strftime : Z -> str;
  (** [json.load] on the text of a file; [None] when it raises. *)
  json_loads : str -> option pyval;
  (** [json.dump(v, f, ensure_ascii=False, indent=2)] *)
  json_dumps : pyval -> str;
  (** The fixed instruction that precedes the paper's text in the prompt. *)
  prompt_head : str;
  (** The export artifacts and the code that builds them. *)
  report : Type;
  build_report : str -> str -> result report
}.

(** ** Memoisation *)

Section Memo.
Variables K V : Type.
Variable key_eq_dec : forall a b : K, {a = b} + {a <> b}.

Fixpoint cache_lookup (c : list (K * V)) (k : K) : option V :=
  match c with
  | [] => None
  | (k', v) :: rest => if key_eq_dec k k' then Some v else cache_lookup rest k
  end.

(** A new entry goes to the end; beyond the capacity the oldest entries,
    at the front, are dropped. *)
Definition cache_store (max_entries : nat) (c : list (K * V)) (k : K) (v : V)
  : list (K * V) :=
  let c' := c ++ [(k, v)] in
  skipn (List.length c' - max_entries) c'.

Variable get_cache : world -> list (K * V).
Variable set_cache : list (K * V) -> world -> world.

#[local] Arguments cache_store : simpl never.

(** Modelled from the spec: the decorator [@st.cache_data(max_entries=n)]
    of the web framework, whose code is not in the repository.  It is the
    [get_or_compute] of the extraction cache: the key is the tuple of the
    arguments of the decorated function; a key that is present returns the
    stored value without running the function; a miss runs it and stores
    the value it returns, evicting oldest first; a raised exception
    stores nothing.  That the framework shows again, on a hit, the messages
    the function displayed when it ran is display only and left out. *)
Definition st_cache_data (max_entries : nat) (key : K) (compute : M V) : M V :=
  fun w =>
    match cache_lookup (get_cache w) key with
    | Some v => (Ok v, w)
    | None =>
        match compute w with
        | (Ok v, w') => (Ok v, set_cache (cache_store max_entries (get_cache w') key v) w')
        | (Raise e, w') => (Raise e, w')
        end
    end.

End Memo.

Definition pair_eq_dec {A B : Type}
  (da : forall a b : A, {a = b} + {a <> b})
  (db : forall a b : B, {a = b} + {a <> b})
  : forall p q : A * B, {p = q} + {p <> q}.
Proof. decide equality. Defined.

(** ** Retrying *)

Definition sleep (seconds : Z) : M unit := log (EvSleep seconds).

(** Modelled from the spec: the waiting policy [wait_exponential(multiplier,
    min, max)] of tenacity, whose code is not in the repository: after
    attempt [n] the delay is [multiplier * 2 ^ (n - 1)], the base delay
    doubling, bounded between the floor [min] and the ceiling [max]. *)
Definition wait_exponential (multiplier min max : Z) (attempt_number : Z) : Z :=
  let exp := 2 ^ (attempt_number - 1) in
  let result := multiplier * exp in
  Z.max (Z.max 0 min) (Z.min result max).

(** The loop of the decorator from attempt [attempt_number] on, with [more]
    attempts allowed after this one. *)
Fixpoint retry_from {A : Type} (more : nat) (wait : Z -> Z) (attempt_number : Z)
  (fn : M A) : M A :=
  try_except fn (fun e =>
    match more with
    | O => raise (RetryError e)
    | S more' =>
        sleep (wait attempt_number) ;;;
        retry_from more' wait (attempt_number + 1) fn
    end).

(** Modelled from the spec: the decorator [@retry(stop=stop_after_attempt(n),
    wait=w)] of tenacity, whose code is not in the repository.  The function
    is called again after every exception it raises, sleeping [w] seconds
    in between, until it returns or has been tried [n] times; then
    [RetryError] is raised. *)
Definition retry {A : Type} (stop_after_attempt : nat) (wait : Z -> Z) (fn : M A) : M A :=
  retry_from (pred stop_after_attempt) wait 1 fn.

(** ** Text encoding *)

Definition byte_of_N (n : N) : byte :=
  match Byte.of_N n with Some b => b | None => x00 end.

(** One code point in UTF-8; a lone surrogate cannot be encoded. *)
Definition utf8_char (c : char) : result bytes :=
  (if c <? 128 then Ok [byte_of_N c]
   else if c <? 2048 then Ok [byte_of_N (192 + c / 64); byte_of_N (128 + c mod 64)]
   else if (55296 <=? c) && (c <=? 57343) then Raise UnicodeEncodeError
   else if c <? 65536 then
     Ok [byte_of_N (224 + c / 4096); byte_of_N (128 + (c / 64) mod 64);
         byte_of_N (128 + c mod 64)]
   else
     Ok [byte_of_N (240 + c / 262144); byte_of_N (128 + (c / 4096) mod 64);
         byte_of_N (128 + (c / 64) mod 64); byte_of_N (128 + c mod 64)])%N.

(** [s.encode("utf-8")] *)
Fixpoint utf8_encode (s : str) : result bytes :=
  match s with
  | [] => Ok []
  | c :: rest =>
      result_bind (utf8_char c) (fun b =>
      result_bind (utf8_encode rest) (fun bs => Ok (b ++ bs)))
  end.

(** A list comprehension whose condition can raise. *)
Fixpoint filter_result {A : Type} (p : A -> result bool) (l : list A) : result (list A) :=
  match l with
  | [] => Ok []
  | x :: rest =>
      result_bind (p x) (fun keep =>
      result_bind (filter_result p rest) (fun rest' =>
      Ok (if keep then x :: rest' else rest')))
  end.

Section Program.
Context {L : Libraries}.

(** ** Configuration *)

Definition MAX_FILE_SIZE : Z := 200 * 1024 * 1024.
Definition MAX_FILES_PER_BATCH : Z := 5.

(** ** File handling *)

(** [name.lower().endswith('.pdf')]: lowering is character-wise, and the
    only characters that lower to [.], [p], [d], [f] are these. *)
Definition ends_with_pdf (name : str) : bool :=
  match rev name with
  | f :: d :: p :: dot :: _ =>
      ((f =? 102) || (f =? 70))%N && ((d =? 100) || (d =? 68))%N
      && ((p =? 112) || (p =? 80))%N && (dot =? 46)%N
  | _ => false
  end.

Definition validate_file (f : uploaded_file) : M bool :=
  if len (uf_value f) >? MAX_FILE_SIZE then
    (st_error FileTooLarge ;;; ret false)
  else if negb (ends_with_pdf (uf_name f)) then
    (st_error NotPdf ;;; ret false)
  else ret true.

Definition safe_chars : str :=
  lit "abcdefghijklmnopqrstuvwxyzABCDEFGHIJKLMNOPQRSTUVWXYZ0123456789-._".

Definition is_safe (c : char) : bool :=
  if in_dec N.eq_dec c safe_chars then true else false.

Definition sanitize_filename (filename : str) : str :=
  let filename := filter is_safe filename in
  match filename with
  | [] => lit "unnamed_file"
  | _ => filename
  end.

(** ** Text extraction *)

(** The characters that [str.strip()] removes. *)
Definition is_space (c : char) : bool :=
  (((9 <=? c) && (c <=? 13)) || ((28 <=? c) && (c <=? 32))
   || (c =? 133) || (c =? 160) || (c =? 5760)
   || ((8192 <=? c) && (c <=? 8202))
   || (c =? 8232) || (c =? 8233) || (c =? 8239) || (c =? 8287) || (c =? 12288))%N.

Fixpoint lstrip (s : str) : str :=
  match s with
  | c :: rest => if is_space c then lstrip rest else s
  | [] => []
  end.

Definition strip (s : str) : str := rev (lstrip (rev (lstrip s))).

(** [b[4].replace('\x00', '').strip()] *)
Definition clean_text (b : block) : str :=
  strip (filter (fun c => negb (c =? 0)%N) (b4 b)).

(** The body of the innermost loop: what one block appends to [text_blocks]. *)
Definition block_contribution (b : block) : list str :=
  if b6 b =? 0 then
    let t := clean_text b in
    if truthy (PStr t) && (len t >? 20) then [t] else []
  else [].

Definition page_text_blocks (p : page) : list str := flat_map block_contribution p.

Definition document_text_blocks (d : document) : list str := flat_map page_text_blocks d.

Definition newline : str := [10%N].

Definition open_document (stream : bytes) : result document :=
  match fitz_open stream with
  | Some d => Ok d
  | None => Raise FileDataError
  end.

(** [range(0, len(file_bytes), chunk_size)] with the slices taken at each
    start; the fuel is the number of bytes, more than the number of windows. *)
Fixpoint windows_from (fuel : nat) (chunk_size : nat) (bs : bytes) : list bytes :=
  match fuel with
  | O => []
  | S fuel' =>
      match bs with
      | [] => []
      | _ => firstn chunk_size bs :: windows_from fuel' chunk_size (skipn chunk_size bs)
      end
  end.

Definition windows (chunk_size : nat) (bs : bytes) : list bytes :=
  windows_from (List.length bs) chunk_size bs.

(** The loop over the windows: every window is opened as a document of its
    own, and an exception of [fitz.open] ends the loop. *)
Fixpoint chunks_text_blocks (chunks : list bytes) : result (list str) :=
  match chunks with
  | [] => Ok []
  | chunk :: rest =>
      result_bind (open_document chunk) (fun doc =>
      result_bind (chunks_text_blocks rest) (fun more =>
      Ok (document_text_blocks doc ++ more)))
  end.

Definition process_large_file (uploaded_file : pyobj) : M str :=
  let chunk_size := Z.to_nat (1024 * 1024) in
  file_bytes <- lift (getvalue uploaded_file) ;;
  text_blocks <- lift (chunks_text_blocks (windows chunk_size file_bytes)) ;;
  ret (join newline text_blocks).

(** The function under [@st.cache_data], without the decorator. *)
Definition extract_text_from_pdf_body (file_hash : str) (file_bytes : bytes) : M str :=
  log (EvExtract file_bytes) ;;;
  if len file_bytes >? MAX_FILE_SIZE then
    process_large_file (ObjBytes file_bytes)
  else
    doc <- lift (open_document file_bytes) ;;
    ret (join newline (document_text_blocks doc)).


Definition pdf_key_eq_dec := pair_eq_dec str_eq_dec bytes_eq_dec.
Definition study_key_eq_dec := pair_eq_dec str_eq_dec str_eq_dec.

Definition extract_text_from_pdf_by_hash (file_hash : str) (file_bytes : bytes) : M str :=
  st_cache_data pdf_key_eq_dec w_pdf_cache set_pdf_cache 100
    (file_hash, file_bytes) (extract_text_from_pdf_body file_hash file_bytes).

(** ** Model client *)

Definition build_prompt (text : str) : str := prompt_head ++ text ++ newline.

(** [body["choices"][0]["message"]["content"]] *)
Definition first_choice_content (body : pyval) : result pyval :=
  result_bind (getitem_str body (lit "choices")) (fun choices =>
  result_bind (getitem_int choices 0) (fun first =>
  result_bind (getitem_str first (lit "message")) (fun message =>
  getitem_str message (lit "content")))).

(** The function under [@retry], without the decorator. *)
Definition extract_study_design_body (text : str) : M pyval :=
  let prompt := build_prompt text in
  try_except
    (response <- requests_post prompt ;;
     _ <- lift (raise_for_status response) ;;
     body <- lift (json_result response) ;;
     lift (first_choice_content body))
    (fun e =>
       if is_request_exception e
       then (st_error ModelCallWillRetry ;;; raise e)
       else (st_error ProcessingError ;;; ret (PStr []))).

Definition extract_study_design (text : str) : M pyval :=
  retry 3 (wait_exponential 1 4 10) (extract_study_design_body text).

Definition extract_study_by_hash (text_hash : str) (text : str) : M pyval :=
  st_cache_data study_key_eq_dec w_study_cache set_study_cache 100
    (text_hash, text) (extract_study_design text).

(** ** The pipeline for one uploaded file

    The status and progress widgets are display only and are left out. *)
Definition process_file_with_status (f : uploaded_file) : M (option (pyval * report)) :=
  try_except
    (valid <- validate_file f ;;
     if negb valid then ret None else
     let file_bytes := uf_value f in
     let file_hash := md5_hexdigest file_bytes in
     full_text <- extract_text_from_pdf_by_hash file_hash file_bytes ;;
     if negb (truthy (PStr full_text)) then ret None else
     let trimmed_text := slice_to 30000 full_text in
     encoded <- lift (utf8_encode trimmed_text) ;;
     let text_hash := md5_hexdigest encoded in
     result <- extract_study_by_hash text_hash trimmed_text ;;
     if negb (truthy result) then ret None else
     try_except
       (match result with
        | PStr s => r <- lift (build_report s (uf_name f)) ;; ret (Some (result, r))
        | _ => raise AttributeError
        end)
       (fun _ => ret None))
    (fun _ => ret None).

(** ** History store *)

Definition timedelta_days (days : Z) : Z := days * 86400 * 1000000.

(** The key ['时间'] of a record. *)
Definition key_time : str := [26102; 38388]%N.

(** [datetime.strptime(record['时间'], fmt) > one_week_ago] *)
Definition is_recent (one_week_ago : Z) (record : pyval) : result bool :=
  result_bind (getitem_str record key_time) (fun v =>
    match v with
    | PStr s =>
        match strptime s with
        | Some t => Ok (t >? one_week_ago)
        | None => Raise ValueError
        end
    | _ => Raise TypeError
    end).

Definition history_file_exists : M bool :=
  fun w => (Ok (match w_history_file w with Some _ => true | None => false end), w).

(** [open(history_file, 'r')] and [json.load(f)] *)
Definition read_history_json : M pyval :=
  fun w =>
    match w_history_file w with
    | None => (Raise OSError, w)
    | Some text =>
        match json_loads text with
        | Some v => (Ok v, w)
        | None => (Raise JSONDecodeError, w)
        end
    end.

(** [open('history.json', 'w')] and [json.dump(data, f, ...)] *)
Definition write_history_json (data : pyval) : M unit :=
  fun w =>
    if w_history_writable w
    then (Ok tt, set_history_file (Some (json_dumps data)) w)
    else (Raise OSError, w).

Definition load_history : M (list pyval) :=
  present <- history_file_exists ;;
  if negb present then ret [] else
  try_except
    (data <- read_history_json ;;
     match data with
     | PDict d =>
         match dict_get d (lit "records") with
         | None => ret []
         | Some (PList records) =>
             current_time <- datetime_now ;;
             let one_week_ago := current_time - timedelta_days 7 in
             lift (filter_result (is_recent one_week_ago) records)
         | Some _ => ret []
         end
     | _ => ret []
     end)
    (fun _ => ret []).

Definition save_history (records : pyval) : M bool :=
  match records with
  | PList records =>
      try_except
        (current_time <- datetime_now ;;
         let one_week_ago := current_time - timedelta_days 7 in
         cleaned_records <- lift (filter_result (is_recent one_week_ago) records) ;;
         stamp <- datetime_now ;;
         let data :=
           PDict [(lit "records", PList cleaned_records);
                  (lit "metadata",
                   PDict [(lit "last_updated", PStr (strftime stamp));
                          (lit "total_records", PInt (len cleaned_records));
                          (lit "cleaned_records",
                           PInt (len records - len cleaned_records))])] in
         write_history_json data ;;;
         ret true)
        (fun _ => ret false)
  | _ => ret false
  end.

Definition get_session_history : M (option (list pyval)) :=
  fun w => (Ok (w_session_history w), w).

Definition put_session_history (h : list pyval) : M unit :=
  fun w => (Ok tt, set_session_history (Some h) w).

(** [r.get('id') != record_id] *)
Definition other_id (record_id : str) (r : pyval) : result bool :=
  result_bind (dict_get_method r (lit "id")) (fun v => Ok (ne_str v record_id)).

Definition delete_record (record_id : str) : M bool :=
  if negb (truthy (PStr record_id)) then ret false else
  history <- get_session_history ;;
  match history with
  | None => ret false
  | Some records =>
      try_except
        (let original_length := len records in
         kept <- lift (filter_result (other_id record_id) records) ;;
         put_session_history kept ;;;
         if len kept =? original_length then ret false else
         saved <- save_history (PList kept) ;;
         if saved then ret true else ret false)
        (fun _ => ret false)
  end.

(** ** Names of the download artifacts (main page) *)

Fixpoint rfind_from (c : char) (p : str) (i : Z) (found : Z) : Z :=
  match p with
  | [] => found
  | x :: rest => rfind_from c rest (i + 1) (if (x =? c)%N then i else found)
  end.

(** [p.rfind(c)] *)
Definition rfind (c : char) (p : str) : Z := rfind_from c p 0 (-1).

(** [p[a:b]] for [0 <= a] *)
Definition slice (p : str) (a b : Z) : str :=
  firstn (Z.to_nat (b - a)) (skipn (Z.to_nat a) p).

(** [os.path.splitext(p)]: the extension starts at the last dot, unless only
    dots lie between the last separator and it. *)
Definition splitext (p : str) : str * str :=
  let sepIndex := rfind 47%N p in
  let dotIndex := rfind 46%N p in
  if (dotIndex >? sepIndex)
     && existsb (fun c => negb (c =? 46)%N) (slice p (sepIndex + 1) dotIndex)
  then (firstn (Z.to_nat dotIndex) p, skipn (Z.to_nat dotIndex) p)
  else (p, []).

(** The text ["_结构化"] that follows the base name. *)
Definition structured_suffix : str := [95; 32467; 26500; 21270]%N.

(** The file names given to the three [st.download_button] calls. *)
Definition download_names (today : str) (f : uploaded_file) : list str :=
  let base_name := fst (splitext (uf_name f)) in
  [ today ++ lit "_" ++ base_name ++ structured_suffix ++ lit ".csv";
    today ++ lit "_" ++ base_name ++ structured_suffix ++ lit ".pptx";
    today ++ lit "_" ++ base_name ++ structured_suffix ++ lit ".docx" ].

End Program.

(** ** A small instance of the library interface

    Stand-ins for the library functions, used to run the program on
    concrete inputs. *)
Module Sample.

(** A toy document format: pages are separated by form feeds, blocks by
    line feeds; a block that starts with byte 1 is an image block.  The
    empty stream is not a document. *)
Fixpoint split_on (sep : byte) (bs : bytes) : list bytes :=
  match bs with
  | [] => [[]]
  | b :: rest =>
      if byte_eq_dec b sep then [] :: split_on sep rest
      else match split_on sep rest with
           | cur :: more => (b :: cur) :: more
           | [] => [[b]]
           end
  end.

Definition parse_block (bs : bytes) : block :=
  match bs with
  | x01 :: _ => {| b4 := []; b6 := 1 |}
  | _ => {| b4 := map Byte.to_N bs; b6 := 0 |}
  end.

Definition parse_document (bs : bytes) : option document :=
  match bs with
  | [] => None
  | _ => Some (map (fun p => map parse_block (split_on x0a p)) (split_on x0c bs))
  end.

Definition to_bytes (s : String.string) : bytes := String.list_byte_of_string s.
Arguments to_bytes s%_string_scope.

(** A checksum in place of the digest. *)
Definition checksum (bs : bytes) : str :=
  [N.modulo (fold_left (fun acc b => (acc * 31 + Byte.to_N b)%N) bs 7%N) 1000003].

Definition digit (c : char) : option Z :=
  if ((48 <=? c) && (c <=? 57))%N then Some (Z.of_N c - 48) else None.

Definition two_digits (a b : char) : option Z :=
  match digit a, digit b with
  | Some x, Some y => Some (10 * x + y)
  | _, _ => None
  end.

Definition is_leap (y : Z) : bool :=
  ((y mod 4 =? 0) && negb (y mod 100 =? 0)) || (y mod 400 =? 0).

Definition days_in_month (y m : Z) : Z :=
  if m =? 2 then (if is_leap y then 29 else 28)
  else if (m =? 4) || (m =? 6) || (m =? 9) || (m =? 11) then 30 else 31.

(** Days from 1970-01-01 to the given civil date. *)
Definition days_from_civil (y m d : Z) : Z :=
  let y' := if m <=? 2 then y - 1 else y in
  let era := y' / 400 in
  let yoe := y' - era * 400 in
  let mp := if m >? 2 then m - 3 else m + 9 in
  let doy := (153 * mp + 2) / 5 + d - 1 in
  let doe := yoe * 365 + yoe / 4 - yoe / 100 + doy in
  era * 146097 + doe - 719468.

(** Zero-padded stamps [YYYY-MM-DD HH:MM:SS], in microseconds. *)
Definition parse_stamp (s : str) : option Z :=
  match s with
  | [y1; y2; y3; y4; 45; m1; m2; 45; d1; d2; 32; h1; h2; 58; i1; i2; 58; s1; s2]%N =>
      match two_digits y1 y2, two_digits y3 y4, two_digits m1 m2, two_digits d1 d2,
            two_digits h1 h2, two_digits i1 i2, two_digits s1 s2 with
      | Some yh, Some yl, Some mo, Some d, Some h, Some mi, Some sec =>
          let y := 100 * yh + yl in
          if (1 <=? y) && (1 <=? mo) && (mo <=? 12) && (1 <=? d)
             && (d <=? days_in_month y mo) && (h <? 24) && (mi <? 60) && (sec <? 60)
          then Some ((((days_from_civil y mo d * 24 + h) * 60 + mi) * 60 + sec) * 1000000)
          else None
      | _, _, _, _, _, _, _ => None
      end
  | _ => None
  end.

Definition two_digit (n : Z) : str := [Z.to_N (48 + n / 10); Z.to_N (48 + n mod 10)].

(** The civil date that lies the given number of days after 1970-01-01. *)
Definition civil_from_days (z : Z) : Z * Z * Z :=
  let z := z + 719468 in
  let era := z / 146097 in
  let doe := z - era * 146097 in
  let yoe := (doe - doe / 1460 + doe / 36524 - doe / 146096) / 365 in
  let doy := doe - (365 * yoe + yoe / 4 - yoe / 100) in
  let mp := (5 * doy + 2) / 153 in
  let d := doy - (153 * mp + 2) / 5 + 1 in
  let m := if mp <? 10 then mp + 3 else mp - 9 in
  let y := yoe + era * 400 + (if m <=? 2 then 1 else 0) in
  (y, m, d).

(** The stamp [YYYY-MM-DD HH:MM:SS] of a time given in microseconds. *)
Definition print_stamp (t : Z) : str :=
  let secs := t / 1000000 in
  let rem := secs mod 86400 in
  let '(y, m, d) := civil_from_days (secs / 86400) in
  two_digit (y / 100) ++ two_digit (y mod 100) ++ lit "-" ++ two_digit m
  ++ lit "-" ++ two_digit d ++ lit " " ++ two_digit (rem / 3600)
  ++ lit ":" ++ two_digit (rem / 60 mod 60) ++ lit ":" ++ two_digit (rem mod 60).

Definition quote : str := [34%N].

(** A compact JSON text for a value; strings are taken to need no escapes. *)
Fixpoint print_json (v : pyval) : str :=
  match v with
  | PNone => lit "null"
  | PBool true => lit "true"
  | PBool false => lit "false"
  | PInt z => lit (DecimalString.NilZero.string_of_int (Z.to_int z))
  | PFloat repr => repr
  | PStr s => quote ++ s ++ quote
  | PList l => lit "[" ++ join (lit ", ") (map print_json l) ++ lit "]"
  | PDict d =>
      lit "{"
      ++ join (lit ", ")
           (map (fun kv => match kv with
                           | (k, x) => quote ++ k ++ quote ++ lit ": " ++ print_json x
                           end) d)
      ++ lit "}"
  end.

Definition is_blank (c : char) : bool :=
  ((c =? 32) || (c =? 10) || (c =? 13) || (c =? 9))%N.

Fixpoint skip_blanks (s : str) : str :=
  match s with
  | c :: rest => if is_blank c then skip_blanks rest else s
  | [] => []
  end.

(** The characters up to the closing quote; a backslash is not understood. *)
Fixpoint take_string (s : str) : option (str * str) :=
  match s with
  | [] => None
  | c :: rest =>
      if (c =? 34)%N then Some ([], rest)
      else if (c =? 92)%N then None
      else match take_string rest with
           | Some (t, rest') => Some (c :: t, rest')
           | None => None
           end
  end.

Fixpoint take_digits (s : str) (acc : Z) : Z * str :=
  match s with
  | c :: rest =>
      match digit c with
      | Some d => take_digits rest (10 * acc + d)
      | None => (acc, s)
      end
  | [] => (acc, [])
  end.

(** A recursive-descent parser for null, booleans, integers, plain strings,
    arrays and objects; the fuel bounds the nesting and the item counts. *)
Fixpoint parse_value (fuel : nat) (s : str) : option (pyval * str) :=
  match fuel with
  | O => None
  | S fuel' =>
      let fix elements (n : nat) (s : str) : option (list pyval * str) :=
        match n with
        | O => None
        | S n' =>
            match parse_value fuel' s with
            | Some (v, rest) =>
                match skip_blanks rest with
                | 44 :: rest' =>
                    match elements n' rest' with
                    | Some (vs, r) => Some (v :: vs, r)
                    | None => None
                    end
                | 93 :: rest' => Some ([v], rest')
                | _ => None
                end
            | None => None
            end
        end in
      let fix members (n : nat) (s : str) : option (list (str * pyval) * str) :=
        match n with
        | O => None
        | S n' =>
            match skip_blanks s with
            | 34 :: after_quote =>
                match take_string after_quote with
                | Some (k, rest) =>
                    match skip_blanks rest with
                    | 58 :: rest' =>
                        match parse_value fuel' rest' with
                        | Some (v, rest'') =>
                            match skip_blanks rest'' with
                            | 44 :: more =>
                                match members n' more with
                                | Some (kvs, r) => Some ((k, v) :: kvs, r)
                                | None => None
                                end
                            | 125 :: r => Some ([(k, v)], r)
                            | _ => None
                            end
                        | None => None
                        end
                    | _ => None
                    end
                | None => None
                end
            | _ => None
            end
        end in
      match skip_blanks s with
      | 110 :: 117 :: 108 :: 108 :: rest => Some (PNone, rest)
      | 116 :: 114 :: 117 :: 101 :: rest => Some (PBool true, rest)
      | 102 :: 97 :: 108 :: 115 :: 101 :: rest => Some (PBool false, rest)
      | 34 :: rest =>
          match take_string rest with
          | Some (t, rest') => Some (PStr t, rest')
          | None => None
          end
      | 91 :: rest =>
          match skip_blanks rest with
          | 93 :: rest' => Some (PList [], rest')
          | _ => match elements (List.length rest) rest with
                 | Some (vs, r) => Some (PList vs, r)
                 | None => None
                 end
          end
      | 123 :: rest =>
          match skip_blanks rest with
          | 125 :: rest' => Some (PDict [], rest')
          | _ => match members (List.length rest) rest with
                 | Some (kvs, r) => Some (PDict kvs, r)
                 | None => None
                 end
          end
      | 45 :: c :: rest =>
          match digit c with
          | Some _ => let (n, r) := take_digits (c :: rest) 0 in Some (PInt (- n), r)
          | None => None
          end
      | c :: rest =>
          match digit c with
          | Some _ => let (n, r) := take_digits (c :: rest) 0 in Some (PInt n, r)
          | None => None
          end
      | [] => None
      end
  end%N.

Definition parse_json (text : str) : option pyval :=
  match parse_value (S (List.length text)) text with
  | Some (v, rest) => match skip_blanks rest with [] => Some v | _ => None end
  | None => None
  end.

Definition text_not_records : str :=
  lit "{" ++ quote ++ lit "not_records" ++ quote ++ lit ": []}".

Definition libraries : Libraries := {|
  md5_hexdigest := checksum;
  fitz_open := parse_document;
  strptime := parse_stamp;
  strftime := print_stamp;
  json_loads := parse_json;
  json_dumps := print_json;
  prompt_head := lit "Extract the study design as a table: ";
  report := str;
  build_report := fun result name => Ok (name ++ lit ": " ++ result)
|}.

Definition fresh_world (net : nat -> post_outcome) (clock : nat -> Z) : world :=
  mkWorld net 0 clock 0 [] [] [] None true None.

(** No network, a clock that stands still. *)
Definition offline : nat -> post_outcome :=
  fun _ => PostRaises (RequestException ConnectionFailed).

Definition quiet_world : world := fresh_world offline (fun _ => 0).

(** A successful response whose first choice has a message without content. *)
Definition no_content_response : response :=
  {| status_code := 200;
     json_result := Ok (PDict [(lit "choices",
                                PList [PDict [(lit "message", PDict [])]])]) |}.

Definition no_content_world : world :=
  fresh_world (fun _ => PostReturns no_content_response) (fun _ => 0).

(** The clock of the examples: noon of 20 June 2025. *)
Definition noon : Z :=
  match parse_stamp (lit "2025-06-20 12:00:00") with Some t => t | None => 0 end.

Definition entry (id stamp : String.string) : pyval :=
  PDict [(lit "id", PStr (lit id)); (key_time, PStr (lit stamp))].
Arguments entry (id stamp)%_string_scope.

Definition entry_today : pyval := entry "a" "2025-06-20 09:00:00".
Definition entry_3_days : pyval := entry "b" "2025-06-17 10:30:00".
Definition entry_8_days : pyval := entry "c" "2025-06-12 08:15:00".

Definition three_entries : list pyval := [entry_today; entry_3_days; entry_8_days].

(** The text of a history file that holds the three entries. *)
Definition history_text : str :=
  print_json (PDict [(lit "records", PList three_entries)]).

Definition history_world (file : option str) (session : option (list pyval)) : world :=
  mkWorld offline 0 (fun _ => noon) 0 [] [] [] file true session.

(** The key ["研究类型"] of the first row of the model's table. *)
Definition study_type : str := [30740; 31350; 31867; 22411]%N.

(** One page with a block of 5 and a block of 50 characters. *)
Definition pdf_5_and_50 : bytes :=
  to_bytes "Page1" ++ [x0a]
  ++ to_bytes "Subjects were randomized 1:1 to drug A or placebo.".

(** One page with one block of exactly 20 characters. *)
Definition pdf_20 : bytes := to_bytes "abcdefghijklmnopqrst".

End Sample.

(** * The rest of the program *)

(** ** String methods *)

(** The rest of [s] after the prefix [p], when [s] starts with [p]. *)
Fixpoint drop_prefix (p s : str) : option str :=
  match p, s with
  | [], _ => Some s
  | a :: p', b :: s' => if (a =? b)%N then drop_prefix p' s' else None
  | _ :: _, [] => None
  end.

(** [s.startswith(p)] *)
Definition startswith (s p : str) : bool :=
  match drop_prefix p s with Some _ => true | None => false end.

(** The text before and after the first occurrence of [sep] in [s]. *)
Fixpoint cut (sep s : str) : option (str * str) :=
  match drop_prefix sep s with
  | Some rest => Some ([], rest)
  | None =>
      match s with
      | [] => None
      | c :: s' =>
          match cut sep s' with
          | Some (before, after) => Some (c :: before, after)
          | None => None
          end
      end
  end.

(** [sub in s] *)
Definition contains (sub s : str) : bool :=
  match cut sub s with Some _ => true | None => false end.

(** [s.split(sep)] for a separator that is not empty; every cut shortens the
    text, so its length is fuel enough. *)
Fixpoint split_from (fuel : nat) (sep s : str) : list str :=
  match fuel with
  | O => [s]
  | S fuel' =>
      match cut sep s with
      | None => [s]
      | Some (before, after) => before :: split_from fuel' sep after
      end
  end.

Definition split (s sep : str) : list str := split_from (List.length s) sep s.


Fixpoint lstrip_where (p : char -> bool) (s : str) : str :=
  match s with
  | c :: rest => if p c then lstrip_where p rest else s
  | [] => []
  end.

(** [s.strip(chars)], the characters given by a test. *)
Definition strip_where (p : char -> bool) (s : str) : str :=
  rev (lstrip_where p (rev (lstrip_where p s))).

(** The line boundaries of [str.splitlines] other than the carriage return. *)
Definition is_linebreak (c : char) : bool :=
  ((c =? 10) || (c =? 11) || (c =? 12) || ((28 <=? c) && (c <=? 30))
   || (c =? 133) || (c =? 8232) || (c =? 8233))%N.

(** [s.splitlines()]; [cur] holds the current line, last character first.  A
    carriage return followed by a line feed is one boundary, and a boundary
    at the very end opens no further line. *)
Fixpoint splitlines_from (s : str) (cur : str) : list str :=
  match s with
  | [] => match cur with [] => [] | _ => [rev cur] end
  | c :: rest =>
      if (c =? 13)%N then
        match rest with
        | 10%N :: rest' => rev cur :: splitlines_from rest' []
        | _ => rev cur :: splitlines_from rest []
        end
      else if is_linebreak c then rev cur :: splitlines_from rest []
      else splitlines_from rest (c :: cur)
  end.

Definition splitlines (s : str) : list str := splitlines_from s [].


(** ** The delimited table (step 4 of [process_file_with_status]) *)

Definition bar : str := [124%N].
Definition comma : str := [44%N].
Definition is_bar (c : char) : bool := (c =? 124)%N.

(** The header ["要素,内容"] and the start ["| 要素"] of the header row of the
    model's table. *)
Definition csv_header : str := [35201; 32032; 44; 20869; 23481]%N.
Definition header_row_start : str := [124; 32; 35201; 32032]%N.

(** What one line of the model's answer adds to [csv_lines].  No character
    other than themselves is lowered to one of the four of ["| 要素"], so the
    test on [line.lower()] is the test on [line]. *)
Definition csv_row (line : str) : list str :=
  if contains bar line && negb (startswith line (lit "|---"))
     && negb (startswith line header_row_start)
  then
    let parts := map strip (split (strip_where is_bar line) bar) in
    if len parts >=? 2 then [join comma parts] else []
  else [].

Definition csv_lines_of (result : str) : list str :=
  csv_header :: flat_map csv_row (splitlines result).

(** ** The rows of the Word table ([generate_word_table]) *)




(** ** The content slides of the deck (main page) *)




(** ** Supplementary notes *)

(** The word ["补充说明"], and the same followed by a full-width colon. *)
Definition notes_word : str := [34917; 20805; 35828; 26126]%N.
Definition notes_word_colon : str := notes_word ++ [65306%N].

(** The text of the supplementary slide of the main page: [None] when no
    slide is added. *)
Definition supplementary_slide_text (result_text : str) : result (option str) :=
  if contains notes_word result_text then
    match nth_error (split result_text notes_word_colon) 1 with
    | Some t => Ok (Some (strip t))
    | None => Raise IndexError
    end
  else Ok None.

(** The text after the leftmost ["补充说明"] that a full-width or an ASCII
    colon follows. *)
Fixpoint after_notes_word (s : str) : option str :=
  match
    match drop_prefix notes_word s with
    | Some (c :: rest) => if ((c =? 65306) || (c =? 58))%N then Some rest else None
    | _ => None
    end
  with
  | Some rest => Some rest
  | None => match s with
            | [] => None
            | _ :: s' => after_notes_word s'
            end
  end.

(** The text up to the first pair of line feeds, or to the end. *)
Fixpoint until_blank_line (s : str) : str :=
  match s with
  | [] => []
  | c :: rest =>
      if (c =? 10)%N && startswith rest [10%N] then []
      else c :: until_blank_line rest
  end.

(** [extract_supplementary_notes]: the search for the pattern
    [补充说明[：:]\s*(.*?)(?=\n\n|\Z)] with [re.DOTALL].  The greedy [\s*] takes
    all the whitespace after the colon and the lazy group then stops at the
    first pair of line feeds or at the end, so the first try at the leftmost
    colon succeeds. *)
Definition extract_supplementary_notes (result : pyval) : option str :=
  match result with
  | PStr s =>
      match after_notes_word s with
      | Some rest => Some (strip (until_blank_line (lstrip rest)))
      | None => None
      end
  | _ => None
  end.

(** ** The batch of one submission (main page) *)

Definition split_batch {A : Type} (uploaded_files : list A) : list A * list A :=
  if len uploaded_files >? 5
  then (slice_to 5 uploaded_files, skipn 5 uploaded_files)
  else (uploaded_files, []).

(** ** Appending a finished run to the history (main page) *)

Definition remember_run {L : Libraries} (record : pyval) : M bool :=
  history <- get_session_history ;;
  match history with
  | None => raise AttributeError
  | Some records =>
      put_session_history (records ++ [record]) ;;;
      save_history (PList (records ++ [record]))
  end.

(** ** Clearing the upload directory ([clear_uploaded_files]) *)

(** What the working directory holds under the name [uploaded_pdfs]: nothing,
    something that is no directory, or a directory with its entries, each
    marked as a subdirectory or not. *)
Inductive upload_dir :=
| NoEntry
| NotADirectory
| Directory (entries : list (str * bool)).

Inductive admin_message := FilesCleared | NothingToClear | NoDirectory.

(** The loop of [os.remove]: a subdirectory cannot be removed. *)
Fixpoint remove_all (entries : list (str * bool)) : result unit * list (str * bool) :=
  match entries with
  | [] => (Ok tt, [])
  | (name, is_subdirectory) :: rest =>
      if is_subdirectory then (Raise OSError, entries) else remove_all rest
  end.

Definition clear_uploaded_files (d : upload_dir) : result admin_message * upload_dir :=
  match d with
  | NoEntry => (Ok NoDirectory, d)
  | NotADirectory => (Raise OSError, d)
  | Directory files =>
      if len files >? 0 then
        match remove_all files with
        | (Ok _, remaining) => (Ok FilesCleared, Directory remaining)
        | (Raise e, remaining) => (Raise e, Directory remaining)
        end
      else (Ok NothingToClear, d)
  end.

(** ** Counting in a trace *)

Definition is_post (e : event) : bool := match e with EvPost _ => true | _ => false end.
Definition is_sleep (e : event) : bool := match e with EvSleep _ => true | _ => false end.
Definition is_extract (e : event) : bool := match e with EvExtract _ => true | _ => false end.

Definition count_events (p : event -> bool) (evs : list event) : nat :=
  List.length (filter p evs).

(** ** More sample data *)

(** A successful response whose first choice carries [content]. *)
Definition answer_response (content : pyval) : response :=
  {| status_code := 200;
     json_result :=
       Ok (PDict [(lit "choices",
                   PList [PDict [(lit "message",
                                  PDict [(lit "content", content)])]])]) |}.

(** A network that fails the first [failures] requests and then answers. *)
Definition flaky (failures : nat) (content : pyval) : nat -> post_outcome :=
  fun k =>
    if (k <? failures)%nat then PostRaises (RequestException ConnectionFailed)
    else PostReturns (answer_response content).

Definition flaky_world (failures : nat) (content : pyval) : world :=
  Sample.fresh_world (flaky failures content) (fun _ => Sample.noon).

(** A parser that reports the same page for every stream: one text block of
    thirty lone surrogates, which no UTF-8 encoder accepts. *)
Definition surrogate_libraries : Libraries := {|
  md5_hexdigest := Sample.checksum;
  fitz_open := fun _ => Some [[ {| b4 := repeat 55296%N 30; b6 := 0 |} ]];
  strptime := Sample.parse_stamp;
  strftime := Sample.print_stamp;
  json_loads := Sample.parse_json;
  json_dumps := Sample.print_json;
  prompt_head := lit "Extract the study design as a table: ";
  report := str;
  build_report := fun result name => Ok (name ++ lit ": " ++ result)
|}.

(** Uploads of the examples. *)
Definition trial_upload : uploaded_file :=
  {| uf_name := lit "trial.PDF"; uf_value := Sample.pdf_5_and_50 |}.

Definition scan_upload : uploaded_file :=
  {| uf_name := lit "scan.pdf"; uf_value := Sample.pdf_20 |}.

Definition empty_upload : uploaded_file :=
  {| uf_name := lit "empty.pdf"; uf_value := [] |}.

Definition text_upload : uploaded_file :=
  {| uf_name := lit "notes.txt"; uf_value := Sample.pdf_5_and_50 |}.

(** The document, the text and the encoded text of [trial_upload]. *)
Definition trial_document : document :=
  match Sample.parse_document Sample.pdf_5_and_50 with Some d => d | None => [] end.

Definition trial_text : str :=
  slice_to 30000 (join newline (document_text_blocks trial_document)).

Definition trial_encoded : bytes :=
  match utf8_encode trial_text with Ok b => b | Raise _ => [] end.

(** A table of one line as the answer of the model. *)
Definition table_answer : str := lit "| design | RCT |".

(** The stamps of [Sample.three_entries]. *)
Definition three_times : list Z :=
  [Sample.noon - 10800000000; Sample.noon - 264600000000; Sample.noon - 704700000000].

(** A record without the field of the time, and a value that is no record. *)
Definition entry_without_stamp : pyval := PDict [(lit "id", PStr (lit "z"))].

Definition stray_value : pyval := PStr (lit "stray").

(** The text of a history file that holds a good record and one without a
    stamp. *)
Definition damaged_history_text : str :=
  Sample.print_json
    (PDict [(lit "records", PList [Sample.entry_today; entry_without_stamp])]).

(** A world whose history file cannot be written. *)
Definition read_only_world (session : option (list pyval)) : world :=
  mkWorld Sample.offline 0 (fun _ => Sample.noon) 0 [] [] [] None false session.

(** * Vocabulary of the properties *)

(** The blocks that the description of the extractor retains: text blocks
    whose cleaned text is longer than 20 characters, each as its cleaned
    text, page after page. *)
Definition is_retained (b : block) : bool := (b6 b =? 0) && (20 <? len (clean_text b)).

Definition retained_blocks (d : document) : list str :=
  flat_map (fun p => map clean_text (filter is_retained p)) d.

(** What one attempt of the model call computes from the outcome of its
    request, before the exception handlers. *)
Definition attempt_value (o : post_outcome) : result pyval :=
  match o with
  | PostRaises e => Raise e
  | PostReturns r =>
      result_bind (raise_for_status r) (fun _ =>
      result_bind (json_result r) first_choice_content)
  end.

(** A transient failure: the request raises a [RequestException] (no
    connection, timeout) or the response carries an HTTP error status. *)
Definition transient (o : post_outcome) : bool :=
  match o with
  | PostRaises e => is_request_exception e
  | PostReturns r => (400 <=? status_code r) && (status_code r <? 600)
  end.

(** A response without HTTP error status that is malformed: its body does
    not parse (and the parser's exception is no [RequestException]), or a
    step of the path to the first choice's message content fails. *)
Definition malformed (r : response) : Prop :=
  raise_for_status r = Ok tt
  /\ match json_result r with
     | Ok body => exists e, first_choice_content body = Raise e
     | Raise e => is_request_exception e = false
     end.

(** An attempt that ends in the generic handler. *)
Definition generic_error (o : post_outcome) : Prop :=
  exists e, attempt_value o = Raise e /\ is_request_exception e = false.

(** A record whose ['时间'] field is a stamp that parses to the time [t]. *)
Definition stamped {L : Libraries} (r : pyval) (t : Z) : Prop :=
  exists s, getitem_str r key_time = Ok (PStr s) /\ strptime s = Some t.

(** The time [t] lies [d] whole days before [now]. *)
Definition days_before (now t d : Z) : Prop :=
  timedelta_days d <= now - t < timedelta_days (d + 1).

Definition is_dict (v : pyval) : Prop :=
  match v with PDict _ => True | _ => False end.

(** The record is a dict whose ['id'] is the given string. *)
Definition has_id (record_id : str) (r : pyval) : bool :=
  match r with
  | PDict d =>
      match dict_get d (lit "id") with
      | Some (PStr t) => str_eqb t record_id
      | _ => false
      end
  | _ => false
  end.

(** What [save_history] writes for the records it keeps out of [n]. *)
Definition history_document {L : Libraries} (kept : list pyval) (n : Z) (stamp : Z)
  : pyval :=
  PDict [(lit "records", PList kept);
         (lit "metadata",
          PDict [(lit "last_updated", PStr (strftime stamp));
                 (lit "total_records", PInt (len kept));
                 (lit "cleaned_records", PInt (n - len kept))])].

(** The line [| key | value |] of a Markdown table. *)
Definition table_line (key value : str) : str :=
  [124; 32]%N ++ key ++ [32; 124; 32]%N ++ value ++ [32; 124]%N.


(** Two line feeds in a row: an empty line. *)
Definition blank_line : str := [10; 10]%N.

(** The word ["补充说明"] followed by an ASCII colon. *)
Definition notes_word_ascii_colon : str := notes_word ++ [58%N].

(** What [k] attempts in a row that end in the retry notice leave in the
    trace, the first of them being attempt [n]: the request, the notice and
    the sleep before the next attempt. *)
Fixpoint failed_attempts_trace (prompt : str) (wait : Z -> Z) (n : Z) (k : nat)
  : list event :=
  match k with
  | O => []
  | S k' =>
      [EvPost prompt; EvStError ModelCallWillRetry; EvSleep (wait n)]
      ++ failed_attempts_trace prompt wait (n + 1) k'
  end.

(** What a model call for [prompt] may leave in the trace: requests with
    that prompt, sleeps of 4 to 10 seconds and notices. *)
Definition model_call_event (prompt : str) (e : event) : Prop :=
  match e with
  | EvPost p => p = prompt
  | EvSleep seconds => 4 <= seconds <= 10
  | EvStError _ => True
  | EvExtract _ => False
  end.



(** A record without a usable stamp: it is no dict, has no ['时间'] field,
    or the field is no string or does not parse. *)
Definition unstamped {L : Libraries} (r : pyval) : Prop :=
  match getitem_str r key_time with
  | Ok (PStr s) => strptime s = None
  | _ => True
  end.

(** The records that the retention rule keeps at the time [now], given
    their stamps. *)
Definition kept_at (now : Z) (records : list pyval) (times : list Z) : list pyval :=
  map fst (filter (fun rt => snd rt >? now - timedelta_days 7) (combine records times)).

(** * Properties *)

(** ** Comparisons and the monad *)

Lemma gtb_true (a b : Z) : b < a -> (a >? b) = true.
Proof. intros H. rewrite Z.gtb_ltb. now apply Z.ltb_lt. Qed.

Lemma gtb_false (a b : Z) : a <= b -> (a >? b) = false.
Proof. intros H. rewrite Z.gtb_ltb. now apply Z.ltb_ge. Qed.

Lemma len_nonneg {A : Type} (l : list A) : 0 <= len l.
Proof. unfold len. lia. Qed.

Lemma len_app {A : Type} (l1 l2 : list A) : len (l1 ++ l2) = len l1 + len l2.
Proof. unfold len. rewrite length_app. lia. Qed.

Lemma bind_ok {A B : Type} (m : M A) (f : A -> M B) (w w' : world) (a : A) :
  m w = (Ok a, w') -> bind m f w = f a w'.
Proof. intros H. unfold bind. now rewrite H. Qed.

Lemma bind_raise {A B : Type} (m : M A) (f : A -> M B) (w w' : world) (e : exn) :
  m w = (Raise e, w') -> bind m f w = (Raise e, w').
Proof. intros H. unfold bind. now rewrite H. Qed.

Lemma try_except_ok {A : Type} (m : M A) (h : exn -> M A) (w w' : world) (a : A) :
  m w = (Ok a, w') -> try_except m h w = (Ok a, w').
Proof. intros H. unfold try_except. now rewrite H. Qed.

Lemma try_except_raise {A : Type} (m : M A) (h : exn -> M A) (w w' : world) (e : exn) :
  m w = (Raise e, w') -> try_except m h w = h e w'.
Proof. intros H. unfold try_except. now rewrite H. Qed.

(** ** The memoisation decorator *)

Section MemoFacts.
Variables K V : Type.
Variable key_eq_dec : forall a b : K, {a = b} + {a <> b}.
Variable get_cache : world -> list (K * V).
Variable set_cache : list (K * V) -> world -> world.

Lemma st_cache_data_hit (n : nat) (key : K) (compute : M V) (w : world) (v : V) :
  cache_lookup key_eq_dec (get_cache w) key = Some v ->
  st_cache_data key_eq_dec get_cache set_cache n key compute w = (Ok v, w).
Proof. intros H. unfold st_cache_data. now rewrite H. Qed.

Lemma st_cache_data_miss_ok (n : nat) (key : K) (compute : M V) (w w' : world) (v : V) :
  cache_lookup key_eq_dec (get_cache w) key = None ->
  compute w = (Ok v, w') ->
  st_cache_data key_eq_dec get_cache set_cache n key compute w
  = (Ok v, set_cache (cache_store n (get_cache w') key v) w').
Proof. intros H Hc. unfold st_cache_data. now rewrite H, Hc. Qed.

Lemma st_cache_data_miss_raise (n : nat) (key : K) (compute : M V) (w w' : world) (e : exn) :
  cache_lookup key_eq_dec (get_cache w) key = None ->
  compute w = (Raise e, w') ->
  st_cache_data key_eq_dec get_cache set_cache n key compute w = (Raise e, w').
Proof. intros H Hc. unfold st_cache_data. now rewrite H, Hc. Qed.

Lemma cache_lookup_app_absent (c : list (K * V)) (k : K) (v : V) :
  cache_lookup key_eq_dec c k = None ->
  cache_lookup key_eq_dec (c ++ [(k, v)]) k = Some v.
Proof.
  induction c as [| [k' v'] c IH]; simpl; intros H.
  - destruct (key_eq_dec k k); congruence.
  - destruct (key_eq_dec k k'); [discriminate | auto].
Qed.

Lemma cache_lookup_skipn_absent (c : list (K * V)) (k : K) (m : nat) :
  cache_lookup key_eq_dec c k = None ->
  cache_lookup key_eq_dec (skipn m c) k = None.
Proof.
  revert m. induction c as [| [k' v'] c IH]; intros m H.
  - now rewrite skipn_nil.
  - destruct m as [| m]; [exact H |]. simpl in *.
    destruct (key_eq_dec k k'); [discriminate | auto].
Qed.

(** With room for at least one entry, the value just stored is found. *)
Lemma cache_lookup_store (n : nat) (c : list (K * V)) (k : K) (v : V) :
  (1 <= n)%nat ->
  cache_lookup key_eq_dec c k = None ->
  cache_lookup key_eq_dec (cache_store n c k v) k = Some v.
Proof.
  intros Hn Hc. unfold cache_store. cbv zeta.
  rewrite length_app. simpl List.length.
  remember (List.length c + 1 - n)%nat as m eqn:Hm.
  assert (Hle : (m <= List.length c)%nat) by lia.
  rewrite skipn_app.
  replace (m - List.length c)%nat with 0%nat by lia. simpl skipn.
  apply cache_lookup_app_absent.
  now apply cache_lookup_skipn_absent.
Qed.

Lemma cache_lookup_app_other (c : list (K * V)) (k k' : K) (v : V) :
  k' <> k ->
  cache_lookup key_eq_dec (c ++ [(k, v)]) k' = cache_lookup key_eq_dec c k'.
Proof.
  intros Hne. induction c as [| [k0 v0] c IH]; simpl.
  - destruct (key_eq_dec k' k); [contradiction | reflexivity].
  - destruct (key_eq_dec k' k0); [reflexivity | exact IH].
Qed.

(** Storing under one key does not make another key present. *)
Lemma cache_lookup_store_other (n : nat) (c : list (K * V)) (k k' : K) (v : V) :
  k' <> k ->
  cache_lookup key_eq_dec c k' = None ->
  cache_lookup key_eq_dec (cache_store n c k v) k' = None.
Proof.
  intros Hne Hc. unfold cache_store. cbv zeta.
  apply cache_lookup_skipn_absent. now rewrite cache_lookup_app_other.
Qed.

(** Whatever way the decorated function returns a value, the value is in the
    cache afterwards, provided the function itself leaves the cache alone. *)
Lemma st_cache_data_stored (n : nat) (key : K) (compute : M V) (w w' : world) (v : V) :
  (1 <= n)%nat ->
  (forall c w0, get_cache (set_cache c w0) = c) ->
  (forall w0, get_cache (snd (compute w0)) = get_cache w0) ->
  st_cache_data key_eq_dec get_cache set_cache n key compute w = (Ok v, w') ->
  cache_lookup key_eq_dec (get_cache w') key = Some v.
Proof.
  intros Hn Hset Hframe. unfold st_cache_data.
  destruct (cache_lookup key_eq_dec (get_cache w) key) as [v0 |] eqn:Hl.
  - intros [= <- <-]. exact Hl.
  - specialize (Hframe w).
    destruct (compute w) as [[v1 | e] w1]; [| discriminate].
    intros [= <- <-]. rewrite Hset. simpl in Hframe.
    apply cache_lookup_store; [exact Hn | now rewrite Hframe].
Qed.

End MemoFacts.

(** ** Text extraction *)

Section ExtractionFacts.
Context {L : Libraries}.

Lemma lstrip_incl (s : str) (c : char) : In c (lstrip s) -> In c s.
Proof.
  induction s as [| x s IH]; simpl; [tauto |].
  destruct (is_space x); simpl; intuition.
Qed.

Lemma lstrip_length (s : str) : (List.length (lstrip s) <= List.length s)%nat.
Proof.
  induction s as [| x s IH]; simpl; [lia |].
  destruct (is_space x); simpl; lia.
Qed.

Lemma strip_incl (s : str) (c : char) : In c (strip s) -> In c s.
Proof.
  unfold strip. intros H.
  apply in_rev in H. apply lstrip_incl in H.
  apply in_rev in H. now apply lstrip_incl in H.
Qed.

Lemma strip_length (s : str) : (List.length (strip s) <= List.length s)%nat.
Proof.
  unfold strip. rewrite length_rev.
  etransitivity; [apply lstrip_length |].
  rewrite length_rev. apply lstrip_length.
Qed.

Lemma clean_text_no_null (b : block) : ~ In 0%N (clean_text b).
Proof.
  unfold clean_text. intros H. apply strip_incl in H.
  apply filter_In in H. destruct H as [_ H]. discriminate.
Qed.

Lemma filter_length_le {A : Type} (p : A -> bool) (l : list A) :
  (List.length (filter p l) <= List.length l)%nat.
Proof. induction l as [| x l IH]; simpl; [lia |]. destruct (p x); simpl; lia. Qed.

Lemma clean_text_length (b : block) : len (clean_text b) <= len (b4 b).
Proof.
  unfold clean_text, len. apply Nat2Z.inj_le.
  etransitivity; [apply strip_length | apply filter_length_le].
Qed.

Lemma block_contribution_retained (b : block) :
  block_contribution b = if is_retained b then [clean_text b] else [].
Proof.
  unfold block_contribution, is_retained.
  destruct (b6 b =? 0); simpl; [| reflexivity].
  rewrite Z.gtb_ltb.
  destruct (20 <? len (clean_text b)) eqn:E.
  - destruct (clean_text b) eqn:Ec; [discriminate E | reflexivity].
  - now rewrite andb_false_r.
Qed.

Lemma page_text_blocks_retained (p : page) :
  page_text_blocks p = map clean_text (filter is_retained p).
Proof.
  unfold page_text_blocks.
  induction p as [| b p IH]; simpl; [reflexivity |].
  rewrite block_contribution_retained, IH.
  now destruct (is_retained b).
Qed.

Lemma document_text_blocks_retained (d : document) :
  document_text_blocks d = retained_blocks d.
Proof.
  unfold document_text_blocks, retained_blocks.
  induction d as [| p d IH]; simpl; [reflexivity |].
  now rewrite page_text_blocks_retained, IH.
Qed.

Lemma retained_blocks_spec (d : document) (t : str) :
  In t (retained_blocks d) ->
  exists p b, In p d /\ In b p /\ b6 b = 0 /\ t = clean_text b /\ 20 < len t.
Proof.
  unfold retained_blocks. intros H.
  apply in_flat_map in H. destruct H as [p [Hp H]].
  apply in_map_iff in H. destruct H as [b [Ht H]].
  apply filter_In in H. destruct H as [Hb H].
  unfold is_retained in H. apply andb_prop in H. destruct H as [H6 H20].
  exists p, b. subst t. repeat split; auto.
  - now apply Z.eqb_eq.
  - now apply Z.ltb_lt.
Qed.

Lemma extract_body_small (file_hash : str) (file_bytes : bytes) (doc : document) (w : world) :
  len file_bytes <= MAX_FILE_SIZE ->
  fitz_open file_bytes = Some doc ->
  extract_text_from_pdf_body file_hash file_bytes w
  = (Ok (join newline (document_text_blocks doc)), logged (EvExtract file_bytes) w).
Proof.
  intros Hlen Hopen. unfold extract_text_from_pdf_body.
  rewrite (gtb_false Hlen).
  unfold bind, lift, open_document, ret. simpl. now rewrite Hopen.
Qed.

Lemma extract_body_unparseable (file_hash : str) (file_bytes : bytes) (w : world) :
  len file_bytes <= MAX_FILE_SIZE ->
  fitz_open file_bytes = None ->
  extract_text_from_pdf_body file_hash file_bytes w
  = (Raise FileDataError, logged (EvExtract file_bytes) w).
Proof.
  intros Hlen Hopen. unfold extract_text_from_pdf_body.
  rewrite (gtb_false Hlen).
  unfold bind, lift, open_document, ret. simpl. now rewrite Hopen.
Qed.

Lemma extract_body_large (file_hash : str) (file_bytes : bytes) (w : world) :
  MAX_FILE_SIZE < len file_bytes ->
  extract_text_from_pdf_body file_hash file_bytes w
  = (Raise AttributeError, logged (EvExtract file_bytes) w).
Proof.
  intros Hlen. unfold extract_text_from_pdf_body.
  rewrite (gtb_true Hlen). reflexivity.
Qed.

End ExtractionFacts.

(** C7, as amended: for a parseable PDF within the size limit, the extractor
    returns the newline-joined cleaned texts (null characters removed, then
    surrounding whitespace stripped) of the text blocks whose cleaned text is
    longer than 20 characters, in document order; every retained text is
    the cleaned text of a text block and holds no null character; and a
    page made of a 5-character text block and a text block of 50 cleaned
    characters yields exactly the latter. *)
Theorem extraction_keeps_cleaned_text_blocks_over_20 :
  forall (L : Libraries) (file_hash : str) (file_bytes : bytes) (doc : document)
         (w : world),
    len file_bytes <= MAX_FILE_SIZE ->
    fitz_open file_bytes = Some doc ->
    cache_lookup pdf_key_eq_dec (w_pdf_cache w) (file_hash, file_bytes) = None ->
    fst (extract_text_from_pdf_by_hash file_hash file_bytes w)
    = Ok (join newline (retained_blocks doc))
    /\ (forall t, In t (retained_blocks doc) ->
        ~ In 0%N t
        /\ exists p b, In p doc /\ In b p /\ b6 b = 0 /\ t = clean_text b /\ 20 < len t)
    /\ (forall b5 b50 : block,
          b6 b5 = 0 -> b6 b50 = 0 ->
          len (b4 b5) = 5 -> len (clean_text b50) = 50 ->
          doc = [[b5; b50]] \/ doc = [[b50; b5]] ->
          fst (extract_text_from_pdf_by_hash file_hash file_bytes w)
          = Ok (clean_text b50)).
Proof.
  intros L file_hash file_bytes doc w Hlen Hopen Hmiss.
  assert (Hrun : fst (extract_text_from_pdf_by_hash file_hash file_bytes w)
                 = Ok (join newline (retained_blocks doc))).
  { unfold extract_text_from_pdf_by_hash.
    erewrite st_cache_data_miss_ok;
      [| exact Hmiss | apply extract_body_small; eassumption].
    simpl. now rewrite document_text_blocks_retained. }
  split; [exact Hrun |]. split.
  - intros t Ht. apply retained_blocks_spec in Ht.
    destruct Ht as [p [b [Hp [Hb [H6 [Ht H20]]]]]]. split.
    + subst t. apply clean_text_no_null.
    + exists p, b. auto.
  - intros b5 b50 H5 H50 Hl5 Hl50 Hdoc. rewrite Hrun. f_equal.
    assert (R5 : is_retained b5 = false).
    { unfold is_retained. rewrite H5. simpl.
      apply Z.ltb_ge. pose proof (clean_text_length b5). lia. }
    assert (R50 : is_retained b50 = true).
    { unfold is_retained. rewrite H50, Hl50. reflexivity. }
    destruct Hdoc as [-> | ->]; unfold retained_blocks; simpl;
      rewrite R5, R50; reflexivity.
Qed.

Lemma extraction_keeps_cleaned_text_blocks_over_20_witness :
  fst (extract_text_from_pdf_by_hash (L := Sample.libraries) []
         Sample.pdf_5_and_50 Sample.quiet_world)
  = Ok (lit "Subjects were randomized 1:1 to drug A or placebo.").
Proof.
  refine (proj1 (@extraction_keeps_cleaned_text_blocks_over_20
                   (Sample.libraries) [] Sample.pdf_5_and_50
                   [[ {| b4 := lit "Page1"; b6 := 0 |};
                      {| b4 := lit "Subjects were randomized 1:1 to drug A or placebo.";
                         b6 := 0 |} ]]
                   Sample.quiet_world _ _ _)).
  - vm_compute. discriminate.
  - reflexivity.
  - reflexivity.
Defined.

(** C7, as stated, fails: a text block of exactly 20 characters, none of them
    null or whitespace, is not shorter than 20 characters, and yet the
    extractor discards it and returns the empty text. *)
Lemma twenty_character_block_is_discarded :
  let b := {| b4 := lit "abcdefghijklmnopqrst"; b6 := 0 |} in
  fitz_open (Libraries := Sample.libraries) Sample.pdf_20 = Some [[b]]
  /\ len (b4 b) = 20
  /\ ~ len (b4 b) < 20
  /\ fst (extract_text_from_pdf_by_hash (L := Sample.libraries) []
            Sample.pdf_20 Sample.quiet_world) = Ok []
  /\ @Ok str [] <> Ok (b4 b).
Proof.
  cbv zeta. repeat split; try reflexivity.
  - vm_compute. discriminate.
  - discriminate.
Qed.

(** ** The path for large inputs *)

Section LargeFacts.
Context {L : Libraries}.

Lemma windows_from_concat (chunk_size : nat) (fuel : nat) (bs : bytes) :
  (0 < chunk_size)%nat -> (List.length bs <= fuel)%nat ->
  concat (windows_from fuel chunk_size bs) = bs.
Proof.
  intros Hpos. revert bs.
  induction fuel as [| fuel IH]; intros bs Hfuel.
  - destruct bs; [reflexivity | simpl in Hfuel; lia].
  - destruct bs as [| b bs]; [reflexivity |].
    cbn [windows_from concat]. rewrite IH.
    + apply firstn_skipn.
    + rewrite length_skipn. cbn [List.length] in *. lia.
Qed.

(** The windows are consecutive slices that cover the input. *)
Lemma windows_concat (chunk_size : nat) (bs : bytes) :
  (0 < chunk_size)%nat -> concat (windows chunk_size bs) = bs.
Proof. intros H. apply windows_from_concat; auto. Qed.

Lemma chunks_text_blocks_ok (chunks : list bytes) (docs : list document) :
  Forall2 (fun c d => fitz_open c = Some d) chunks docs ->
  chunks_text_blocks chunks = Ok (flat_map document_text_blocks docs).
Proof.
  induction 1 as [| c d chunks docs Hc _ IH]; simpl; [reflexivity |].
  unfold open_document. rewrite Hc. simpl. now rewrite IH.
Qed.

(** Given an uploaded-file object whose windows all parse,
    [process_large_file] returns the retained text of the windows in order. *)
Lemma process_large_file_on_upload (f : uploaded_file) (docs : list document) (w : world) :
  Forall2 (fun c d => fitz_open c = Some d)
          (windows (Z.to_nat (1024 * 1024)) (uf_value f)) docs ->
  process_large_file (ObjUploadedFile f) w
  = (Ok (join newline (flat_map document_text_blocks docs)), w).
Proof.
  intros H. unfold process_large_file, bind, lift, ret. cbv zeta.
  cbn [getvalue]. now rewrite (chunks_text_blocks_ok H).
Qed.

(** An upload above the size limit never reaches the extractor. *)
Lemma oversized_upload_is_rejected (f : uploaded_file) (w : world) :
  MAX_FILE_SIZE < len (uf_value f) ->
  process_file_with_status f w = (Ok None, logged (EvStError FileTooLarge) w).
Proof.
  intros H. unfold process_file_with_status, try_except, bind, validate_file.
  rewrite (gtb_true H). reflexivity.
Qed.

End LargeFacts.

(** C8: the code does not chunk.  For every input above the threshold the
    extractor hands the raw bytes to [process_large_file], which asks them
    for [getvalue()]; the call raises [AttributeError] and nothing is
    extracted or cached. *)
Theorem oversized_input_raises_attribute_error :
  forall (L : Libraries) (file_hash : str) (file_bytes : bytes) (w : world),
    MAX_FILE_SIZE < len file_bytes ->
    cache_lookup pdf_key_eq_dec (w_pdf_cache w) (file_hash, file_bytes) = None ->
    fst (extract_text_from_pdf_by_hash file_hash file_bytes w) = Raise AttributeError
    /\ w_pdf_cache (snd (extract_text_from_pdf_by_hash file_hash file_bytes w))
       = w_pdf_cache w.
Proof.
  intros L file_hash file_bytes w Hlen Hmiss.
  unfold extract_text_from_pdf_by_hash.
  erewrite st_cache_data_miss_raise;
    [| exact Hmiss | apply extract_body_large; exact Hlen].
  split; reflexivity.
Qed.

Lemma oversized_input_raises_attribute_error_witness :
  let file_bytes := repeat x00 (Z.to_nat (MAX_FILE_SIZE + 1)) in
  fst (extract_text_from_pdf_by_hash (L := Sample.libraries) [] file_bytes
         Sample.quiet_world) = Raise AttributeError
  /\ w_pdf_cache (snd (extract_text_from_pdf_by_hash (L := Sample.libraries) []
                         file_bytes Sample.quiet_world))
     = w_pdf_cache Sample.quiet_world.
Proof.
  cbv zeta.
  apply (@oversized_input_raises_attribute_error (Sample.libraries) []
           (repeat x00 (Z.to_nat (MAX_FILE_SIZE + 1))) Sample.quiet_world).
  - unfold len. rewrite repeat_length. rewrite Z2Nat.id; unfold MAX_FILE_SIZE; lia.
  - reflexivity.
Defined.

(** ** File names *)

Lemma sanitize_filename_safe (filename : str) :
  Forall (fun c => is_safe c = true) (sanitize_filename filename)
  /\ sanitize_filename filename <> [].
Proof.
  unfold sanitize_filename.
  destruct (filter is_safe filename) as [| c rest] eqn:E.
  - split; [| discriminate]. vm_compute. repeat constructor.
  - split; [| discriminate]. rewrite <- E.
    apply Forall_forall. intros x Hx. now apply filter_In in Hx.
Qed.

(** C9: the code does not sanitise.  The names of the three download
    artifacts embed the base name of the upload as it came: every character
    of it, allowed or not, is in each of them. *)
Theorem download_names_keep_unsafe_characters :
  forall (today : str) (f : uploaded_file) (c : char),
    In c (fst (splitext (uf_name f))) ->
    is_safe c = false ->
    Forall (fun name => In c name) (download_names today f).
Proof.
  intros today f c Hin _. unfold download_names.
  repeat apply Forall_cons; try apply Forall_nil;
    do 2 (apply in_or_app; right); apply in_or_app; left; exact Hin.
Qed.

Lemma download_names_keep_unsafe_characters_witness :
  let f := {| uf_name := lit "my report#1.pdf"; uf_value := [] |} in
  fst (splitext (uf_name f)) = lit "my report#1"
  /\ sanitize_filename (uf_name f) = lit "myreport1.pdf"
  /\ download_names (lit "20250101") f
     = [ lit "20250101_my report#1" ++ structured_suffix ++ lit ".csv";
         lit "20250101_my report#1" ++ structured_suffix ++ lit ".pptx";
         lit "20250101_my report#1" ++ structured_suffix ++ lit ".docx" ]
  /\ Forall (fun name => In 35%N name) (download_names (lit "20250101") f).
Proof.
  cbv zeta. repeat split; try reflexivity.
  apply (@download_names_keep_unsafe_characters (lit "20250101")
           {| uf_name := lit "my report#1.pdf"; uf_value := [] |} 35%N).
  - vm_compute. tauto.
  - reflexivity.
Defined.

(** ** Model client *)

Section ModelClientFacts.
Context {L : Libraries}.

Lemma getitem_str_error (v : pyval) (k : str) (e : exn) :
  getitem_str v k = Raise e -> is_request_exception e = false.
Proof.
  destruct v; simpl; try (intros [= <-]; reflexivity).
  destruct (dict_get items k); intros [= <-]; reflexivity.
Qed.

Lemma getitem_int_error (v : pyval) (i : Z) (e : exn) :
  getitem_int v i = Raise e -> is_request_exception e = false.
Proof.
  destruct v; simpl; try (intros [= <-]; reflexivity).
  - destruct (_ || _); [intros [= <-]; reflexivity |].
    destruct (nth_error _ _); intros [= <-]; reflexivity.
  - destruct (_ || _); [intros [= <-]; reflexivity |].
    destruct (nth_error _ _); intros [= <-]; reflexivity.
Qed.

Lemma first_choice_content_error (body : pyval) (e : exn) :
  first_choice_content body = Raise e -> is_request_exception e = false.
Proof.
  unfold first_choice_content, result_bind.
  destruct (getitem_str body (lit "choices")) as [choices |] eqn:E1;
    [| intros [= <-]; eapply getitem_str_error; eassumption].
  destruct (getitem_int choices 0) as [first |] eqn:E2;
    [| intros [= <-]; eapply getitem_int_error; eassumption].
  destruct (getitem_str first (lit "message")) as [message |] eqn:E3;
    [| intros [= <-]; eapply getitem_str_error; eassumption].
  apply getitem_str_error.
Qed.

Lemma malformed_generic_error (r : response) :
  malformed r -> generic_error (PostReturns r).
Proof.
  intros [Hstatus Hbody]. unfold generic_error, attempt_value.
  rewrite Hstatus. simpl. destruct (json_result r) as [body | e]; simpl.
  - destruct Hbody as [e He]. exists e. split; [exact He |].
    eapply first_choice_content_error; eassumption.
  - exists e. split; [reflexivity | exact Hbody].
Qed.

Lemma transient_attempt_value (o : post_outcome) :
  transient o = true ->
  exists e, attempt_value o = Raise e /\ is_request_exception e = true.
Proof.
  destruct o as [e | r]; simpl; intros H.
  - exists e. auto.
  - unfold raise_for_status. rewrite H. simpl. eexists. split; reflexivity.
Qed.

(** One attempt, by cases on what the request and the response give. *)
Lemma extract_study_design_body_run (text : str) (w : world) :
  extract_study_design_body text w
  = match attempt_value (w_net w (w_posts w)) with
    | Ok v => (Ok v, posted (build_prompt text) w)
    | Raise e =>
        if is_request_exception e
        then (Raise e, logged (EvStError ModelCallWillRetry) (posted (build_prompt text) w))
        else (Ok (PStr []), logged (EvStError ProcessingError) (posted (build_prompt text) w))
    end.
Proof.
  unfold extract_study_design_body, try_except, bind, requests_post, lift, attempt_value.
  cbv zeta.
  destruct (w_net w (w_posts w)) as [e | r].
  - destruct (is_request_exception e); reflexivity.
  - destruct (raise_for_status r) as [[] | e]; simpl.
    + destruct (json_result r) as [body | e]; simpl.
      * destruct (first_choice_content body) as [v | e]; [reflexivity |].
        destruct (is_request_exception e); reflexivity.
      * destruct (is_request_exception e); reflexivity.
    + destruct (is_request_exception e); reflexivity.
Qed.

Lemma attempt_generic (text : str) (w : world) :
  generic_error (w_net w (w_posts w)) ->
  extract_study_design_body text w
  = (Ok (PStr []), logged (EvStError ProcessingError) (posted (build_prompt text) w)).
Proof.
  intros [e [He Hne]]. rewrite extract_study_design_body_run, He, Hne. reflexivity.
Qed.

Lemma attempt_transient (text : str) (w : world) (e : exn) :
  attempt_value (w_net w (w_posts w)) = Raise e ->
  is_request_exception e = true ->
  extract_study_design_body text w
  = (Raise e, logged (EvStError ModelCallWillRetry) (posted (build_prompt text) w)).
Proof.
  intros He Hreq. rewrite extract_study_design_body_run, He, Hreq. reflexivity.
Qed.

(** An attempt that does not raise ends the decorated call at once. *)
Lemma retry_from_ok {A : Type} (more : nat) (wait : Z -> Z) (n : Z) (fn : M A)
  (w w' : world) (v : A) :
  fn w = (Ok v, w') -> retry_from more wait n fn w = (Ok v, w').
Proof. intros H. destruct more; simpl; unfold try_except; now rewrite H. Qed.

Lemma generic_error_no_retry (text : str) (w : world) :
  generic_error (w_net w (w_posts w)) ->
  extract_study_design text w
  = (Ok (PStr []), logged (EvStError ProcessingError) (posted (build_prompt text) w)).
Proof.
  intros H. unfold extract_study_design, retry.
  apply retry_from_ok. now apply attempt_generic.
Qed.

(** The waiting times of the decorator. *)
Lemma wait_exponential_clamped (n : Z) :
  wait_exponential 1 4 10 n = Z.max 4 (Z.min (2 ^ (n - 1)) 10).
Proof.
  unfold wait_exponential. cbv zeta. rewrite Z.mul_1_l.
  now replace (Z.max 0 4) with 4 by reflexivity.
Qed.

Lemma wait_exponential_bounds (n : Z) : 4 <= wait_exponential 1 4 10 n <= 10.
Proof. rewrite wait_exponential_clamped. lia. Qed.

Lemma wait_exponential_monotone (n m : Z) :
  n <= m -> wait_exponential 1 4 10 n <= wait_exponential 1 4 10 m.
Proof.
  intros H. rewrite !wait_exponential_clamped.
  assert (Hp : 2 ^ (n - 1) <= 2 ^ (m - 1)).
  { destruct (Z.lt_ge_cases (n - 1) 0) as [Hneg | Hpos].
    - rewrite (Z.pow_neg_r 2 (n - 1) Hneg). apply Z.pow_nonneg. lia.
    - apply Z.pow_le_mono_r; lia. }
  lia.
Qed.

Lemma retry_step_transient (more : nat) (wait : Z -> Z) (n : Z) (text : str)
  (w : world) (e : exn) :
  attempt_value (w_net w (w_posts w)) = Raise e ->
  is_request_exception e = true ->
  retry_from (S more) wait n (extract_study_design_body text) w
  = retry_from more wait (n + 1) (extract_study_design_body text)
      (logged (EvSleep (wait n))
         (logged (EvStError ModelCallWillRetry) (posted (build_prompt text) w))).
Proof.
  intros He Hreq. cbn [retry_from].
  erewrite try_except_raise; [| eapply attempt_transient; eassumption].
  reflexivity.
Qed.

Lemma retry_last_transient (wait : Z -> Z) (n : Z) (text : str) (w : world) (e : exn) :
  attempt_value (w_net w (w_posts w)) = Raise e ->
  is_request_exception e = true ->
  retry_from 0 wait n (extract_study_design_body text) w
  = (Raise (RetryError e),
     logged (EvStError ModelCallWillRetry) (posted (build_prompt text) w)).
Proof.
  intros He Hreq. cbn [retry_from].
  erewrite try_except_raise; [| eapply attempt_transient; eassumption].
  reflexivity.
Qed.

(** The model call leaves both caches alone. *)
Lemma extract_study_design_body_frame (text : str) (w : world) :
  let w' := snd (extract_study_design_body text w) in
  w_pdf_cache w' = w_pdf_cache w /\ w_study_cache w' = w_study_cache w.
Proof.
  cbv zeta. rewrite extract_study_design_body_run.
  destruct (attempt_value _) as [v | e]; [split; reflexivity |].
  destruct (is_request_exception e); split; reflexivity.
Qed.

Lemma retry_from_frame (more : nat) (wait : Z -> Z) (n : Z) (text : str) (w : world) :
  let w' := snd (retry_from more wait n (extract_study_design_body text) w) in
  w_pdf_cache w' = w_pdf_cache w /\ w_study_cache w' = w_study_cache w.
Proof.
  cbv zeta. revert n w. induction more as [| more IH]; intros n w;
    cbn [retry_from]; unfold try_except;
    pose proof (extract_study_design_body_frame text w) as Hb; cbv zeta in Hb;
    destruct (extract_study_design_body text w) as [[v | e] w1]; simpl in Hb |- *;
    try exact Hb.
  unfold bind, sleep, log.
  destruct (IH (n + 1) (logged (EvSleep (wait n)) w1)) as [H1 H2].
  rewrite H1, H2. exact Hb.
Qed.

Lemma extract_study_design_frame (text : str) (w : world) :
  let w' := snd (extract_study_design text w) in
  w_pdf_cache w' = w_pdf_cache w /\ w_study_cache w' = w_study_cache w.
Proof. apply retry_from_frame. Qed.

End ModelClientFacts.

(** C2: when every request fails with a transient error, the decorated model
    call issues exactly three requests, sleeps between them for the waiting
    time of the exponential schedule (the doubling delay [2 ^ (n - 1)] after
    attempt [n], raised to the floor 4 and capped at the ceiling 10, so
    never decreasing and always within the two bounds), and after the third
    failure raises [RetryError] to its caller: the error of exhausted
    retries. *)
Theorem transient_failures_exhaust_three_attempts :
  forall (L : Libraries) (text : str) (w : world),
    (forall k : nat, transient (w_net w (w_posts w + k)) = true) ->
    exists (e : exn) (w' : world),
      extract_study_design text w = (Raise (RetryError e), w')
      /\ is_request_exception e = true
      /\ w_posts w' = (w_posts w + 3)%nat
      /\ w_trace w'
         = w_trace w ++
           [ EvPost (build_prompt text); EvStError ModelCallWillRetry;
             EvSleep (wait_exponential 1 4 10 1);
             EvPost (build_prompt text); EvStError ModelCallWillRetry;
             EvSleep (wait_exponential 1 4 10 2);
             EvPost (build_prompt text); EvStError ModelCallWillRetry ]
      /\ (forall n : Z,
            wait_exponential 1 4 10 n = Z.max 4 (Z.min (2 ^ (n - 1)) 10)
            /\ 4 <= wait_exponential 1 4 10 n <= 10)
      /\ (forall n m : Z,
            n <= m -> wait_exponential 1 4 10 n <= wait_exponential 1 4 10 m).
Proof.
  intros L text w Hnet.
  destruct (transient_attempt_value _ (Hnet 0%nat)) as [e1 [He1 Hr1]].
  destruct (transient_attempt_value _ (Hnet 1%nat)) as [e2 [He2 Hr2]].
  destruct (transient_attempt_value _ (Hnet 2%nat)) as [e3 [He3 Hr3]].
  rewrite Nat.add_0_r in He1.
  replace (w_posts w + 1)%nat with (S (w_posts w)) in He2 by lia.
  replace (w_posts w + 2)%nat with (S (S (w_posts w))) in He3 by lia.
  exists e3. eexists. split.
  { unfold extract_study_design, retry. cbn [pred].
    rewrite (retry_step_transient _ _ _ _ _ He1 Hr1).
    rewrite (@retry_step_transient _ _ _ _ _ _ e2); [| exact He2 | exact Hr2].
    rewrite (@retry_last_transient _ _ _ _ _ e3); [| exact He3 | exact Hr3].
    reflexivity. }
  split; [exact Hr3 |]. split; [simpl; lia |]. split.
  { simpl. rewrite <- !app_assoc. reflexivity. }
  split.
  - intros n. split; [apply wait_exponential_clamped | apply wait_exponential_bounds].
  - apply wait_exponential_monotone.
Qed.

Lemma transient_failures_exhaust_three_attempts_witness :
  exists (e : exn) (w' : world),
    extract_study_design (L := Sample.libraries) (lit "paper") Sample.quiet_world
    = (Raise (RetryError e), w')
    /\ is_request_exception e = true
    /\ w_posts w' = 3%nat.
Proof.
  destruct (@transient_failures_exhaust_three_attempts (Sample.libraries)
              (lit "paper") Sample.quiet_world (fun k => eq_refl))
    as (e & w' & Hrun & Hreq & Hposts & _).
  exists e, w'. repeat split; assumption.
Defined.

(** C3, as amended: when the response carries no HTTP error status and is
    malformed (its body does not parse, or the first choice's message content
    is absent), the model call is not retried: one request, no sleep, and
    the call returns the empty string to its caller instead of raising. *)
Theorem malformed_response_returns_empty_string :
  forall (L : Libraries) (text : str) (w : world) (r : response),
    w_net w (w_posts w) = PostReturns r ->
    malformed r ->
    exists w' : world,
      extract_study_design text w = (Ok (PStr []), w')
      /\ w_posts w' = S (w_posts w)
      /\ w_trace w'
         = w_trace w ++ [EvPost (build_prompt text); EvStError ProcessingError].
Proof.
  intros L text w r Hnet Hbad.
  eexists. split.
  - apply generic_error_no_retry. rewrite Hnet. now apply malformed_generic_error.
  - split; [reflexivity |]. simpl. now rewrite <- app_assoc.
Qed.

Lemma malformed_response_returns_empty_string_witness :
  exists w' : world,
    extract_study_design (L := Sample.libraries) (lit "paper")
      Sample.no_content_world = (Ok (PStr []), w')
    /\ w_posts w' = 1%nat
    /\ w_trace w'
       = [EvPost (build_prompt (L := Sample.libraries) (lit "paper"));
          EvStError ProcessingError].
Proof.
  apply (@malformed_response_returns_empty_string (Sample.libraries)
           (lit "paper") Sample.no_content_world Sample.no_content_response).
  - reflexivity.
  - split; [reflexivity |]. simpl. exists KeyError. reflexivity.
Defined.

(** C3, as stated, fails: for a response whose first choice has a message
    without content, the model call raises nothing; it returns a value, the
    empty string, after a single request. *)
Lemma missing_content_is_returned_not_raised :
  first_choice_content
    (PDict [(lit "choices", PList [PDict [(lit "message", PDict [])]])])
  = Raise KeyError
  /\ fst (extract_study_design (L := Sample.libraries) (lit "paper")
            Sample.no_content_world) = Ok (PStr [])
  /\ (forall e : exn,
        fst (extract_study_design (L := Sample.libraries) (lit "paper")
               Sample.no_content_world) <> Raise e)
  /\ w_posts (snd (extract_study_design (L := Sample.libraries) (lit "paper")
                     Sample.no_content_world)) = 1%nat.
Proof.
  repeat split; try reflexivity. intros e. discriminate.
Qed.

(** ** The pipeline and its two caches *)

Section PipelineFacts.
Context {L : Libraries}.

#[local] Arguments cache_store : simpl never.

Lemma validate_file_ok (f : uploaded_file) (w : world) :
  len (uf_value f) <= MAX_FILE_SIZE ->
  ends_with_pdf (uf_name f) = true ->
  validate_file f w = (Ok true, w).
Proof.
  intros Hlen Hpdf. unfold validate_file.
  rewrite (gtb_false Hlen), Hpdf. reflexivity.
Qed.

(** Every run of the extractor's body logs its invocation and nothing else. *)
Lemma extract_body_world (file_hash : str) (file_bytes : bytes) (w : world) :
  snd (extract_text_from_pdf_body file_hash file_bytes w)
  = logged (EvExtract file_bytes) w.
Proof.
  destruct (Z_le_gt_dec (len file_bytes) MAX_FILE_SIZE) as [Hle | Hgt].
  - destruct (fitz_open file_bytes) as [doc |] eqn:Hopen.
    + now rewrite (extract_body_small file_hash _ w Hle Hopen).
    + now rewrite (extract_body_unparseable file_hash _ w Hle Hopen).
  - rewrite extract_body_large; [reflexivity | lia].
Qed.

Lemma extract_miss_world (file_hash : str) (file_bytes : bytes) (w : world) :
  cache_lookup pdf_key_eq_dec (w_pdf_cache w) (file_hash, file_bytes) = None ->
  w_trace (snd (extract_text_from_pdf_by_hash file_hash file_bytes w))
  = w_trace w ++ [EvExtract file_bytes]
  /\ w_study_cache (snd (extract_text_from_pdf_by_hash file_hash file_bytes w))
     = w_study_cache w
  /\ (forall key,
        key <> (file_hash, file_bytes) ->
        cache_lookup pdf_key_eq_dec (w_pdf_cache w) key = None ->
        cache_lookup pdf_key_eq_dec
          (w_pdf_cache (snd (extract_text_from_pdf_by_hash file_hash file_bytes w)))
          key = None).
Proof.
  intros Hmiss. unfold extract_text_from_pdf_by_hash, st_cache_data. rewrite Hmiss.
  pose proof (extract_body_world file_hash file_bytes w) as Hw.
  destruct (extract_text_from_pdf_body file_hash file_bytes w) as [[v | e] w1];
    simpl in Hw; subst w1; simpl; repeat split; auto.
  intros key Hne Hkey. now apply cache_lookup_store_other.
Qed.

Lemma extract_returns_cached (file_hash : str) (file_bytes : bytes) (w w' : world)
  (text : str) :
  extract_text_from_pdf_by_hash file_hash file_bytes w = (Ok text, w') ->
  cache_lookup pdf_key_eq_dec (w_pdf_cache w') (file_hash, file_bytes) = Some text.
Proof.
  apply st_cache_data_stored; [lia | reflexivity |].
  intros w0. now rewrite extract_body_world.
Qed.

Lemma study_returns_cached (text_hash text : str) (w w' : world) (v : pyval) :
  extract_study_by_hash text_hash text w = (Ok v, w') ->
  cache_lookup study_key_eq_dec (w_study_cache w') (text_hash, text) = Some v.
Proof.
  apply st_cache_data_stored; [lia | reflexivity |].
  intros w0. apply extract_study_design_frame.
Qed.

Lemma study_keeps_pdf_cache (text_hash text : str) (w : world) :
  w_pdf_cache (snd (extract_study_by_hash text_hash text w)) = w_pdf_cache w.
Proof.
  unfold extract_study_by_hash, st_cache_data.
  destruct (cache_lookup _ _ _); [reflexivity |].
  pose proof (extract_study_design_frame text w) as [H _].
  destruct (extract_study_design text w) as [[v | e] w1]; simpl in *; exact H.
Qed.

Lemma slice_to_len {A : Type} (n : Z) (s : list A) : 0 <= n -> len (slice_to n s) <= n.
Proof.
  intros Hn. unfold slice_to, len.
  pose proof (firstn_le_length (Z.to_nat n) s). lia.
Qed.

(** One run of the pipeline on a valid upload whose text is not empty: the
    final world is the one the model-analysis call leaves. *)
Lemma process_file_with_status_run (f : uploaded_file) (w w1 w2 : world)
  (full_text : str) (encoded : bytes) (r : result pyval) :
  len (uf_value f) <= MAX_FILE_SIZE ->
  ends_with_pdf (uf_name f) = true ->
  extract_text_from_pdf_by_hash (md5_hexdigest (uf_value f)) (uf_value f) w
  = (Ok full_text, w1) ->
  full_text <> [] ->
  utf8_encode (slice_to 30000 full_text) = Ok encoded ->
  extract_study_by_hash (md5_hexdigest encoded) (slice_to 30000 full_text) w1 = (r, w2) ->
  exists res : result (option (pyval * report)),
    process_file_with_status f w = (res, w2)
    /\ (r = Ok (PStr []) -> res = Ok None).
Proof.
  intros Hlen Hpdf Hext Hne Henc Hstudy.
  unfold process_file_with_status, try_except, bind.
  rewrite (validate_file_ok f w Hlen Hpdf). cbn [negb]. cbv zeta.
  rewrite Hext.
  destruct full_text as [| c rest]; [contradiction |].
  cbn [truthy negb]. unfold lift at 1. rewrite Henc. rewrite Hstudy.
  destruct r as [v | e]; [| eexists; split; [reflexivity | discriminate]].
  destruct (truthy v) eqn:Hv; cbn [negb].
  - destruct v; try (eexists; split; [reflexivity | intros [= ]]);
      try (subst; discriminate Hv).
    unfold lift. destruct (build_report s (uf_name f)); eexists;
      (split; [reflexivity | intros [= ->]; discriminate Hv]).
  - eexists; split; reflexivity.
Qed.

End PipelineFacts.

Section CacheFacts.
Context {L : Libraries}.

#[local] Arguments cache_store : simpl never.

(** A cache miss on a small parseable file: the extractor runs once and its
    text is stored under the pair of the fingerprint and the bytes. *)
Lemma extract_miss_run (file_hash : str) (file_bytes : bytes) (doc : document)
  (w : world) :
  len file_bytes <= MAX_FILE_SIZE ->
  fitz_open file_bytes = Some doc ->
  cache_lookup pdf_key_eq_dec (w_pdf_cache w) (file_hash, file_bytes) = None ->
  extract_text_from_pdf_by_hash file_hash file_bytes w
  = (Ok (join newline (document_text_blocks doc)),
     set_pdf_cache
       (cache_store 100 (w_pdf_cache w) (file_hash, file_bytes)
          (join newline (document_text_blocks doc)))
       (logged (EvExtract file_bytes) w)).
Proof.
  intros Hlen Hopen Hmiss. unfold extract_text_from_pdf_by_hash.
  erewrite st_cache_data_miss_ok;
    [| exact Hmiss | apply extract_body_small; eassumption].
  reflexivity.
Qed.

Lemma study_generic_error_run (text_hash text : str) (w : world) :
  generic_error (w_net w (w_posts w)) ->
  cache_lookup study_key_eq_dec (w_study_cache w) (text_hash, text) = None ->
  extract_study_by_hash text_hash text w
  = (Ok (PStr []),
     set_study_cache
       (cache_store 100 (w_study_cache w) (text_hash, text) (PStr []))
       (logged (EvStError ProcessingError) (posted (build_prompt text) w))).
Proof.
  intros Hgen Hmiss. unfold extract_study_by_hash.
  erewrite st_cache_data_miss_ok;
    [| exact Hmiss | apply generic_error_no_retry; exact Hgen].
  reflexivity.
Qed.

(** The pipeline on an upload whose model call ends in the generic handler,
    and the same upload once more. *)
Lemma pipeline_generic_error_twice (f : uploaded_file) (doc : document)
  (encoded : bytes) (w : world) :
  let full_text := join newline (document_text_blocks doc) in
  let text := slice_to 30000 full_text in
  len (uf_value f) <= MAX_FILE_SIZE ->
  ends_with_pdf (uf_name f) = true ->
  fitz_open (uf_value f) = Some doc ->
  full_text <> [] ->
  utf8_encode text = Ok encoded ->
  cache_lookup pdf_key_eq_dec (w_pdf_cache w)
    (md5_hexdigest (uf_value f), uf_value f) = None ->
  cache_lookup study_key_eq_dec (w_study_cache w) (md5_hexdigest encoded, text) = None ->
  generic_error (w_net w (w_posts w)) ->
  exists w3 : world,
    process_file_with_status f w = (Ok None, w3)
    /\ w_posts w3 = S (w_posts w)
    /\ cache_lookup study_key_eq_dec (w_study_cache w3) (md5_hexdigest encoded, text)
       = Some (PStr [])
    /\ process_file_with_status f w3 = (Ok None, w3).
Proof.
  intros full_text text Hlen Hpdf Hopen Hne Henc Hmiss1 Hmiss2 Hgen.
  pose proof (extract_miss_run _ _ w Hlen Hopen Hmiss1) as Hext.
  fold full_text in Hext.
  set (w1 := set_pdf_cache _ _) in Hext.
  assert (Hstudy := study_generic_error_run (md5_hexdigest encoded) text w1 Hgen Hmiss2).
  set (w3 := set_study_cache _ _) in Hstudy.
  assert (Hpdf3 : cache_lookup pdf_key_eq_dec (w_pdf_cache w3)
                    (md5_hexdigest (uf_value f), uf_value f) = Some full_text).
  { subst w3 w1. simpl. apply cache_lookup_store; [lia | exact Hmiss1]. }
  assert (Hstudy3 : cache_lookup study_key_eq_dec (w_study_cache w3)
                      (md5_hexdigest encoded, text) = Some (PStr [])).
  { subst w3 w1. simpl. apply cache_lookup_store; [lia | exact Hmiss2]. }
  exists w3.
  destruct (process_file_with_status_run f w Hlen Hpdf Hext Hne Henc Hstudy)
    as [res [Hrun Hres]].
  rewrite (Hres eq_refl) in Hrun.
  split; [exact Hrun |]. split; [reflexivity |]. split; [exact Hstudy3 |].
  assert (Hext3 : extract_text_from_pdf_by_hash (md5_hexdigest (uf_value f))
                    (uf_value f) w3 = (Ok full_text, w3)).
  { unfold extract_text_from_pdf_by_hash. now apply st_cache_data_hit. }
  assert (Hst3 : extract_study_by_hash (md5_hexdigest encoded) text w3
                 = (Ok (PStr []), w3)).
  { unfold extract_study_by_hash. now apply st_cache_data_hit. }
  destruct (process_file_with_status_run f w3 Hlen Hpdf Hext3 Hne Henc Hst3)
    as [res' [Hrun' Hres']].
  now rewrite (Hres' eq_refl) in Hrun'.
Qed.

End CacheFacts.

(** C10: when the model call for a text ends in the generic handler, the
    model-analysis function returns the empty string, the memoisation layer
    stores that empty string under the key of the text, and a later call
    with the same key is answered from the cache without a new request.  In
    the pipeline the key is the fingerprint of the trimmed text (with the
    text), and a second upload of the same file changes nothing: no
    extraction and no request. *)
Theorem generic_error_result_is_cached :
  forall (L : Libraries) (text_hash text : str) (w : world),
    generic_error (w_net w (w_posts w)) ->
    cache_lookup study_key_eq_dec (w_study_cache w) (text_hash, text) = None ->
    exists w1 : world,
      fst (extract_study_design text w) = Ok (PStr [])
      /\ extract_study_by_hash text_hash text w = (Ok (PStr []), w1)
      /\ w_posts w1 = S (w_posts w)
      /\ cache_lookup study_key_eq_dec (w_study_cache w1) (text_hash, text)
         = Some (PStr [])
      /\ (forall w2 : world,
            w_study_cache w2 = w_study_cache w1 ->
            extract_study_by_hash text_hash text w2 = (Ok (PStr []), w2))
      /\ (forall (f : uploaded_file) (doc : document) (encoded : bytes),
            len (uf_value f) <= MAX_FILE_SIZE ->
            ends_with_pdf (uf_name f) = true ->
            fitz_open (uf_value f) = Some doc ->
            join newline (document_text_blocks doc) <> [] ->
            text = slice_to 30000 (join newline (document_text_blocks doc)) ->
            utf8_encode text = Ok encoded ->
            text_hash = md5_hexdigest encoded ->
            cache_lookup pdf_key_eq_dec (w_pdf_cache w)
              (md5_hexdigest (uf_value f), uf_value f) = None ->
            exists w3 : world,
              process_file_with_status f w = (Ok None, w3)
              /\ w_posts w3 = S (w_posts w)
              /\ process_file_with_status f w3 = (Ok None, w3)).
Proof.
  intros L text_hash text w Hgen Hmiss.
  pose proof (study_generic_error_run text_hash text w Hgen Hmiss) as Hrun.
  set (w1 := set_study_cache _ _) in Hrun.
  assert (Hcached : cache_lookup study_key_eq_dec (w_study_cache w1) (text_hash, text)
                    = Some (PStr [])).
  { apply (study_returns_cached _ _ _ Hrun). }
  exists w1. split.
  { now rewrite (generic_error_no_retry text w Hgen). }
  split; [exact Hrun |]. split; [reflexivity |]. split; [exact Hcached |]. split.
  - intros w2 Hsame. unfold extract_study_by_hash.
    apply st_cache_data_hit. now rewrite Hsame.
  - intros f doc encoded Hlen Hpdf Hopen Hne -> Henc -> Hmiss1.
    destruct (@pipeline_generic_error_twice L f doc encoded w Hlen Hpdf Hopen Hne Henc
                Hmiss1 Hmiss Hgen) as (w3 & H1 & H2 & _ & H4).
    exists w3. auto.
Qed.

Lemma generic_error_result_is_cached_witness :
  exists w1 : world,
    extract_study_by_hash (L := Sample.libraries) (lit "key") (lit "paper")
      Sample.no_content_world = (Ok (PStr []), w1)
    /\ w_posts w1 = 1%nat
    /\ extract_study_by_hash (L := Sample.libraries) (lit "key") (lit "paper") w1
       = (Ok (PStr []), w1).
Proof.
  destruct (@generic_error_result_is_cached (Sample.libraries) (lit "key")
              (lit "paper") Sample.no_content_world
              (ex_intro _ KeyError (conj eq_refl eq_refl)) eq_refl)
    as (w1 & _ & Hrun & Hposts & _ & Hagain & _).
  exists w1. split; [exact Hrun |]. split; [exact Hposts |].
  apply Hagain. reflexivity.
Defined.

(** C1: both caches answer a key that is present without running the
    function under them; the cached extractor called twice with the same
    bytes of a PDF runs the underlying extractor exactly once, and called
    with two different byte sequences runs it twice; in the pipeline the
    extraction is cached under the fingerprint of the uploaded bytes (with
    the bytes), and the model analysis under the fingerprint of the
    extracted text cut to at most 30000 characters (with that text). *)
Theorem caches_compute_once_per_key :
  forall (L : Libraries),
    (forall (file_hash : str) (file_bytes : bytes) (w : world) (text : str),
        cache_lookup pdf_key_eq_dec (w_pdf_cache w) (file_hash, file_bytes) = Some text ->
        extract_text_from_pdf_by_hash file_hash file_bytes w = (Ok text, w))
    /\ (forall (text_hash text : str) (w : world) (v : pyval),
          cache_lookup study_key_eq_dec (w_study_cache w) (text_hash, text) = Some v ->
          extract_study_by_hash text_hash text w = (Ok v, w))
    /\ (forall (file_hash : str) (file_bytes : bytes) (doc : document) (w : world),
          len file_bytes <= MAX_FILE_SIZE ->
          fitz_open file_bytes = Some doc ->
          cache_lookup pdf_key_eq_dec (w_pdf_cache w) (file_hash, file_bytes) = None ->
          exists (text : str) (w1 : world),
            extract_text_from_pdf_by_hash file_hash file_bytes w = (Ok text, w1)
            /\ extract_text_from_pdf_by_hash file_hash file_bytes w1 = (Ok text, w1)
            /\ w_trace w1 = w_trace w ++ [EvExtract file_bytes])
    /\ (forall (h1 : str) (b1 : bytes) (h2 : str) (b2 : bytes) (w : world),
          b1 <> b2 ->
          cache_lookup pdf_key_eq_dec (w_pdf_cache w) (h1, b1) = None ->
          cache_lookup pdf_key_eq_dec (w_pdf_cache w) (h2, b2) = None ->
          w_trace (snd (extract_text_from_pdf_by_hash h2 b2
                          (snd (extract_text_from_pdf_by_hash h1 b1 w))))
          = w_trace w ++ [EvExtract b1; EvExtract b2])
    /\ (forall (f : uploaded_file) (doc : document) (encoded : bytes) (w : world),
          len (uf_value f) <= MAX_FILE_SIZE ->
          ends_with_pdf (uf_name f) = true ->
          fitz_open (uf_value f) = Some doc ->
          join newline (document_text_blocks doc) <> [] ->
          utf8_encode (slice_to 30000 (join newline (document_text_blocks doc)))
          = Ok encoded ->
          cache_lookup pdf_key_eq_dec (w_pdf_cache w)
            (md5_hexdigest (uf_value f), uf_value f) = None ->
          exists (w1 : world) (r : result pyval) (w2 : world),
            let full_text := join newline (document_text_blocks doc) in
            let trimmed_text := slice_to 30000 full_text in
            extract_text_from_pdf_by_hash (md5_hexdigest (uf_value f)) (uf_value f) w
            = (Ok full_text, w1)
            /\ extract_study_by_hash (md5_hexdigest encoded) trimmed_text w1 = (r, w2)
            /\ snd (process_file_with_status f w) = w2
            /\ len trimmed_text <= 30000
            /\ cache_lookup pdf_key_eq_dec (w_pdf_cache w2)
                 (md5_hexdigest (uf_value f), uf_value f) = Some full_text
            /\ (forall v : pyval,
                  r = Ok v ->
                  cache_lookup study_key_eq_dec (w_study_cache w2)
                    (md5_hexdigest encoded, trimmed_text) = Some v)).
Proof.
  intros L. split; [| split; [| split; [| split]]].
  - intros file_hash file_bytes w text Hhit.
    unfold extract_text_from_pdf_by_hash. now apply st_cache_data_hit.
  - intros text_hash text w v Hhit.
    unfold extract_study_by_hash. now apply st_cache_data_hit.
  - intros file_hash file_bytes doc w Hlen Hopen Hmiss.
    pose proof (extract_miss_run file_hash file_bytes w Hlen Hopen Hmiss) as Hrun.
    eexists. eexists. split; [exact Hrun |]. split; [| reflexivity].
    unfold extract_text_from_pdf_by_hash. apply st_cache_data_hit.
    apply (extract_returns_cached _ _ _ Hrun).
  - intros h1 b1 h2 b2 w Hne Hmiss1 Hmiss2.
    destruct (extract_miss_world h1 b1 w Hmiss1) as (Ht1 & _ & Hother).
    assert (Hmiss2' : cache_lookup pdf_key_eq_dec
                        (w_pdf_cache (snd (extract_text_from_pdf_by_hash h1 b1 w)))
                        (h2, b2) = None).
    { apply Hother; [| exact Hmiss2]. intros [= _ Heq]. now apply Hne. }
    destruct (extract_miss_world h2 b2 _ Hmiss2') as (Ht2 & _ & _).
    rewrite Ht2, Ht1, <- app_assoc. reflexivity.
  - intros f doc encoded w Hlen Hpdf Hopen Hne Henc Hmiss. cbv zeta.
    pose proof (extract_miss_run _ _ w Hlen Hopen Hmiss) as Hext.
    set (w1 := set_pdf_cache _ _) in Hext.
    destruct (extract_study_by_hash (md5_hexdigest encoded)
                (slice_to 30000 (join newline (document_text_blocks doc))) w1)
      as [r w2] eqn:Hstudy.
    exists w1, r, w2.
    destruct (process_file_with_status_run f w Hlen Hpdf Hext Hne Henc Hstudy)
      as [res [Hrun _]].
    split; [exact Hext |]. split; [exact Hstudy |].
    split; [now rewrite Hrun |].
    split; [apply slice_to_len; lia |]. split.
    + pose proof (study_keeps_pdf_cache (md5_hexdigest encoded)
                    (slice_to 30000 (join newline (document_text_blocks doc))) w1) as Hk.
      rewrite Hstudy in Hk. simpl in Hk. rewrite Hk.
      apply (extract_returns_cached _ _ _ Hext).
    + intros v ->. apply (study_returns_cached _ _ _ Hstudy).
Qed.

Lemma caches_compute_once_per_key_witness :
  exists (text : str) (w1 : world),
    extract_text_from_pdf_by_hash (L := Sample.libraries)
      (Sample.checksum Sample.pdf_5_and_50) Sample.pdf_5_and_50 Sample.quiet_world
    = (Ok text, w1)
    /\ extract_text_from_pdf_by_hash (L := Sample.libraries)
         (Sample.checksum Sample.pdf_5_and_50) Sample.pdf_5_and_50 w1
       = (Ok text, w1)
    /\ w_trace w1 = [EvExtract Sample.pdf_5_and_50].
Proof.
  refine (proj1 (proj2 (proj2 (@caches_compute_once_per_key (Sample.libraries))))
            (Sample.checksum Sample.pdf_5_and_50) Sample.pdf_5_and_50
            [[ {| b4 := lit "Page1"; b6 := 0 |};
               {| b4 := lit "Subjects were randomized 1:1 to drug A or placebo.";
                  b6 := 0 |} ]]
            Sample.quiet_world _ _ _).
  - vm_compute. discriminate.
  - reflexivity.
  - reflexivity.
Defined.

(** ** History store *)

Section HistoryFacts.
Context {L : Libraries}.

Lemma is_recent_stamped (cutoff : Z) (r : pyval) (t : Z) :
  stamped r t -> is_recent cutoff r = Ok (t >? cutoff).
Proof.
  intros [s [Hget Hparse]]. unfold is_recent. rewrite Hget. simpl. now rewrite Hparse.
Qed.

Lemma filter_result_pure {A : Type} (p : A -> result bool) (q : A -> bool) (l : list A) :
  Forall (fun x => p x = Ok (q x)) l ->
  filter_result p l = Ok (filter q l).
Proof.
  induction 1 as [| x l Hx _ IH]; simpl; [reflexivity |].
  rewrite Hx, IH. simpl. now destruct (q x).
Qed.

(** The retention filter on records that all carry a stamp: a record stays
    when its time is later than the cut-off. *)
Lemma retention_filter (cutoff : Z) (records : list pyval) (times : list Z) :
  Forall2 stamped records times ->
  filter_result (is_recent cutoff) records
  = Ok (map fst (filter (fun rt => snd rt >? cutoff) (combine records times))).
Proof.
  induction 1 as [| r t records times Hr _ IH]; simpl; [reflexivity |].
  rewrite (is_recent_stamped cutoff Hr), IH. simpl.
  now destruct (t >? cutoff).
Qed.

Lemma retention_three (now : Z) (r0 r3 r8 : pyval) (t0 t3 t8 : Z) :
  stamped r0 t0 -> stamped r3 t3 -> stamped r8 t8 ->
  days_before now t0 0 -> days_before now t3 3 -> days_before now t8 8 ->
  filter_result (is_recent (now - timedelta_days 7)) [r0; r3; r8] = Ok [r0; r3].
Proof.
  unfold days_before, timedelta_days. intros H0 H3 H8 D0 D3 D8.
  rewrite (@retention_filter _ [r0; r3; r8] [t0; t3; t8]) by (repeat constructor; assumption).
  simpl. rewrite (gtb_true (a := t0)), (gtb_true (a := t3)), (gtb_false (a := t8)) by lia.
  reflexivity.
Qed.

(** [save_history] never raises, and it touches neither the session state
    nor the caches. *)
Lemma save_history_total (records : pyval) (w : world) :
  exists (saved : bool) (w' : world),
    save_history records w = (Ok saved, w')
    /\ w_session_history w' = w_session_history w.
Proof.
  unfold save_history. destruct records; try (exists false, w; split; reflexivity).
  unfold try_except, bind, datetime_now, lift, write_history_json, ret.
  destruct (filter_result _ items) as [kept | e]; simpl.
  - destruct (w_history_writable w); eexists; eexists; split; reflexivity.
  - eexists; eexists; split; reflexivity.
Qed.

Lemma save_history_run (records kept : list pyval) (w : world) :
  filter_result (is_recent (w_clock w (w_clock_reads w) - timedelta_days 7)) records
  = Ok kept ->
  w_history_writable w = true ->
  save_history (PList records) w
  = (Ok true,
     set_history_file
       (Some (json_dumps (history_document kept (len records)
                            (w_clock w (S (w_clock_reads w))))))
       (ticked (ticked w))).
Proof.
  intros Hfilter Hwritable.
  unfold save_history, try_except, bind, datetime_now, lift, write_history_json, ret.
  simpl. rewrite Hfilter. simpl. rewrite Hwritable. reflexivity.
Qed.

Lemma save_history_not_writable (records : list pyval) (w : world) :
  w_history_writable w = false ->
  fst (save_history (PList records) w) = Ok false
  /\ w_history_file (snd (save_history (PList records) w)) = w_history_file w.
Proof.
  intros Hwritable.
  unfold save_history, try_except, bind, datetime_now, lift, write_history_json, ret.
  simpl. destruct (filter_result _ records); simpl.
  - rewrite Hwritable. split; reflexivity.
  - split; reflexivity.
Qed.

Lemma load_history_missing (w : world) :
  w_history_file w = None -> load_history w = (Ok [], w).
Proof.
  intros H. unfold load_history, bind, history_file_exists. now rewrite H.
Qed.

Lemma load_history_unparseable (w : world) (text : str) :
  w_history_file w = Some text -> json_loads text = None ->
  load_history w = (Ok [], w).
Proof.
  intros H Hparse.
  unfold load_history, bind, history_file_exists, try_except, read_history_json.
  rewrite H. simpl. now rewrite H, Hparse.
Qed.

Lemma load_history_parsed (w : world) (text : str) (data : pyval) :
  w_history_file w = Some text -> json_loads text = Some data ->
  load_history w
  = match data with
    | PDict d =>
        match dict_get d (lit "records") with
        | Some (PList records) =>
            match filter_result
                    (is_recent (w_clock w (w_clock_reads w) - timedelta_days 7)) records
            with
            | Ok kept => (Ok kept, ticked w)
            | Raise _ => (Ok [], ticked w)
            end
        | _ => (Ok [], w)
        end
    | _ => (Ok [], w)
    end.
Proof.
  intros H Hparse.
  unfold load_history, bind, history_file_exists, try_except, read_history_json.
  rewrite H. simpl. rewrite H, Hparse.
  destruct data; try reflexivity.
  destruct (dict_get items (lit "records")) as [[] |]; reflexivity.
Qed.

Lemma load_history_total (w : world) :
  exists records : list pyval, fst (load_history w) = Ok records.
Proof.
  destruct (w_history_file w) as [text |] eqn:Hfile.
  - destruct (json_loads text) as [data |] eqn:Hparse.
    + rewrite (load_history_parsed w Hfile Hparse).
      destruct data; try (exists []; reflexivity).
      destruct (dict_get items (lit "records")) as [[] |]; try (exists []; reflexivity).
      destruct (filter_result _ items0); eexists; reflexivity.
    + rewrite (load_history_unparseable w Hfile Hparse). now exists [].
  - rewrite (load_history_missing w Hfile). now exists [].
Qed.

End HistoryFacts.

(** C4: for a history made of an entry of today, one of three days ago and
    one of eight days ago, [save_history] succeeds and persists the first two,
    in order, with [total_records] 2 and [cleaned_records] 1, and
    [load_history] of a file with these records returns the first two, in
    order; the entry that goes is the one strictly older than seven days. *)
Theorem retention_drops_the_entry_older_than_a_week :
  forall (L : Libraries) (r0 r3 r8 : pyval) (t0 t3 t8 : Z) (w : world),
    stamped r0 t0 -> stamped r3 t3 -> stamped r8 t8 ->
    days_before (w_clock w (w_clock_reads w)) t0 0 ->
    days_before (w_clock w (w_clock_reads w)) t3 3 ->
    days_before (w_clock w (w_clock_reads w)) t8 8 ->
    (w_history_writable w = true ->
     exists w' : world,
       save_history (PList [r0; r3; r8]) w = (Ok true, w')
       /\ w_history_file w'
          = Some (json_dumps
                    (PDict [(lit "records", PList [r0; r3]);
                            (lit "metadata",
                             PDict [(lit "last_updated",
                                     PStr (strftime (w_clock w (S (w_clock_reads w)))));
                                    (lit "total_records", PInt 2);
                                    (lit "cleaned_records", PInt 1)])])))
    /\ (forall (text : str) (d : list (str * pyval)),
          w_history_file w = Some text ->
          json_loads text = Some (PDict d) ->
          dict_get d (lit "records") = Some (PList [r0; r3; r8]) ->
          fst (load_history w) = Ok [r0; r3])
    /\ (timedelta_days 7 < w_clock w (w_clock_reads w) - t8
        /\ w_clock w (w_clock_reads w) - t0 < timedelta_days 7
        /\ w_clock w (w_clock_reads w) - t3 < timedelta_days 7).
Proof.
  intros L r0 r3 r8 t0 t3 t8 w H0 H3 H8 D0 D3 D8.
  pose proof (retention_three H0 H3 H8 D0 D3 D8) as Hfilter.
  split; [| split].
  - intros Hwritable. eexists. split.
    + apply (save_history_run _ w Hfilter Hwritable).
    + reflexivity.
  - intros text d Hfile Hparse Hrecords.
    rewrite (load_history_parsed w Hfile Hparse), Hrecords, Hfilter. reflexivity.
  - unfold days_before, timedelta_days in *. lia.
Qed.

Lemma retention_drops_the_entry_older_than_a_week_witness :
  (exists w' : world,
     save_history (L := Sample.libraries)
       (PList Sample.three_entries) (Sample.history_world None None) = (Ok true, w')
     /\ w_history_file w'
        = Some (json_dumps (Libraries := Sample.libraries)
                  (PDict [(lit "records",
                           PList [Sample.entry_today; Sample.entry_3_days]);
                          (lit "metadata",
                           PDict [(lit "last_updated",
                                   PStr (Sample.print_stamp Sample.noon));
                                  (lit "total_records", PInt 2);
                                  (lit "cleaned_records", PInt 1)])])))
  /\ fst (load_history (L := Sample.libraries)
            (Sample.history_world (Some Sample.history_text) None))
     = Ok [Sample.entry_today; Sample.entry_3_days].
Proof.
  split.
  - refine (proj1 (@retention_drops_the_entry_older_than_a_week
                     (Sample.libraries)
                     Sample.entry_today Sample.entry_3_days Sample.entry_8_days
                     (Sample.noon - 10800000000) (Sample.noon - 264600000000)
                     (Sample.noon - 704700000000)
                     (Sample.history_world None None) _ _ _ _ _ _) eq_refl).
    + eexists. split; reflexivity.
    + eexists. split; reflexivity.
    + eexists. split; reflexivity.
    + vm_compute. split; [discriminate | reflexivity].
    + vm_compute. split; [discriminate | reflexivity].
    + vm_compute. split; [discriminate | reflexivity].
  - refine (proj1 (proj2 (@retention_drops_the_entry_older_than_a_week
                     (Sample.libraries)
                     Sample.entry_today Sample.entry_3_days Sample.entry_8_days
                     (Sample.noon - 10800000000) (Sample.noon - 264600000000)
                     (Sample.noon - 704700000000)
                     (Sample.history_world (Some Sample.history_text) None)
                     _ _ _ _ _ _))
              Sample.history_text [(lit "records", PList Sample.three_entries)]
              eq_refl eq_refl eq_refl).
    + eexists. split; reflexivity.
    + eexists. split; reflexivity.
    + eexists. split; reflexivity.
    + vm_compute. split; [discriminate | reflexivity].
    + vm_compute. split; [discriminate | reflexivity].
    + vm_compute. split; [discriminate | reflexivity].
Defined.

(** C5: [load_history] never raises; it returns the empty list when the file
    is missing, when the file does not parse (an empty file does not), and
    when the parsed content is not a dict that holds a list under
    ['records'], as for a dict with the single key ['not_records']. *)
Theorem load_history_degrades_to_empty_list :
  forall (L : Libraries) (w : world),
    (exists records : list pyval, fst (load_history w) = Ok records)
    /\ (w_history_file w = None -> load_history w = (Ok [], w))
    /\ (forall text : str,
          w_history_file w = Some text -> json_loads text = None ->
          load_history w = (Ok [], w))
    /\ (w_history_file w = Some [] -> json_loads [] = None ->
        load_history w = (Ok [], w))
    /\ (forall (text : str) (data : pyval),
          w_history_file w = Some text -> json_loads text = Some data ->
          (forall (d : list (str * pyval)) (records : list pyval),
              data = PDict d -> dict_get d (lit "records") <> Some (PList records)) ->
          load_history w = (Ok [], w))
    /\ (forall text : str,
          w_history_file w = Some text ->
          json_loads text = Some (PDict [(lit "not_records", PList [])]) ->
          load_history w = (Ok [], w)).
Proof.
  intros L w.
  assert (Hshape : forall (text : str) (data : pyval),
             w_history_file w = Some text -> json_loads text = Some data ->
             (forall (d : list (str * pyval)) (records : list pyval),
                 data = PDict d -> dict_get d (lit "records") <> Some (PList records)) ->
             load_history w = (Ok [], w)).
  { intros text data Hfile Hparse Hshape.
    rewrite (load_history_parsed w Hfile Hparse).
    destruct data as [| | | | | | d]; try reflexivity.
    specialize (Hshape d).
    destruct (dict_get d (lit "records")) as [[] |]; try reflexivity.
    exfalso. eapply Hshape; reflexivity. }
  split; [apply load_history_total |].
  split; [apply load_history_missing |].
  split; [intros text; apply load_history_unparseable |].
  split; [intros Hfile Hparse; now apply (load_history_unparseable w Hfile) |].
  split; [exact Hshape |].
  intros text Hfile Hparse. apply (Hshape text _ Hfile Hparse).
  intros d records [= <-]. discriminate.
Qed.

Lemma load_history_degrades_to_empty_list_witness :
  load_history (L := Sample.libraries) (Sample.history_world None None)
  = (Ok [], Sample.history_world None None)
  /\ load_history (L := Sample.libraries) (Sample.history_world (Some []) None)
     = (Ok [], Sample.history_world (Some []) None)
  /\ load_history (L := Sample.libraries)
       (Sample.history_world (Some Sample.text_not_records) None)
     = (Ok [], Sample.history_world (Some Sample.text_not_records) None).
Proof.
  split; [| split].
  - exact (proj1 (proj2 (@load_history_degrades_to_empty_list (Sample.libraries)
                           (Sample.history_world None None))) eq_refl).
  - exact (proj1 (proj2 (proj2 (proj2
             (@load_history_degrades_to_empty_list (Sample.libraries)
                (Sample.history_world (Some []) None))))) eq_refl eq_refl).
  - exact (proj2 (proj2 (proj2 (proj2 (proj2
             (@load_history_degrades_to_empty_list (Sample.libraries)
                (Sample.history_world (Some Sample.text_not_records) None))))))
             Sample.text_not_records eq_refl eq_refl).
Defined.

(** ** Deleting a record *)

Section DeleteFacts.
Context {L : Libraries}.

Lemma other_id_dict (record_id : str) (r : pyval) :
  is_dict r -> other_id record_id r = Ok (negb (has_id record_id r)).
Proof.
  destruct r; simpl; try contradiction. intros _.
  unfold other_id. simpl.
  destruct (dict_get items (lit "id")) as [[] |]; reflexivity.
Qed.

Lemma filter_other_id (record_id : str) (records : list pyval) :
  Forall is_dict records ->
  filter_result (other_id record_id) records
  = Ok (filter (fun r => negb (has_id record_id r)) records).
Proof.
  intros H. apply filter_result_pure.
  eapply Forall_impl; [| exact H]. intros r. apply other_id_dict.
Qed.

Lemma filter_all {A : Type} (p : A -> bool) (l : list A) :
  (forall x, In x l -> p x = true) -> filter p l = l.
Proof.
  induction l as [| x l IH]; simpl; intros H; [reflexivity |].
  rewrite (H x (or_introl eq_refl)). f_equal. apply IH. auto.
Qed.

Lemma set_session_history_same (records : list pyval) (w : world) :
  w_session_history w = Some records ->
  set_session_history (Some records) w = w.
Proof. destruct w; simpl; intros ->; reflexivity. Qed.

(** The run of [delete_record] once the comprehension has produced [kept]. *)
Lemma delete_record_run (record_id : str) (records kept : list pyval) (w : world) :
  record_id <> [] ->
  w_session_history w = Some records ->
  filter_result (other_id record_id) records = Ok kept ->
  delete_record record_id w
  = if len kept =? len records
    then (Ok false, set_session_history (Some kept) w)
    else save_history (PList kept) (set_session_history (Some kept) w).
Proof.
  intros Hid Hsession Hkept. unfold delete_record.
  destruct record_id as [| c rest]; [contradiction |]. cbn [truthy negb].
  unfold bind at 1. unfold get_session_history. rewrite Hsession.
  unfold try_except, bind, lift. rewrite Hkept.
  unfold put_session_history.
  destruct (len kept =? len records); [reflexivity |].
  destruct (save_history_total (PList kept) (set_session_history (Some kept) w))
    as (saved & w' & Hsave & _).
  rewrite Hsave. now destruct saved.
Qed.

Lemma delete_record_raise (record_id : str) (records : list pyval) (w : world) (e : exn) :
  w_session_history w = Some records ->
  filter_result (other_id record_id) records = Raise e ->
  delete_record record_id w = (Ok false, w).
Proof.
  intros Hsession Hraise. unfold delete_record.
  destruct (truthy (PStr record_id)); [| reflexivity]. cbn [negb].
  unfold bind at 1. unfold get_session_history. rewrite Hsession.
  unfold try_except, bind, lift. now rewrite Hraise.
Qed.

(** The guard on the id: the empty string deletes nothing. *)
Lemma delete_record_empty_id (w : world) : delete_record [] w = (Ok false, w).
Proof. reflexivity. Qed.

End DeleteFacts.

(** C6, as amended: for a store of records (dicts) and a record id that is
    not the empty string, [delete_record] leaves in memory the records whose
    id differs; when exactly one record carries the id, exactly that record
    goes, the rest is handed to [save_history], and the answer is the one of
    [save_history] (true when it succeeds, false when it fails); when no
    record carries the id the answer is false and nothing changes; and with
    a history file that cannot be written the answer is false. *)
Theorem delete_record_removes_the_matching_record :
  forall (L : Libraries) (record_id : str) (records : list pyval) (w : world),
    record_id <> [] ->
    w_session_history w = Some records ->
    Forall is_dict records ->
    w_session_history (snd (delete_record record_id w))
    = Some (filter (fun r => negb (has_id record_id r)) records)
    /\ (forall (before after : list pyval) (r : pyval),
          records = before ++ r :: after ->
          has_id record_id r = true ->
          (forall x, In x (before ++ after) -> has_id record_id x = false) ->
          exists (saved : bool) (w' : world),
            save_history (PList (before ++ after))
              (set_session_history (Some (before ++ after)) w) = (Ok saved, w')
            /\ delete_record record_id w = (Ok saved, w')
            /\ w_session_history w' = Some (before ++ after))
    /\ ((forall x, In x records -> has_id record_id x = false) ->
        delete_record record_id w = (Ok false, w))
    /\ (w_history_writable w = false ->
        fst (delete_record record_id w) = Ok false).
Proof.
  intros L record_id records w Hid Hsession Hdicts.
  pose proof (filter_other_id record_id Hdicts) as Hkept.
  pose proof (delete_record_run w Hid Hsession Hkept) as Hrun.
  set (kept := filter (fun r => negb (has_id record_id r)) records) in *.
  destruct (save_history_total (PList kept) (set_session_history (Some kept) w))
    as (saved & w' & Hsave & Hframe).
  split; [| split; [| split]].
  - rewrite Hrun. destruct (len kept =? len records); [reflexivity |].
    rewrite Hsave. simpl. rewrite Hframe. reflexivity.
  - intros before after r Hrecords Hr Hothers.
    assert (Hfilter : kept = before ++ after).
    { subst kept. rewrite Hrecords, filter_app. simpl. rewrite Hr. simpl.
      rewrite <- filter_app. apply filter_all.
      intros x Hx. now rewrite (Hothers x Hx). }
    assert (Hlen : (len kept =? len records) = false).
    { apply Z.eqb_neq. rewrite Hfilter, Hrecords. unfold len.
      rewrite !length_app. simpl. lia. }
    rewrite Hlen in Hrun. rewrite Hfilter in *.
    exists saved, w'. split; [exact Hsave |]. split; [now rewrite Hrun |].
    now rewrite Hframe.
  - intros Habsent.
    assert (Hfilter : kept = records).
    { subst kept. apply filter_all. intros x Hx. now rewrite (Habsent x Hx). }
    rewrite Hrun, Hfilter, Z.eqb_refl.
    now rewrite (set_session_history_same w Hsession).
  - intros Hwritable. rewrite Hrun.
    destruct (len kept =? len records); [reflexivity |].
    apply (save_history_not_writable kept (set_session_history (Some kept) w)).
    exact Hwritable.
Qed.

Lemma delete_record_removes_the_matching_record_witness :
  exists w' : world,
    delete_record (L := Sample.libraries) (lit "b")
      (Sample.history_world None (Some Sample.three_entries)) = (Ok true, w')
    /\ w_session_history w' = Some [Sample.entry_today; Sample.entry_8_days].
Proof.
  destruct (proj1 (proj2 (@delete_record_removes_the_matching_record
                     (Sample.libraries) (lit "b") Sample.three_entries
                     (Sample.history_world None (Some Sample.three_entries))
                     ltac:(discriminate) eq_refl
                     ltac:(repeat constructor)))
              [Sample.entry_today] [Sample.entry_8_days] Sample.entry_3_days
              eq_refl eq_refl
              ltac:(intros x [<- | [<- | []]]; reflexivity))
    as (saved & w' & Hsave & Hdelete & Hsession).
  exists w'. split; [| exact Hsession].
  rewrite Hdelete. f_equal. f_equal.
  assert (Hfst : fst (save_history (L := Sample.libraries)
                        (PList ([Sample.entry_today] ++ [Sample.entry_8_days]))
                        (set_session_history
                           (Some ([Sample.entry_today] ++ [Sample.entry_8_days]))
                           (Sample.history_world None (Some Sample.three_entries))))
                 = Ok true) by reflexivity.
  rewrite Hsave in Hfst. simpl in Hfst. now injection Hfst.
Defined.

(** C6, as stated, fails for the empty id: a store whose only record carries
    the empty string as its id keeps that record when [delete_record] is
    called with the empty string, and the call answers false, although
    saving the emptied store would succeed. *)
Lemma empty_id_is_never_deleted :
  let r := PDict [(lit "id", PStr []); (key_time, PStr (lit "2025-06-20 09:00:00"))] in
  let w := Sample.history_world None (Some [r]) in
  has_id [] r = true
  /\ delete_record (L := Sample.libraries) [] w = (Ok false, w)
  /\ w_session_history w = Some [r]
  /\ fst (save_history (L := Sample.libraries) (PList [])
            (set_session_history (Some []) w)) = Ok true.
Proof.
  cbv zeta. repeat split; reflexivity.
Qed.

(** ** Runs on the sample instance *)

(** An exception of the extractor is not cached: on bytes that do not parse
    the extractor runs at every call. *)
Lemma raising_extraction_is_not_cached :
  forall (L : Libraries) (file_hash : str) (file_bytes : bytes) (w : world),
    len file_bytes <= MAX_FILE_SIZE ->
    fitz_open file_bytes = None ->
    cache_lookup pdf_key_eq_dec (w_pdf_cache w) (file_hash, file_bytes) = None ->
    let w1 := snd (extract_text_from_pdf_by_hash file_hash file_bytes w) in
    let w2 := snd (extract_text_from_pdf_by_hash file_hash file_bytes w1) in
    fst (extract_text_from_pdf_by_hash file_hash file_bytes w) = Raise FileDataError
    /\ fst (extract_text_from_pdf_by_hash file_hash file_bytes w1) = Raise FileDataError
    /\ w_trace w2 = w_trace w ++ [EvExtract file_bytes; EvExtract file_bytes].
Proof.
  intros L file_hash file_bytes w Hlen Hopen Hmiss. cbv zeta.
  assert (Hrun : forall w0,
             cache_lookup pdf_key_eq_dec (w_pdf_cache w0) (file_hash, file_bytes) = None ->
             extract_text_from_pdf_by_hash file_hash file_bytes w0
             = (Raise FileDataError, logged (EvExtract file_bytes) w0)).
  { intros w0 H0. unfold extract_text_from_pdf_by_hash.
    erewrite st_cache_data_miss_raise;
      [reflexivity | exact H0 | now apply extract_body_unparseable]. }
  rewrite (Hrun w Hmiss). cbn [fst snd].
  rewrite (Hrun (logged (EvExtract file_bytes) w) Hmiss). cbn [fst snd].
  repeat split. simpl. now rewrite <- app_assoc.
Qed.

Example sample_stamp_round_trip :
  Sample.print_stamp Sample.noon = lit "2025-06-20 12:00:00"
  /\ Sample.parse_stamp (lit "2025-06-20 12:00:00") = Some Sample.noon.
Proof. split; reflexivity. Qed.

Example sample_json_round_trip :
  Sample.parse_json Sample.history_text
  = Some (PDict [(lit "records", PList Sample.three_entries)])
  /\ Sample.parse_json [] = None.
Proof. split; reflexivity. Qed.

(** Saving the three entries and loading the file that was written. *)
Example sample_save_then_load :
  let saved := save_history (L := Sample.libraries) (PList Sample.three_entries)
                 (Sample.history_world None None) in
  fst saved = Ok true
  /\ fst (load_history (L := Sample.libraries) (snd saved))
     = Ok [Sample.entry_today; Sample.entry_3_days].
Proof. cbv zeta. split; vm_compute; reflexivity. Qed.

(** Uploading the same paper twice while the model answers without content:
    one request in all, and the second run changes nothing. *)
Example sample_second_upload :
  let f := {| uf_name := lit "paper.pdf"; uf_value := Sample.pdf_5_and_50 |} in
  let first := process_file_with_status (L := Sample.libraries) f Sample.no_content_world in
  fst first = Ok None
  /\ w_posts (snd first) = 1%nat
  /\ process_file_with_status (L := Sample.libraries) f (snd first) = (Ok None, snd first).
Proof. cbv zeta. repeat split; vm_compute; reflexivity. Qed.

(** Beyond its capacity the cache drops the oldest entry first. *)
Example cache_store_evicts_oldest :
  cache_store 2 (cache_store 2 (cache_store 2 [] 1%nat 10) 2%nat 20) 3%nat 30
  = [(2%nat, 20); (3%nat, 30)].
Proof. reflexivity. Qed.

Example utf8_encode_sample :
  utf8_encode (lit "A" ++ [233; 26102; 128512]%N)
  = Ok [x41; xc3; xa9; xe6; x97; xb6; xf0; x9f; x98; x80]
  /\ utf8_encode [55296%N] = Raise UnicodeEncodeError.
Proof. split; reflexivity. Qed.

Example splitext_samples :
  splitext (lit "paper.v2.pdf") = (lit "paper.v2", lit ".pdf")
  /\ splitext (lit ".hidden") = (lit ".hidden", [])
  /\ splitext (lit "dir.d/name") = (lit "dir.d/name", []).
Proof. repeat split; reflexivity. Qed.

Example strip_sample :
  strip (lit "  two words " ++ [10; 12288]%N) = lit "two words".
Proof. reflexivity. Qed.

(** * More properties *)

(** ** String methods *)

Section StringFacts.

Lemma drop_prefix_app (p s : str) : drop_prefix p (p ++ s) = Some s.
Proof.
  induction p as [| a p IH]; simpl; [reflexivity |].
  now rewrite N.eqb_refl.
Qed.

Lemma drop_prefix_some (p s r : str) : drop_prefix p s = Some r -> s = p ++ r.
Proof.
  revert s. induction p as [| a p IH]; intros s; simpl.
  - now intros [= ->].
  - destruct s as [| b s]; [discriminate |].
    destruct (N.eqb_spec a b) as [-> | _]; [| discriminate].
    intros H. now rewrite (IH s H).
Qed.

Lemma cut_some (sep s before after : str) :
  cut sep s = Some (before, after) -> s = before ++ sep ++ after.
Proof.
  revert before. induction s as [| c s IH]; intros before; simpl.
  - destruct (drop_prefix sep []) as [rest |] eqn:E; [| discriminate].
    intros [= <- <-]. now apply drop_prefix_some in E.
  - destruct (drop_prefix sep (c :: s)) as [rest |] eqn:E.
    + intros [= <- <-]. now apply drop_prefix_some in E.
    + destruct (cut sep s) as [[b a] |]; [| discriminate].
      intros [= <- <-]. simpl. f_equal. now apply IH.
Qed.

Lemma cut_prefix (sep s rest : str) :
  drop_prefix sep s = Some rest -> cut sep s = Some ([], rest).
Proof. intros H. destruct s; simpl; now rewrite H. Qed.

(** The separator occurs in a text built around it. *)
Lemma cut_app_found (sep a b : str) : cut sep (a ++ sep ++ b) <> None.
Proof.
  induction a as [| c a IH]; simpl.
  - rewrite (cut_prefix _ _ (drop_prefix_app sep b)). discriminate.
  - destruct (drop_prefix sep (c :: a ++ sep ++ b)); [discriminate |].
    destruct (cut sep (a ++ sep ++ b)) as [[x y] |]; [discriminate | exact IH].
Qed.

Lemma cut_char_none (c : char) (s : str) : cut [c] s = None -> ~ In c s.
Proof.
  induction s as [| x s IH]; simpl; [tauto |].
  destruct (N.eqb_spec c x) as [-> | Hne]; [discriminate |].
  destruct (cut [c] s) as [[b a] |]; [discriminate |].
  intros _ [H | H]; [congruence | now apply IH].
Qed.

Lemma cut_char_before (c : char) (s before after : str) :
  cut [c] s = Some (before, after) -> ~ In c before.
Proof.
  revert before. induction s as [| x s IH]; intros before; simpl; [discriminate |].
  destruct (N.eqb_spec c x) as [-> | Hne].
  - intros [= <- <-]. tauto.
  - destruct (cut [c] s) as [[b a] |]; [| discriminate].
    intros [= <- <-] [H | H]; [congruence | now apply (IH b)].
Qed.

Lemma cut_char_app (c : char) (a b : str) :
  ~ In c a -> cut [c] (a ++ c :: b) = Some (a, b).
Proof.
  induction a as [| x a IH]; simpl; intros H.
  - now rewrite N.eqb_refl.
  - destruct (N.eqb_spec c x) as [-> | Hne]; [tauto |].
    rewrite IH by tauto. reflexivity.
Qed.

Lemma cut_char_absent (c : char) (s : str) : ~ In c s -> cut [c] s = None.
Proof.
  induction s as [| x s IH]; simpl; intros H; [reflexivity |].
  destruct (N.eqb_spec c x) as [-> | Hne]; [tauto |].
  rewrite IH by tauto. reflexivity.
Qed.

Lemma cut_char_length (c : char) (s before after : str) :
  cut [c] s = Some (before, after) -> (List.length after < List.length s)%nat.
Proof.
  intros H. apply cut_some in H. subst s. rewrite !length_app. simpl. lia.
Qed.

(** No piece of a split on a character holds the character. *)
Lemma split_from_pieces (c : char) (fuel : nat) (s : str) :
  (List.length s <= fuel)%nat ->
  Forall (fun piece => ~ In c piece) (split_from fuel [c] s).
Proof.
  revert s. induction fuel as [| fuel IH]; intros s Hfuel; simpl.
  - destruct s; [| simpl in Hfuel; lia]. repeat constructor. tauto.
  - destruct (cut [c] s) as [[before after] |] eqn:E.
    + constructor; [now apply (cut_char_before _ _ E) |].
      apply IH. pose proof (cut_char_length _ _ E). lia.
    + repeat constructor. now apply cut_char_none.
Qed.

Lemma split_pieces (c : char) (s : str) :
  Forall (fun piece => ~ In c piece) (split s [c]).
Proof. apply split_from_pieces. lia. Qed.

Lemma split_from_absent (c : char) (fuel : nat) (s : str) :
  ~ In c s -> split_from fuel [c] s = [s].
Proof. intros H. destruct fuel; simpl; [| rewrite cut_char_absent by exact H]; reflexivity. Qed.

Lemma lstrip_space_prefix (a s : str) :
  Forall (fun c => is_space c = true) a -> lstrip (a ++ s) = lstrip s.
Proof. induction 1 as [| c a Hc _ IH]; simpl; [reflexivity |]. now rewrite Hc. Qed.

Lemma lstrip_app_nonempty (s b : str) :
  lstrip s <> [] -> lstrip (s ++ b) = lstrip s ++ b.
Proof.
  induction s as [| c s IH]; simpl; [tauto |].
  destruct (is_space c); [exact IH | reflexivity].
Qed.

Lemma lstrip_all_space (s b : str) :
  lstrip s = [] -> Forall (fun c => is_space c = true) b -> lstrip (s ++ b) = [].
Proof.
  induction s as [| c s IH]; simpl; intros Hs Hb.
  - rewrite <- (app_nil_r b). rewrite lstrip_space_prefix by exact Hb. reflexivity.
  - destruct (is_space c); [now apply IH | discriminate].
Qed.

(** Whitespace around a text does not change what [strip] gives. *)
Lemma strip_padding (a s b : str) :
  Forall (fun c => is_space c = true) a ->
  Forall (fun c => is_space c = true) b ->
  strip (a ++ s ++ b) = strip s.
Proof.
  intros Ha Hb. unfold strip. rewrite (lstrip_space_prefix _ Ha).
  destruct (lstrip s) as [| c t] eqn:E.
  - now rewrite (lstrip_all_space _ E Hb).
  - rewrite lstrip_app_nonempty by (rewrite E; discriminate).
    rewrite E, rev_app_distr.
    rewrite lstrip_space_prefix; [reflexivity |].
    apply Forall_rev. exact Hb.
Qed.

Lemma lstrip_idempotent (s : str) : lstrip (lstrip s) = lstrip s.
Proof.
  induction s as [| c s IH]; simpl; [reflexivity |].
  destruct (is_space c) eqn:E; [exact IH |]. simpl. now rewrite E.
Qed.

Lemma lstrip_suffix (s : str) : exists a, s = a ++ lstrip s.
Proof.
  induction s as [| c s [a IH]]; simpl; [now exists [] |].
  destruct (is_space c); [| now exists []].
  exists (c :: a). simpl. now f_equal.
Qed.

(** [strip] returns a stretch of the text. *)
Lemma strip_infix (s : str) : exists a b, s = a ++ strip s ++ b.
Proof.
  unfold strip. destruct (lstrip_suffix s) as [a Ha].
  destruct (lstrip_suffix (rev (lstrip s))) as [b Hb].
  exists a, (rev b). rewrite Ha at 1. f_equal.
  rewrite <- (rev_involutive (lstrip s)) at 1. rewrite Hb at 1.
  now rewrite rev_app_distr.
Qed.

Lemma join_in (sep : str) (parts : list str) (c : char) :
  In c (join sep parts) -> In c sep \/ exists p, In p parts /\ In c p.
Proof.
  induction parts as [| p parts IH]; simpl; [tauto |].
  destruct parts as [| q parts].
  - intros H. right. exists p. auto.
  - intros H. apply in_app_or in H. destruct H as [H | H].
    + right. exists p. auto.
    + apply in_app_or in H. destruct H as [H | H]; [now left |].
      destruct (IH H) as [Hs | [x [Hx Hc]]]; [now left |].
      right. exists x. split; [now right | exact Hc].
Qed.

Lemma splitlines_from_incl_bounded (n : nat) (s cur line : str) (c : char) :
  (List.length s <= n)%nat ->
  In line (splitlines_from s cur) -> In c line -> In c s \/ In c cur.
Proof.
  revert s cur. induction n as [| n IH]; intros s cur Hn Hline Hc.
  - destruct s; [| simpl in Hn; lia]. simpl in Hline.
    destruct cur; [contradiction |]. destruct Hline as [<- | []].
    right. now apply in_rev.
  - destruct s as [| x s]; simpl in Hline.
    + destruct cur; [contradiction |]. destruct Hline as [<- | []].
      right. now apply in_rev.
    + simpl in Hn.
      assert (Hrest : forall rest, (List.length rest <= n)%nat ->
                      (forall y, In y rest -> In y (x :: s)) ->
                      In line (rev cur :: splitlines_from rest []) ->
                      In c (x :: s) \/ In c cur).
      { intros rest Hle Hsub [<- | Hin].
        - right. now apply in_rev.
        - destruct (IH rest [] Hle Hin Hc) as [H | []]. left. now apply Hsub. }
      destruct (x =? 13)%N.
      * destruct s as [| y s'].
        { apply (Hrest []); [simpl; lia | intros y [] | exact Hline]. }
        assert (Hs : In line (rev cur :: splitlines_from (y :: s') []) ->
                     In c (x :: y :: s') \/ In c cur).
        { apply Hrest; [simpl in *; lia | intros z Hz; now right]. }
        assert (Hs' : In line (rev cur :: splitlines_from s' []) ->
                      In c (x :: y :: s') \/ In c cur).
        { apply Hrest; [simpl in *; lia | intros z Hz; right; now right]. }
        destruct y as [| p]; [now apply Hs |].
        do 4 (destruct p as [p | p |]; try (now apply Hs)).
        now apply Hs'.
      * destruct (is_linebreak x).
        { apply (Hrest s); [lia | intros y Hy; now right | exact Hline]. }
        destruct (IH s (x :: cur) ltac:(lia) Hline Hc) as [H | [H | H]];
          [left; now right | left; now left | now right].
Qed.

Lemma splitlines_from_incl (s cur line : str) (c : char) :
  In line (splitlines_from s cur) -> In c line -> In c s \/ In c cur.
Proof. apply (splitlines_from_incl_bounded (n := List.length s)). lia. Qed.

Lemma splitlines_incl (s line : str) (c : char) :
  In line (splitlines s) -> In c line -> In c s.
Proof.
  intros Hline Hc.
  destruct (splitlines_from_incl s [] line c Hline Hc) as [H | []]. exact H.
Qed.

End StringFacts.

(** ** The delimited table, the Word rows and the slides *)

Section ReportFacts.

Lemma lstrip_where_prefix (p : char -> bool) (a s : str) :
  Forall (fun c => p c = true) a -> lstrip_where p (a ++ s) = lstrip_where p s.
Proof. induction 1 as [| c a Hc _ IH]; simpl; [reflexivity |]. now rewrite Hc. Qed.

(** Stripping a set of characters from a text that neither starts nor ends
    with one of them, wrapped in such characters, gives the text back. *)
Lemma strip_where_wrapped (p : char -> bool) (a b mid : str) (first last : char) :
  Forall (fun c => p c = true) a -> Forall (fun c => p c = true) b ->
  p first = false -> p last = false ->
  strip_where p (a ++ (first :: mid ++ [last]) ++ b) = first :: mid ++ [last].
Proof.
  intros Ha Hb Hfirst Hlast. unfold strip_where.
  rewrite (lstrip_where_prefix _ _ Ha). simpl. rewrite Hfirst.
  replace (first :: (mid ++ [last]) ++ b) with ((first :: mid) ++ last :: b)
    by (simpl; now rewrite <- app_assoc).
  rewrite rev_app_distr. simpl. rewrite <- app_assoc.
  rewrite lstrip_where_prefix by (apply Forall_rev; exact Hb).
  simpl. rewrite Hlast. simpl. rewrite rev_app_distr, rev_involutive.
  reflexivity.
Qed.

Lemma contains_comma_join (p1 p2 : str) (rest : list str) :
  contains comma (join comma (p1 :: p2 :: rest)) = true.
Proof.
  unfold contains. change (join comma (p1 :: p2 :: rest))
    with (p1 ++ comma ++ join comma (p2 :: rest)).
  pose proof (cut_app_found comma p1 (join comma (p2 :: rest))) as H.
  destruct (cut comma _); [reflexivity | contradiction].
Qed.

Lemma csv_row_shape (line row : str) :
  In row (csv_row line) -> contains comma row = true /\ ~ In 124%N row.
Proof.
  unfold csv_row. destruct (_ && _); [| contradiction]. cbv zeta.
  set (pieces := split (strip_where is_bar line) bar).
  destruct (len (map strip pieces) >=? 2) eqn:E; [| contradiction].
  intros [<- | []]. split.
  - destruct (map strip pieces) as [| p1 [| p2 rest]]; try discriminate E.
    apply contains_comma_join.
  - intros H. apply join_in in H. destruct H as [[H | []] | [p [Hp H]]];
      [discriminate H |].
    apply in_map_iff in Hp. destruct Hp as [q [<- Hq]].
    apply strip_incl in H.
    pose proof (split_pieces 124%N (strip_where is_bar line)) as Hpieces.
    rewrite Forall_forall in Hpieces. now apply (Hpieces q Hq).
Qed.

Lemma csv_row_table_line (k v : str) :
  ~ In 124%N k -> ~ In 124%N v -> strip k = k -> strip v = v ->
  startswith (table_line k v) header_row_start = false ->
  csv_row (table_line k v) = [k ++ comma ++ v].
Proof.
  intros Hk Hv Sk Sv Hheader. unfold csv_row. rewrite Hheader.
  replace (contains bar (table_line k v)) with true by reflexivity.
  replace (startswith (table_line k v) (lit "|---")) with false by reflexivity.
  cbn [andb negb]. cbv zeta.
  assert (Hstrip : strip_where is_bar (table_line k v)
                   = (32%N :: k ++ [32%N]) ++ 124%N :: (32%N :: v ++ [32%N])).
  { assert (Hshape : table_line k v
                     = [124%N] ++ (32%N :: (k ++ [32; 124; 32]%N ++ v) ++ [32%N])
                       ++ [124%N]).
    { unfold table_line. simpl. do 2 f_equal. now rewrite <- !app_assoc. }
    rewrite Hshape, strip_where_wrapped; try reflexivity; try (repeat constructor).
    simpl. f_equal. now rewrite <- !app_assoc. }
  rewrite Hstrip. unfold split, bar.
  rewrite length_app. simpl List.length. rewrite Nat.add_succ_r.
  cbn [split_from].
  rewrite cut_char_app
    by (intros [H | H]; [discriminate H |];
        apply in_app_or in H; destruct H as [H | [H | []]];
        [now apply Hk | discriminate H]).
  rewrite split_from_absent
    by (intros [H | H]; [discriminate H |];
        apply in_app_or in H; destruct H as [H | [H | []]];
        [now apply Hv | discriminate H]).
  simpl map.
  replace (strip (32%N :: k ++ [32%N])) with (strip k)
    by (symmetry; apply (@strip_padding [32%N] k [32%N]); repeat constructor).
  replace (strip (32%N :: v ++ [32%N])) with (strip v)
    by (symmetry; apply (@strip_padding [32%N] v [32%N]); repeat constructor).
  rewrite Sk, Sv. reflexivity.
Qed.





End ReportFacts.

(** X1: the delimited table always starts with the header row, and every
    row after it holds at least one comma and no cell separator. *)
Theorem csv_lines_start_with_header :
  forall result_text : str,
    exists rows : list str,
      csv_lines_of result_text = csv_header :: rows
      /\ Forall (fun row => contains comma row = true /\ ~ In 124%N row) rows.
Proof.
  intros result_text. eexists. split; [reflexivity |].
  apply Forall_forall. intros row Hrow.
  apply in_flat_map in Hrow. destruct Hrow as [line [_ Hrow]].
  now apply (csv_row_shape line).
Qed.

(** X2: a table line [| key | value |] whose cells hold no separator and no
    surrounding whitespace, and which is not the header row, gives the row
    [key,value]. *)
Theorem table_line_gives_csv_row :
  forall k v : str,
    ~ In 124%N k -> ~ In 124%N v -> strip k = k -> strip v = v ->
    startswith (table_line k v) header_row_start = false ->
    csv_row (table_line k v) = [k ++ comma ++ v].
Proof. exact csv_row_table_line. Qed.

Lemma table_line_gives_csv_row_witness :
  csv_row (table_line Sample.study_type (lit "RCT"))
  = [Sample.study_type ++ comma ++ lit "RCT"].
Proof.
  apply (@table_line_gives_csv_row Sample.study_type (lit "RCT")).
  - vm_compute. intuition discriminate.
  - vm_compute. intuition discriminate.
  - reflexivity.
  - reflexivity.
  - reflexivity.
Defined.

(** X3: an answer without any cell separator gives a table made of the
    header alone. *)
Theorem answer_without_bars_gives_header_only :
  forall result_text : str,
    ~ In 124%N result_text -> csv_lines_of result_text = [csv_header].
Proof.
  intros result_text Hnone. unfold csv_lines_of. f_equal.
  assert (H : forall lines, (forall line, In line lines -> ~ In 124%N line) ->
                            flat_map csv_row lines = []).
  { induction lines as [| line lines IH]; intros Hlines; [reflexivity |].
    simpl. rewrite IH by (intros l Hl; apply Hlines; now right).
    unfold csv_row, contains, bar.
    rewrite cut_char_absent by (apply Hlines; now left). reflexivity. }
  apply H. intros line Hline Hbar. apply Hnone.
  now apply (@splitlines_incl result_text line 124%N Hline).
Qed.

Lemma answer_without_bars_gives_header_only_witness :
  csv_lines_of (lit "No table could be extracted.") = [csv_header].
Proof.
  apply answer_without_bars_gives_header_only.
  vm_compute. intuition discriminate.
Defined.





(** ** Supplementary notes *)

Section NotesFacts.

Lemma drop_prefix_app_l (p q s : str) :
  drop_prefix (p ++ q) s
  = match drop_prefix p s with
    | Some rest => drop_prefix q rest
    | None => None
    end.
Proof.
  revert s. induction p as [| a p IH]; intros s; simpl; [reflexivity |].
  destruct s as [| b s]; [reflexivity |].
  destruct (a =? b)%N; [apply IH | reflexivity].
Qed.

Lemma cut_none_no_split (sep s : str) :
  cut sep s = None -> forall a b, s <> a ++ sep ++ b.
Proof. intros H a b ->. now apply (cut_app_found sep a b). Qed.

(** The helper finds a word exactly when the word occurs with one of the
    two colons after it. *)
Lemma after_notes_word_none (s : str) :
  after_notes_word s = None
  <-> contains notes_word_colon s = false /\ contains notes_word_ascii_colon s = false.
Proof.
  unfold contains, notes_word_colon, notes_word_ascii_colon.
  induction s as [| x s IH].
  - split; [split; reflexivity | reflexivity].
  - cbn [after_notes_word cut]. rewrite !drop_prefix_app_l.
    destruct (drop_prefix notes_word (x :: s)) as [[| c rest] |] eqn:E;
      cbn [drop_prefix];
      try rewrite (N.eqb_sym 65306 c), (N.eqb_sym 58 c);
      try (destruct (c =? 65306)%N; destruct (c =? 58)%N; cbn [orb]);
      destruct (after_notes_word s);
      destruct (cut (notes_word ++ [65306%N]) s) as [[? ?] |];
      destruct (cut (notes_word ++ [58%N]) s) as [[? ?] |];
      try tauto; intuition discriminate.
Qed.

Lemma lstrip_head (s : str) (c : char) (t : str) :
  lstrip s = c :: t -> is_space c = false.
Proof.
  induction s as [| x s IH]; simpl; [discriminate |].
  destruct (is_space x) eqn:E; [exact IH |]. now intros [= <- _].
Qed.

Lemma lstrip_fixed (s : str) :
  match s with [] => True | c :: _ => is_space c = false end -> lstrip s = s.
Proof. destruct s as [| c s]; simpl; [reflexivity |]. now intros ->. Qed.

Lemma strip_idempotent (s : str) : strip (strip s) = strip s.
Proof.
  unfold strip.
  set (u := lstrip s). set (w := lstrip (rev u)).
  assert (Hw : lstrip w = w) by apply lstrip_idempotent.
  assert (Hrw : lstrip (rev w) = rev w).
  { apply lstrip_fixed. destruct (lstrip_suffix (rev u)) as [a Ha]. fold w in Ha.
    assert (Hu : u = rev w ++ rev a).
    { rewrite <- (rev_involutive u), Ha, rev_app_distr. reflexivity. }
    destruct (rev w) as [| c t] eqn:E; [exact I |].
    apply (@lstrip_head s c (t ++ rev a)). exact Hu. }
  rewrite Hrw, rev_involutive, Hw. reflexivity.
Qed.

Lemma until_blank_line_head (s : str) (c : char) (t : str) :
  until_blank_line s = c :: t -> exists s', s = c :: s'.
Proof.
  destruct s as [| x s]; simpl; [discriminate |].
  destruct (_ && _); [discriminate |]. intros [= <- _]. eauto.
Qed.

(** The text cut at the first empty line holds no empty line. *)
Lemma until_blank_line_no_blank (s a b : str) :
  until_blank_line s <> a ++ blank_line ++ b.
Proof.
  revert a. induction s as [| x s IH]; intros a; simpl.
  - destruct a; discriminate.
  - destruct ((x =? 10)%N && startswith s [10%N]) eqn:E.
    + destruct a; discriminate.
    + destruct a as [| y a]; simpl.
      * intros [= -> H]. apply until_blank_line_head in H. destruct H as [s' ->].
        discriminate E.
      * intros [= _ H]. now apply (IH a).
Qed.

Lemma no_blank_infix (s a b : str) :
  (forall x y, s <> x ++ blank_line ++ y) ->
  forall t, s = a ++ t ++ b -> contains blank_line t = false.
Proof.
  intros Hs t Heq. unfold contains.
  destruct (cut blank_line t) as [[x y] |] eqn:E; [| reflexivity].
  apply cut_some in E. exfalso. apply (Hs (a ++ x) (y ++ b)).
  rewrite Heq, E, <- !app_assoc. reflexivity.
Qed.

Lemma contains_longer (p q s : str) :
  contains (p ++ q) s = true -> contains p s = true.
Proof.
  unfold contains.
  destruct (cut (p ++ q) s) as [[a b] |] eqn:E; [intros _ | discriminate].
  apply cut_some in E.
  assert (H : s = a ++ p ++ (q ++ b)) by (rewrite E, <- app_assoc; reflexivity).
  pose proof (cut_app_found p a (q ++ b)) as Hfound. rewrite <- H in Hfound.
  destruct (cut p s); [reflexivity | contradiction].
Qed.

Lemma split_second_piece (sep s : str) :
  sep <> [] ->
  contains sep s = true -> exists t, nth_error (split s sep) 1 = Some t.
Proof.
  intros Hsep. unfold contains, split.
  destruct (cut sep s) as [[before after] |] eqn:E; [intros _ | discriminate].
  destruct s as [| c s].
  - destruct sep; [contradiction | discriminate E].
  - cbn [List.length split_from]. rewrite E.
    destruct (List.length s); cbn [split_from].
    + eexists; reflexivity.
    + destruct (cut sep after) as [[x y] |]; eexists; reflexivity.
Qed.

Lemma split_no_separator (sep s : str) :
  contains sep s = false -> split s sep = [s].
Proof.
  unfold contains, split. destruct (cut sep s) eqn:E; [discriminate |]. intros _.
  destruct (List.length s); simpl; [| rewrite E]; reflexivity.
Qed.

End NotesFacts.

(** X7: [extract_supplementary_notes] answers [None] exactly when the word
    is nowhere followed by a full-width or an ASCII colon (and for anything
    that is no string); what it returns has no surrounding whitespace and no
    empty line in it. *)
Theorem supplementary_notes_are_one_trimmed_paragraph :
  forall s : str,
    (extract_supplementary_notes (PStr s) = None
     <-> contains notes_word_colon s = false
         /\ contains notes_word_ascii_colon s = false)
    /\ (forall notes : str,
          extract_supplementary_notes (PStr s) = Some notes ->
          strip notes = notes /\ contains blank_line notes = false)
    /\ (forall v : pyval,
          (forall t, v <> PStr t) -> extract_supplementary_notes v = None).
Proof.
  intros s. split; [| split].
  - rewrite <- after_notes_word_none. unfold extract_supplementary_notes.
    destruct (after_notes_word s); split; intros H; try discriminate; reflexivity.
  - intros notes. unfold extract_supplementary_notes.
    destruct (after_notes_word s) as [rest |]; [| discriminate].
    intros [= <-]. split; [apply strip_idempotent |].
    destruct (strip_infix (until_blank_line (lstrip rest))) as [a [b Hab]].
    eapply no_blank_infix; [| exact Hab].
    intros x y. apply until_blank_line_no_blank.
  - intros v Hv. destruct v; try reflexivity. exfalso. now apply (Hv s0).
Qed.

(** X8: the supplementary slide of the main page: no slide when the word
    does not occur; a slide with trimmed text when the word occurs with the
    full-width colon; and [IndexError] when the word occurs but never with
    the full-width colon. *)
Theorem supplementary_slide_needs_the_full_width_colon :
  forall s : str,
    (contains notes_word s = false -> supplementary_slide_text s = Ok None)
    /\ (contains notes_word_colon s = true ->
        exists t, supplementary_slide_text s = Ok (Some t) /\ strip t = t)
    /\ (contains notes_word s = true -> contains notes_word_colon s = false ->
        supplementary_slide_text s = Raise IndexError).
Proof.
  intros s. unfold supplementary_slide_text. split; [| split].
  - now intros ->.
  - intros Hcolon.
    assert (Hword : contains notes_word s = true)
      by exact (@contains_longer notes_word [65306%N] s Hcolon).
    rewrite Hword. destruct (@split_second_piece notes_word_colon s ltac:(discriminate) Hcolon) as [t Ht].
    rewrite Ht. eexists. split; [reflexivity | apply strip_idempotent].
  - intros Hword Hnone. rewrite Hword, (split_no_separator _ _ Hnone). reflexivity.
Qed.

(** X9: where the word is followed by an ASCII colon only, the helper
    [extract_supplementary_notes] finds the notes while the code of the
    slide raises [IndexError]. *)
Theorem ascii_colon_notes_break_the_slide :
  forall s : str,
    contains notes_word_ascii_colon s = true ->
    contains notes_word_colon s = false ->
    (exists notes, extract_supplementary_notes (PStr s) = Some notes)
    /\ supplementary_slide_text s = Raise IndexError.
Proof.
  intros s Hascii Hnone. split.
  - unfold extract_supplementary_notes.
    destruct (after_notes_word s) as [rest |] eqn:E; [eauto |].
    apply after_notes_word_none in E. destruct E as [_ E]. congruence.
  - unfold supplementary_slide_text.
    rewrite (@contains_longer notes_word [58%N] s Hascii).
    rewrite (@split_no_separator notes_word_colon s Hnone). reflexivity.
Qed.

Lemma ascii_colon_notes_break_the_slide_witness :
  (exists notes,
      extract_supplementary_notes (PStr (lit "Table. " ++ notes_word ++ lit ": n=120"))
      = Some notes)
  /\ supplementary_slide_text (lit "Table. " ++ notes_word ++ lit ": n=120")
     = Raise IndexError.
Proof.
  apply ascii_colon_notes_break_the_slide; reflexivity.
Defined.

(** ** The batch, the upload directory and file names *)

(** X10: the main page works on the first five uploads in their order and
    queues the rest: the batch followed by the queue is the upload list, the
    batch never has more than five files, and the queue is empty exactly
    when at most five files were uploaded. *)
Theorem split_batch_takes_the_first_five :
  forall (A : Type) (uploaded_files : list A),
    fst (split_batch uploaded_files) ++ snd (split_batch uploaded_files) = uploaded_files
    /\ len (fst (split_batch uploaded_files)) = Z.min 5 (len uploaded_files)
    /\ (snd (split_batch uploaded_files) = [] <-> len uploaded_files <= 5).
Proof.
  intros A files. unfold split_batch, len, slice_to.
  change (Z.to_nat 5) with 5%nat.
  destruct (Z.of_nat (List.length files) >? 5) eqn:E; cbn [fst snd].
  - apply Z.gtb_lt in E. split; [apply firstn_skipn |]. split.
    + rewrite length_firstn. lia.
    + split; [| lia]. intros H.
      apply (f_equal (@List.length A)) in H. rewrite length_skipn in H.
      simpl in H. lia.
  - assert (Z.of_nat (List.length files) <= 5).
    { destruct (Z.gtb_spec (Z.of_nat (List.length files)) 5); [discriminate | lia]. }
    split; [apply app_nil_r |]. split; [lia | tauto].
Qed.

Lemma remove_all_run (entries : list (str * bool)) :
  exists removed remaining,
    entries = removed ++ remaining
    /\ Forall (fun e => snd e = false) removed
    /\ snd (remove_all entries) = remaining
    /\ match remaining with
       | [] => fst (remove_all entries) = Ok tt
       | e :: _ => snd e = true /\ fst (remove_all entries) = Raise OSError
       end.
Proof.
  induction entries as [| [name d] rest IH].
  - exists [], []. repeat split; constructor.
  - cbn [remove_all]. destruct d.
    + exists [], ((name, true) :: rest). repeat split; constructor.
    + destruct IH as [removed [remaining [Heq [Hfiles [Hsnd Hfst]]]]].
      exists ((name, false) :: removed), remaining. repeat split.
      * simpl. now rewrite Heq.
      * constructor; [reflexivity | exact Hfiles].
      * exact Hsnd.
      * exact Hfst.
Qed.

(** X11: [clear_uploaded_files] removes the entries of the upload directory
    in order up to the first subdirectory: the entries before it are gone,
    it and everything after it stay, and the call raises [OSError]; with no
    subdirectory a directory that was not empty ends empty with the success
    message. *)
Theorem clearing_stops_at_the_first_subdirectory :
  forall entries : list (str * bool),
    entries <> [] ->
    exists removed remaining,
      entries = removed ++ remaining
      /\ Forall (fun e => snd e = false) removed
      /\ snd (clear_uploaded_files (Directory entries)) = Directory remaining
      /\ match remaining with
         | [] => fst (clear_uploaded_files (Directory entries)) = Ok FilesCleared
         | e :: _ =>
             snd e = true
             /\ fst (clear_uploaded_files (Directory entries)) = Raise OSError
         end.
Proof.
  intros entries Hne.
  destruct (remove_all_run entries) as [removed [remaining [Heq [Hfiles [Hsnd Hfst]]]]].
  exists removed, remaining. split; [exact Heq |]. split; [exact Hfiles |].
  unfold clear_uploaded_files.
  assert (Hlen : (len entries >? 0) = true).
  { apply Z.gtb_lt. unfold len. destruct entries; [contradiction | simpl; lia]. }
  rewrite Hlen. destruct (remove_all entries) as [r rem]. cbn [fst snd] in *.
  destruct r as [u | e].
  - split; [now rewrite Hsnd |]. destruct remaining as [| e rest]; [reflexivity |].
    destruct Hfst as [_ Hfst]. discriminate Hfst.
  - split; [now rewrite Hsnd |]. destruct remaining as [| e' rest]; [discriminate Hfst |].
    destruct Hfst as [Hd Hfst]. injection Hfst as ->. split; [exact Hd | reflexivity].
Qed.

Lemma clearing_stops_at_the_first_subdirectory_witness :
  exists removed remaining,
    [(lit "a.pdf", false); (lit "old", true); (lit "b.pdf", false)] = removed ++ remaining
    /\ Forall (fun e => snd e = false) removed
    /\ snd (clear_uploaded_files
              (Directory [(lit "a.pdf", false); (lit "old", true); (lit "b.pdf", false)]))
       = Directory remaining
    /\ match remaining with
       | [] => fst (clear_uploaded_files
                      (Directory [(lit "a.pdf", false); (lit "old", true); (lit "b.pdf", false)]))
               = Ok FilesCleared
       | e :: _ =>
           snd e = true
           /\ fst (clear_uploaded_files
                     (Directory [(lit "a.pdf", false); (lit "old", true); (lit "b.pdf", false)]))
              = Raise OSError
       end.
Proof.
  apply clearing_stops_at_the_first_subdirectory. discriminate.
Defined.

Lemma filter_fixed (A : Type) (p : A -> bool) (l : list A) :
  Forall (fun x => p x = true) l -> filter p l = l.
Proof.
  induction 1 as [| x l Hx _ IH]; simpl; [reflexivity |]. now rewrite Hx, IH.
Qed.

(** X12: [sanitize_filename] gives a name that is never empty and made of
    the 65 allowed characters only; it keeps the allowed characters of its
    argument in their order when there is one, gives ["unnamed_file"] when
    there is none, and leaves its own results unchanged. *)
Theorem sanitize_filename_is_a_closure :
  forall filename : str,
    sanitize_filename filename <> []
    /\ Forall (fun c => In c safe_chars) (sanitize_filename filename)
    /\ (filter is_safe filename <> [] ->
        sanitize_filename filename = filter is_safe filename)
    /\ (filter is_safe filename = [] ->
        sanitize_filename filename = lit "unnamed_file")
    /\ sanitize_filename (sanitize_filename filename) = sanitize_filename filename.
Proof.
  intros filename.
  destruct (sanitize_filename_safe filename) as [Hsafe Hne].
  split; [exact Hne |]. split; [| split; [| split]].
  - eapply Forall_impl; [| exact Hsafe]. intros c. unfold is_safe.
    destruct (in_dec N.eq_dec c safe_chars); [trivial | discriminate].
  - unfold sanitize_filename. destruct (filter is_safe filename); [contradiction | reflexivity].
  - unfold sanitize_filename. now intros ->.
  - set (g := sanitize_filename filename) in *. unfold sanitize_filename at 1.
    rewrite (filter_fixed _ Hsafe). destruct g; [contradiction | reflexivity].
Qed.

(** ** The windows of [process_large_file] *)

Lemma windows_from_nil (fuel chunk_size : nat) : windows_from fuel chunk_size [] = [].
Proof. destruct fuel; reflexivity. Qed.

Lemma windows_from_shape (chunk_size fuel : nat) (bs : bytes) :
  (0 < chunk_size)%nat -> (List.length bs <= fuel)%nat ->
  Forall (fun w => (0 < List.length w <= chunk_size)%nat) (windows_from fuel chunk_size bs)
  /\ Forall (fun w => List.length w = chunk_size)
            (removelast (windows_from fuel chunk_size bs))
  /\ List.length (windows_from fuel chunk_size bs)
     = ((List.length bs + chunk_size - 1) / chunk_size)%nat.
Proof.
  intros Hpos. revert bs. induction fuel as [| fuel IH]; intros bs Hfuel.
  - destruct bs; [| simpl in Hfuel; lia].
    cbn [windows_from removelast List.length]. repeat split; try constructor.
    symmetry. apply Nat.div_small. lia.
  - destruct bs as [| b bs].
    + cbn [windows_from removelast List.length]. repeat split; try constructor.
      symmetry. apply Nat.div_small. lia.
    + cbn [windows_from]. set (l := b :: bs) in *.
      assert (Hl : (0 < List.length l)%nat) by (subst l; simpl; lia).
      destruct (IH (skipn chunk_size l)) as [H1 [H2 H3]].
      { rewrite length_skipn. lia. }
      split; [| split].
      * constructor; [| exact H1]. rewrite length_firstn. lia.
      * destruct (Nat.le_gt_cases (List.length l) chunk_size) as [Hsmall | Hbig].
        { rewrite skipn_all2 by exact Hsmall. rewrite windows_from_nil. constructor. }
        destruct (windows_from fuel chunk_size (skipn chunk_size l)) as [| w ws] eqn:E.
        { exfalso. cbn [List.length] in H3. rewrite length_skipn in H3.
          symmetry in H3. apply Nat.div_small_iff in H3; lia. }
        cbn [removelast]. constructor; [| exact H2].
        rewrite length_firstn. lia.
      * cbn [List.length]. rewrite H3, length_skipn.
        destruct (Nat.le_gt_cases (List.length l) chunk_size) as [Hsmall | Hbig].
        { replace (List.length l - chunk_size)%nat with 0%nat by lia.
          rewrite (Nat.div_small (0 + chunk_size - 1) chunk_size) by lia.
          apply (Nat.div_unique _ _ 1 (List.length l - 1)); lia. }
        replace (List.length l + chunk_size - 1)%nat
          with ((List.length l - chunk_size + chunk_size - 1) + 1 * chunk_size)%nat by lia.
        rewrite Nat.div_add by lia. lia.
Qed.

(** X13: the windows that [process_large_file] cuts from the bytes of an
    upload: put together they are the bytes, none is empty, every one but
    the last has the full chunk size and the last at most that, and their
    number is the [total_chunks] of the source, the length divided by the
    chunk size and rounded up. *)
Theorem windows_tile_the_upload :
  forall (chunk_size : nat) (bs : bytes),
    (0 < chunk_size)%nat ->
    concat (windows chunk_size bs) = bs
    /\ Forall (fun w => (0 < List.length w <= chunk_size)%nat) (windows chunk_size bs)
    /\ Forall (fun w => List.length w = chunk_size) (removelast (windows chunk_size bs))
    /\ List.length (windows chunk_size bs)
       = ((List.length bs + chunk_size - 1) / chunk_size)%nat.
Proof.
  intros chunk_size bs Hpos. split; [now apply windows_concat |].
  apply windows_from_shape; [exact Hpos | apply Nat.le_refl].
Qed.

Lemma windows_tile_the_upload_witness :
  concat (windows 2 [x01; x02; x03; x04; x05]%byte) = [x01; x02; x03; x04; x05]%byte
  /\ Forall (fun w => (0 < List.length w <= 2)%nat) (windows 2 [x01; x02; x03; x04; x05]%byte)
  /\ Forall (fun w => List.length w = 2%nat)
            (removelast (windows 2 [x01; x02; x03; x04; x05]%byte))
  /\ List.length (windows 2 [x01; x02; x03; x04; x05]%byte)
     = ((List.length [x01; x02; x03; x04; x05]%byte + 2 - 1) / 2)%nat.
Proof.
  apply windows_tile_the_upload. lia.
Defined.

Section WindowFacts.
Context {L : Libraries}.

Lemma chunks_text_blocks_raise (chunks : list bytes) :
  Exists (fun c => fitz_open c = None) chunks ->
  chunks_text_blocks chunks = Raise FileDataError.
Proof.
  induction 1 as [c rest Hc | c rest _ IH]; cbn [chunks_text_blocks]; unfold open_document.
  - now rewrite Hc.
  - destruct (fitz_open c); [| reflexivity]. cbn [result_bind]. now rewrite IH.
Qed.

Lemma Forall_or_Exists_parsed (chunks : list bytes) :
  (exists docs, Forall2 (fun c d => fitz_open c = Some d) chunks docs)
  \/ Exists (fun c => fitz_open c = None) chunks.
Proof.
  induction chunks as [| c rest IH].
  - left. exists []. constructor.
  - destruct (fitz_open c) as [d |] eqn:E.
    + destruct IH as [[docs H] | H].
      * left. exists (d :: docs). now constructor.
      * right. now apply Exists_cons_tl.
    + right. now apply Exists_cons_hd.
Qed.

End WindowFacts.

(** X14: [process_large_file], given an uploaded file, is all or nothing:
    it returns text exactly when every window parses as a PDF of its own,
    and then the text is the retained blocks of all windows joined by line
    feeds; one window that does not parse makes the whole call raise, and
    the world is left as it was. An empty upload gives the empty text. *)
Theorem process_large_file_is_all_or_nothing :
  forall (L : Libraries) (f : uploaded_file) (w : world),
    let chunks := windows (Z.to_nat (1024 * 1024)) (uf_value f) in
    (forall docs,
        Forall2 (fun c d => fitz_open c = Some d) chunks docs ->
        process_large_file (ObjUploadedFile f) w
        = (Ok (join newline (flat_map document_text_blocks docs)), w))
    /\ (Exists (fun c => fitz_open c = None) chunks ->
        process_large_file (ObjUploadedFile f) w = (Raise FileDataError, w))
    /\ ((exists docs, Forall2 (fun c d => fitz_open c = Some d) chunks docs)
        \/ Exists (fun c => fitz_open c = None) chunks)
    /\ (uf_value f = [] -> process_large_file (ObjUploadedFile f) w = (Ok [], w)).
Proof.
  intros L f w chunks. split; [| split; [| split]].
  - intros docs H. now apply process_large_file_on_upload.
  - intros H. unfold process_large_file, bind, lift, ret. cbv zeta. cbn [getvalue].
    fold chunks. now rewrite (chunks_text_blocks_raise H).
  - apply Forall_or_Exists_parsed.
  - intros Hnil. unfold process_large_file, bind, lift, ret. cbv zeta. cbn [getvalue].
    rewrite Hnil. reflexivity.
Qed.

(** ** The model call, attempt by attempt *)

Section RetryFacts.
Context {L : Libraries}.

Lemma count_events_app (p : event -> bool) (a b : list event) :
  count_events p (a ++ b) = (count_events p a + count_events p b)%nat.
Proof. unfold count_events. now rewrite filter_app, length_app. Qed.

(** A run of the retry loop that returns after [k] attempts that ended in
    the retry notice. *)
Lemma retry_from_recovers (wait : Z -> Z) (text : str) (v : pyval) (k : nat) :
  forall (more : nat) (n : Z) (w : world),
    (k <= more)%nat ->
    (forall j, (j < k)%nat -> transient (w_net w (w_posts w + j)) = true) ->
    attempt_value (w_net w (w_posts w + k)) = Ok v ->
    exists w',
      retry_from more wait n (extract_study_design_body text) w = (Ok v, w')
      /\ w_posts w' = (w_posts w + S k)%nat
      /\ w_trace w'
         = w_trace w ++ failed_attempts_trace (build_prompt text) wait n k
           ++ [EvPost (build_prompt text)]
      /\ w_pdf_cache w' = w_pdf_cache w
      /\ w_study_cache w' = w_study_cache w.
Proof.
  induction k as [| k IH]; intros more n w Hk Hfail Hok.
  - rewrite Nat.add_0_r in Hok.
    exists (posted (build_prompt text) w). split.
    + apply retry_from_ok. rewrite extract_study_design_body_run, Hok. reflexivity.
    + cbn [posted w_posts w_trace w_pdf_cache w_study_cache failed_attempts_trace app].
      repeat split. lia.
  - destruct more as [| more]; [lia |].
    destruct (@transient_attempt_value (w_net w (w_posts w))) as [e [He Hreq]].
    { rewrite <- (Nat.add_0_r (w_posts w)). apply Hfail. lia. }
    rewrite (retry_step_transient more wait n text w He Hreq).
    set (w2 := logged (EvSleep (wait n))
                 (logged (EvStError ModelCallWillRetry) (posted (build_prompt text) w))).
    destruct (IH more (n + 1) w2) as [w' [Hrun [Hposts [Htrace [Hc1 Hc2]]]]].
    + lia.
    + intros j Hj. subst w2. cbn [logged posted w_net w_posts].
      replace (S (w_posts w) + j)%nat with (w_posts w + S j)%nat by lia.
      apply Hfail. lia.
    + subst w2. cbn [logged posted w_net w_posts].
      replace (S (w_posts w) + k)%nat with (w_posts w + S k)%nat by lia.
      exact Hok.
    + exists w'. split; [exact Hrun |].
      subst w2. cbn [logged posted w_posts w_trace w_pdf_cache w_study_cache] in *.
      repeat split; [lia | | exact Hc1 | exact Hc2].
      rewrite Htrace. cbn [failed_attempts_trace]. rewrite <- !app_assoc. reflexivity.
Qed.

Ltac budget_of_one_attempt :=
  cbn [fst snd posted logged w_trace w_posts]; unfold count_events;
  cbn [filter is_post is_sleep List.length];
  split; [rewrite <- ?app_assoc; reflexivity |];
  split; [lia |]; split; [lia |]; split; [reflexivity |];
  split; [repeat constructor |].

(** What any run of the retry loop leaves behind. *)
Lemma retry_from_budget (text : str) (more : nat) :
  forall (n : Z) (w : world),
    exists evs,
      let run := retry_from more (wait_exponential 1 4 10) n
                   (extract_study_design_body text) w in
      w_trace (snd run) = w_trace w ++ evs
      /\ w_posts (snd run) = (w_posts w + count_events is_post evs)%nat
      /\ (1 <= count_events is_post evs <= S more)%nat
      /\ S (count_events is_sleep evs) = count_events is_post evs
      /\ Forall (model_call_event (build_prompt text)) evs
      /\ (forall e, fst run = Raise e ->
          count_events is_post evs = S more
          /\ exists last, e = RetryError last /\ is_request_exception last = true).
Proof.
  induction more as [| more IH]; intros n w.
  - destruct (attempt_value (w_net w (w_posts w))) as [v | e] eqn:Hv.
    + exists [EvPost (build_prompt text)]. cbv zeta.
      rewrite (retry_from_ok 0 (wait_exponential 1 4 10) n
                 (extract_study_design_body text) w
                 (w' := posted (build_prompt text) w) (v := v))
        by (rewrite extract_study_design_body_run, Hv; reflexivity).
      budget_of_one_attempt. discriminate.
    + destruct (is_request_exception e) eqn:Hreq.
      * exists [EvPost (build_prompt text); EvStError ModelCallWillRetry]. cbv zeta.
        rewrite (retry_last_transient (wait_exponential 1 4 10) n text w Hv Hreq).
        budget_of_one_attempt.
        intros e' [= <-]. split; [reflexivity | eauto].
      * exists [EvPost (build_prompt text); EvStError ProcessingError]. cbv zeta.
        rewrite (retry_from_ok 0 (wait_exponential 1 4 10) n
                   (extract_study_design_body text) w
                   (w' := logged (EvStError ProcessingError) (posted (build_prompt text) w))
                   (v := PStr []))
          by (rewrite extract_study_design_body_run, Hv, Hreq; reflexivity).
        budget_of_one_attempt. discriminate.
  - destruct (attempt_value (w_net w (w_posts w))) as [v | e] eqn:Hv.
    + exists [EvPost (build_prompt text)]. cbv zeta.
      rewrite (retry_from_ok (S more) (wait_exponential 1 4 10) n
                 (extract_study_design_body text) w
                 (w' := posted (build_prompt text) w) (v := v))
        by (rewrite extract_study_design_body_run, Hv; reflexivity).
      budget_of_one_attempt. discriminate.
    + destruct (is_request_exception e) eqn:Hreq.
      * rewrite (retry_step_transient more (wait_exponential 1 4 10) n text w Hv Hreq).
        set (w2 := logged (EvSleep (wait_exponential 1 4 10 n))
                     (logged (EvStError ModelCallWillRetry)
                        (posted (build_prompt text) w))).
        destruct (IH (n + 1) w2) as [evs [Ht [Hp [Hb [Hs [Hall Hraise]]]]]].
        cbv zeta in *.
        exists ([EvPost (build_prompt text); EvStError ModelCallWillRetry;
                 EvSleep (wait_exponential 1 4 10 n)] ++ evs).
        rewrite !count_events_app.
        change (count_events is_post
                  [EvPost (build_prompt text); EvStError ModelCallWillRetry;
                   EvSleep (wait_exponential 1 4 10 n)]) with 1%nat.
        change (count_events is_sleep
                  [EvPost (build_prompt text); EvStError ModelCallWillRetry;
                   EvSleep (wait_exponential 1 4 10 n)]) with 1%nat.
        subst w2. cbn [logged posted w_trace w_posts] in Ht, Hp.
        split; [rewrite Ht, <- !app_assoc; reflexivity |].
        split; [lia |]. split; [lia |]. split; [lia |]. split.
        { repeat constructor; try exact Hall.
          - apply wait_exponential_bounds.
          - apply wait_exponential_bounds. }
        intros e' He'. destruct (Hraise e' He') as [Hcount Hlast].
        split; [lia | exact Hlast].
      * exists [EvPost (build_prompt text); EvStError ProcessingError]. cbv zeta.
        rewrite (retry_from_ok (S more) (wait_exponential 1 4 10) n
                   (extract_study_design_body text) w
                   (w' := logged (EvStError ProcessingError) (posted (build_prompt text) w))
                   (v := PStr []))
          by (rewrite extract_study_design_body_run, Hv, Hreq; reflexivity).
        budget_of_one_attempt. discriminate.
Qed.

End RetryFacts.

(** X15: the model call recovers from failures that lead to a retry: when
    the first [k <= 2] requests fail with a [RequestException] or an HTTP
    error status and the next one gives a value, the call returns that
    value after [k + 1] requests with the same prompt, having shown the
    retry notice and slept after each failure; the caches are not touched. *)
Theorem model_call_returns_after_transient_failures :
  forall (L : Libraries) (text : str) (w : world) (k : nat) (v : pyval),
    (k <= 2)%nat ->
    (forall j, (j < k)%nat -> transient (w_net w (w_posts w + j)) = true) ->
    attempt_value (w_net w (w_posts w + k)) = Ok v ->
    exists w',
      extract_study_design text w = (Ok v, w')
      /\ w_posts w' = (w_posts w + S k)%nat
      /\ w_trace w'
         = w_trace w
           ++ failed_attempts_trace (build_prompt text) (wait_exponential 1 4 10) 1 k
           ++ [EvPost (build_prompt text)]
      /\ w_pdf_cache w' = w_pdf_cache w
      /\ w_study_cache w' = w_study_cache w.
Proof.
  intros L text w k v Hk Hfail Hok. unfold extract_study_design, retry.
  now apply retry_from_recovers.
Qed.

(** X16: whatever the network does, one model call issues at least one and
    at most three requests, all with the prompt built from its text, sleeps
    exactly once between two requests and each time for 4 to 10 seconds,
    and adds nothing else to the trace but notices; it raises only after
    the third request, and then [RetryError] around a [RequestException]. *)
Theorem model_call_stays_within_three_requests :
  forall (L : Libraries) (text : str) (w : world),
    exists evs,
      w_trace (snd (extract_study_design text w)) = w_trace w ++ evs
      /\ w_posts (snd (extract_study_design text w))
         = (w_posts w + count_events is_post evs)%nat
      /\ (1 <= count_events is_post evs <= 3)%nat
      /\ S (count_events is_sleep evs) = count_events is_post evs
      /\ Forall (model_call_event (build_prompt text)) evs
      /\ (forall e, fst (extract_study_design text w) = Raise e ->
          count_events is_post evs = 3%nat
          /\ exists last, e = RetryError last /\ is_request_exception last = true).
Proof.
  intros L text w. unfold extract_study_design, retry.
  exact (retry_from_budget text 2 1 w).
Qed.

Lemma model_call_returns_after_transient_failures_witness :
  exists w',
    extract_study_design (L := Sample.libraries) (lit "paper")
      (flaky_world 1 (PStr (lit "| a | b |")))
    = (Ok (PStr (lit "| a | b |")), w')
    /\ w_posts w' = (w_posts (flaky_world 1 (PStr (lit "| a | b |"))) + 2)%nat
    /\ w_trace w'
       = w_trace (flaky_world 1 (PStr (lit "| a | b |")))
         ++ failed_attempts_trace (build_prompt (L := Sample.libraries) (lit "paper"))
              (wait_exponential 1 4 10) 1 1
         ++ [EvPost (build_prompt (L := Sample.libraries) (lit "paper"))]
    /\ w_pdf_cache w' = w_pdf_cache (flaky_world 1 (PStr (lit "| a | b |")))
    /\ w_study_cache w' = w_study_cache (flaky_world 1 (PStr (lit "| a | b |"))).
Proof.
  apply (@model_call_returns_after_transient_failures Sample.libraries (lit "paper")
           (flaky_world 1 (PStr (lit "| a | b |"))) 1 (PStr (lit "| a | b |"))).
  - lia.
  - intros j Hj. replace j with 0%nat by lia. reflexivity.
  - reflexivity.
Defined.

(** ** The pipeline, case by case *)

Section PipelineCases.
Context {L : Libraries}.

#[local] Arguments cache_store : simpl never.


















Lemma validate_file_rejects (f : uploaded_file) (w : world) :
  MAX_FILE_SIZE < len (uf_value f) \/ ends_with_pdf (uf_name f) = false ->
  validate_file f w
  = (Ok false,
     logged (EvStError (if len (uf_value f) >? MAX_FILE_SIZE then FileTooLarge else NotPdf)) w).
Proof.
  intros H. unfold validate_file.
  destruct (len (uf_value f) >? MAX_FILE_SIZE) eqn:E; [reflexivity |].
  destruct H as [H | H]; [rewrite (gtb_true H) in E; discriminate |].
  rewrite H. reflexivity.
Qed.

(** The pipeline up to the text of the paper, on a first upload of a
    parseable file. *)
Lemma pipeline_text_run (f : uploaded_file) (doc : document) (w : world) :
  len (uf_value f) <= MAX_FILE_SIZE ->
  ends_with_pdf (uf_name f) = true ->
  fitz_open (uf_value f) = Some doc ->
  cache_lookup pdf_key_eq_dec (w_pdf_cache w) (md5_hexdigest (uf_value f), uf_value f)
  = None ->
  forall k : str -> M (option (pyval * report)),
    try_except
      (valid <- validate_file f ;;
       if negb valid then ret None else
       full_text <- extract_text_from_pdf_by_hash (md5_hexdigest (uf_value f)) (uf_value f) ;;
       k full_text)
      (fun _ => ret None) w
    = try_except (k (join newline (document_text_blocks doc))) (fun _ => ret None)
        (set_pdf_cache
           (cache_store 100 (w_pdf_cache w) (md5_hexdigest (uf_value f), uf_value f)
              (join newline (document_text_blocks doc)))
           (logged (EvExtract (uf_value f)) w)).
Proof.
  intros Hlen Hpdf Hopen Hmiss k. unfold try_except at 1, bind at 1.
  rewrite (validate_file_ok f w Hlen Hpdf). cbn [negb].
  unfold bind at 1. rewrite (extract_miss_run _ _ w Hlen Hopen Hmiss). reflexivity.
Qed.

(** What the pipeline returns for the value of the model call. *)
Lemma pipeline_first_answer (f : uploaded_file) (doc : document) (encoded : bytes)
  (w : world) (v : pyval) :
  let full_text := join newline (document_text_blocks doc) in
  let text := slice_to 30000 full_text in
  len (uf_value f) <= MAX_FILE_SIZE ->
  ends_with_pdf (uf_name f) = true ->
  fitz_open (uf_value f) = Some doc ->
  full_text <> [] ->
  utf8_encode text = Ok encoded ->
  cache_lookup pdf_key_eq_dec (w_pdf_cache w) (md5_hexdigest (uf_value f), uf_value f)
  = None ->
  cache_lookup study_key_eq_dec (w_study_cache w) (md5_hexdigest encoded, text) = None ->
  attempt_value (w_net w (w_posts w)) = Ok v ->
  exists w',
    process_file_with_status f w
    = (Ok (match v with
           | PStr (c :: s) =>
               match build_report (c :: s) (uf_name f) with
               | Ok r => Some (v, r)
               | Raise _ => None
               end
           | _ => None
           end), w')
    /\ w_trace w' = w_trace w ++ [EvExtract (uf_value f); EvPost (build_prompt text)]
    /\ w_posts w' = S (w_posts w)
    /\ cache_lookup pdf_key_eq_dec (w_pdf_cache w') (md5_hexdigest (uf_value f), uf_value f)
       = Some full_text
    /\ cache_lookup study_key_eq_dec (w_study_cache w') (md5_hexdigest encoded, text)
       = Some v.
Proof.
  intros full_text text Hlen Hpdf Hopen Hne Henc Hmiss1 Hmiss2 Hv.
  assert (Htruthy : truthy (PStr full_text) = true)
    by (destruct full_text; [contradiction | reflexivity]).
  unfold text, full_text in *. clear text full_text.
  set (full_text := join newline (document_text_blocks doc)) in *.
  set (text := slice_to 30000 full_text) in *.
  set (w1 := set_pdf_cache
               (cache_store 100 (w_pdf_cache w) (md5_hexdigest (uf_value f), uf_value f)
                  full_text)
               (logged (EvExtract (uf_value f)) w)).
  set (w2 := posted (build_prompt text) w1).
  set (w3 := set_study_cache
               (cache_store 100 (w_study_cache w2) (md5_hexdigest encoded, text) v) w2).
  assert (Hstudy : extract_study_by_hash (md5_hexdigest encoded) text w1 = (Ok v, w3)).
  { unfold extract_study_by_hash.
    apply st_cache_data_miss_ok; [exact Hmiss2 |].
    unfold extract_study_design, retry. apply retry_from_ok.
    rewrite extract_study_design_body_run.
    change (w_net w1) with (w_net w). change (w_posts w1) with (w_posts w).
    now rewrite Hv. }
  exists w3. split; [| split; [| split; [| split]]].
  - unfold process_file_with_status. cbv zeta.
    rewrite (@pipeline_text_run f doc w Hlen Hpdf Hopen Hmiss1). cbv beta.
    fold full_text. fold w1. rewrite Htruthy. cbn [negb]. fold text.
    unfold try_except at 1, bind at 1, lift at 1. rewrite Henc.
    unfold bind at 1. rewrite Hstudy.
    destruct (truthy v) eqn:Ht; cbn [negb].
    + destruct v; try reflexivity.
      destruct s as [| c s]; [discriminate Ht |].
      unfold try_except, bind, lift, ret.
      destruct (build_report (c :: s) (uf_name f)); reflexivity.
    + destruct v; try reflexivity. destruct s; [reflexivity | discriminate Ht].
  - subst w3 w2 w1. cbn [set_study_cache posted set_pdf_cache logged w_trace].
    now rewrite <- app_assoc.
  - reflexivity.
  - subst w3 w2 w1. cbn [set_study_cache posted set_pdf_cache logged w_pdf_cache].
    apply cache_lookup_store; [lia | exact Hmiss1].
  - subst w3. cbn [set_study_cache w_study_cache].
    apply cache_lookup_store; [lia |]. exact Hmiss2.
Qed.

End PipelineCases.

(** X17: an upload that is too large or whose name does not end in [.pdf]
    in any letter case stops at validation: the pipeline returns [None]
    and all it did is show one message, about the size when the file is too
    large, about the type otherwise; nothing is extracted, requested or
    cached. *)
Theorem invalid_upload_stops_at_validation :
  forall (L : Libraries) (f : uploaded_file) (w : world),
    MAX_FILE_SIZE < len (uf_value f) \/ ends_with_pdf (uf_name f) = false ->
    process_file_with_status f w
    = (Ok None,
       logged (EvStError (if len (uf_value f) >? MAX_FILE_SIZE
                          then FileTooLarge else NotPdf)) w).
Proof.
  intros L f w H. unfold process_file_with_status, try_except, bind.
  rewrite (validate_file_rejects f w H). reflexivity.
Qed.

Lemma invalid_upload_stops_at_validation_witness :
  process_file_with_status (L := Sample.libraries) text_upload Sample.quiet_world
  = (Ok None, logged (EvStError NotPdf) Sample.quiet_world).
Proof.
  apply (@invalid_upload_stops_at_validation Sample.libraries text_upload
           Sample.quiet_world).
  right. reflexivity.
Defined.


(** X19: a valid PDF that parses but has no retained block (scanned pages)
    never reaches the model: the pipeline returns [None] after one run of
    the extractor and no request, the empty text is cached, and a second
    upload of the same file returns [None] without running the extractor
    again. *)
Theorem empty_text_never_reaches_the_model :
  forall (L : Libraries) (f : uploaded_file) (doc : document) (w : world),
    len (uf_value f) <= MAX_FILE_SIZE ->
    ends_with_pdf (uf_name f) = true ->
    fitz_open (uf_value f) = Some doc ->
    document_text_blocks doc = [] ->
    cache_lookup pdf_key_eq_dec (w_pdf_cache w) (md5_hexdigest (uf_value f), uf_value f)
    = None ->
    exists w1,
      process_file_with_status f w = (Ok None, w1)
      /\ w_trace w1 = w_trace w ++ [EvExtract (uf_value f)]
      /\ w_posts w1 = w_posts w
      /\ process_file_with_status f w1 = (Ok None, w1).
Proof.
  intros L f doc w Hlen Hpdf Hopen Hempty Hmiss.
  set (w1 := set_pdf_cache
               (cache_store 100 (w_pdf_cache w) (md5_hexdigest (uf_value f), uf_value f) [])
               (logged (EvExtract (uf_value f)) w)).
  exists w1. split; [| split; [| split]]; try reflexivity.
  - unfold process_file_with_status. cbv zeta.
    rewrite (@pipeline_text_run L f doc w Hlen Hpdf Hopen Hmiss). rewrite Hempty. reflexivity.
  - unfold process_file_with_status, try_except, bind.
    rewrite (validate_file_ok f w1 Hlen Hpdf). cbn [negb]. cbv zeta.
    unfold extract_text_from_pdf_by_hash.
    rewrite (st_cache_data_hit pdf_key_eq_dec w_pdf_cache set_pdf_cache 100
               (md5_hexdigest (uf_value f), uf_value f)
               (extract_text_from_pdf_body (md5_hexdigest (uf_value f)) (uf_value f))
               w1 (v := [])).
    + reflexivity.
    + subst w1. cbn [set_pdf_cache w_pdf_cache].
      apply cache_lookup_store; [lia | exact Hmiss].
Qed.

Lemma empty_text_never_reaches_the_model_witness :
  exists w1,
    process_file_with_status (L := Sample.libraries) scan_upload Sample.quiet_world
    = (Ok None, w1)
    /\ w_trace w1 = w_trace Sample.quiet_world ++ [EvExtract (uf_value scan_upload)]
    /\ w_posts w1 = w_posts Sample.quiet_world
    /\ process_file_with_status (L := Sample.libraries) scan_upload w1 = (Ok None, w1).
Proof.
  apply (@empty_text_never_reaches_the_model Sample.libraries scan_upload
           [[ {| b4 := lit "abcdefghijklmnopqrst"; b6 := 0 |} ]] Sample.quiet_world).
  - vm_compute. discriminate.
  - reflexivity.
  - reflexivity.
  - reflexivity.
  - reflexivity.
Defined.

(** X20: a file with a valid name and size that does not parse as a PDF
    gives [None]; the failure is not cached, so every upload of it runs the
    extractor again, and no request is made. *)
Theorem unparseable_upload_is_parsed_every_time :
  forall (L : Libraries) (f : uploaded_file) (w : world),
    len (uf_value f) <= MAX_FILE_SIZE ->
    ends_with_pdf (uf_name f) = true ->
    fitz_open (uf_value f) = None ->
    cache_lookup pdf_key_eq_dec (w_pdf_cache w) (md5_hexdigest (uf_value f), uf_value f)
    = None ->
    process_file_with_status f w = (Ok None, logged (EvExtract (uf_value f)) w)
    /\ process_file_with_status f (logged (EvExtract (uf_value f)) w)
       = (Ok None, logged (EvExtract (uf_value f)) (logged (EvExtract (uf_value f)) w)).
Proof.
  intros L f w Hlen Hpdf Hopen Hmiss.
  assert (Hrun : forall w0,
             w_pdf_cache w0 = w_pdf_cache w ->
             process_file_with_status f w0 = (Ok None, logged (EvExtract (uf_value f)) w0)).
  { intros w0 Hc. unfold process_file_with_status, try_except, bind.
    rewrite (validate_file_ok f w0 Hlen Hpdf). cbn [negb]. cbv zeta.
    unfold extract_text_from_pdf_by_hash.
    rewrite (st_cache_data_miss_raise pdf_key_eq_dec w_pdf_cache set_pdf_cache 100
               (md5_hexdigest (uf_value f), uf_value f)
               (extract_text_from_pdf_body (md5_hexdigest (uf_value f)) (uf_value f))
               w0 (w' := logged (EvExtract (uf_value f)) w0) (e := FileDataError)).
    - reflexivity.
    - now rewrite Hc.
    - now apply extract_body_unparseable. }
  split; apply Hrun; reflexivity.
Qed.

Lemma unparseable_upload_is_parsed_every_time_witness :
  process_file_with_status (L := Sample.libraries) empty_upload Sample.quiet_world
  = (Ok None, logged (EvExtract (uf_value empty_upload)) Sample.quiet_world)
  /\ process_file_with_status (L := Sample.libraries) empty_upload
       (logged (EvExtract (uf_value empty_upload)) Sample.quiet_world)
     = (Ok None,
        logged (EvExtract (uf_value empty_upload))
          (logged (EvExtract (uf_value empty_upload)) Sample.quiet_world)).
Proof.
  apply (@unparseable_upload_is_parsed_every_time Sample.libraries empty_upload
           Sample.quiet_world).
  - vm_compute. discriminate.
  - reflexivity.
  - reflexivity.
  - reflexivity.
Defined.

(** X21: the first upload of a valid PDF with text, answered at the first
    request by a string that is not empty: the pipeline returns the answer
    with the report built from it and the file name, after one run of the
    extractor and one request whose prompt is the instruction, the first
    30000 characters of the text and a line feed; both results are then in
    the caches. *)
Theorem first_upload_is_answered_with_one_request :
  forall (L : Libraries) (f : uploaded_file) (doc : document) (encoded : bytes)
         (w : world) (c : char) (s : str) (r : report),
    let full_text := join newline (document_text_blocks doc) in
    let text := slice_to 30000 full_text in
    len (uf_value f) <= MAX_FILE_SIZE ->
    ends_with_pdf (uf_name f) = true ->
    fitz_open (uf_value f) = Some doc ->
    full_text <> [] ->
    utf8_encode text = Ok encoded ->
    cache_lookup pdf_key_eq_dec (w_pdf_cache w) (md5_hexdigest (uf_value f), uf_value f)
    = None ->
    cache_lookup study_key_eq_dec (w_study_cache w) (md5_hexdigest encoded, text) = None ->
    attempt_value (w_net w (w_posts w)) = Ok (PStr (c :: s)) ->
    build_report (c :: s) (uf_name f) = Ok r ->
    exists w',
      process_file_with_status f w = (Ok (Some (PStr (c :: s), r)), w')
      /\ w_trace w'
         = w_trace w ++ [EvExtract (uf_value f); EvPost (prompt_head ++ text ++ newline)]
      /\ len text <= 30000
      /\ w_posts w' = S (w_posts w)
      /\ cache_lookup pdf_key_eq_dec (w_pdf_cache w')
           (md5_hexdigest (uf_value f), uf_value f) = Some full_text
      /\ cache_lookup study_key_eq_dec (w_study_cache w') (md5_hexdigest encoded, text)
         = Some (PStr (c :: s)).
Proof.
  intros L f doc encoded w c s r full_text text Hlen Hpdf Hopen Hne Henc Hm1 Hm2 Hv Hr.
  destruct (@pipeline_first_answer L f doc encoded w _ Hlen Hpdf Hopen Hne Henc Hm1 Hm2 Hv)
    as [w' [Hrun [Htrace [Hposts [Hc1 Hc2]]]]].
  exists w'. rewrite Hr in Hrun.
  repeat split; try assumption. apply slice_to_len. lia.
Qed.

Lemma first_upload_is_answered_with_one_request_witness :
  exists w',
    process_file_with_status (L := Sample.libraries) trial_upload
      (flaky_world 0 (PStr table_answer))
    = (Ok (Some (PStr table_answer, uf_name trial_upload ++ lit ": " ++ table_answer)), w')
    /\ w_trace w'
       = w_trace (flaky_world 0 (PStr table_answer))
         ++ [EvExtract (uf_value trial_upload);
             EvPost (prompt_head (Libraries := Sample.libraries) ++ trial_text ++ newline)]
    /\ len trial_text <= 30000
    /\ w_posts w' = S (w_posts (flaky_world 0 (PStr table_answer)))
    /\ cache_lookup pdf_key_eq_dec (w_pdf_cache w')
         (md5_hexdigest (Libraries := Sample.libraries) (uf_value trial_upload),
          uf_value trial_upload)
       = Some (join newline (document_text_blocks trial_document))
    /\ cache_lookup study_key_eq_dec (w_study_cache w')
         (md5_hexdigest (Libraries := Sample.libraries) trial_encoded, trial_text)
       = Some (PStr table_answer).
Proof.
  apply (@first_upload_is_answered_with_one_request Sample.libraries trial_upload
           trial_document trial_encoded (flaky_world 0 (PStr table_answer))
           124%N (lit " design | RCT |")
           (uf_name trial_upload ++ lit ": " ++ table_answer)).
  - vm_compute. discriminate.
  - reflexivity.
  - reflexivity.
  - vm_compute. discriminate.
  - reflexivity.
  - reflexivity.
  - reflexivity.
  - reflexivity.
  - reflexivity.
Defined.

(** X22: an answer of the model that is no string (a number, a list, a
    dict, null) or the empty string is a failed analysis: the pipeline
    returns [None] after its one request, without raising, and the answer
    stays in the cache of the model calls. *)
Theorem answer_that_is_no_text_gives_none :
  forall (L : Libraries) (f : uploaded_file) (doc : document) (encoded : bytes)
         (w : world) (v : pyval),
    let full_text := join newline (document_text_blocks doc) in
    let text := slice_to 30000 full_text in
    len (uf_value f) <= MAX_FILE_SIZE ->
    ends_with_pdf (uf_name f) = true ->
    fitz_open (uf_value f) = Some doc ->
    full_text <> [] ->
    utf8_encode text = Ok encoded ->
    cache_lookup pdf_key_eq_dec (w_pdf_cache w) (md5_hexdigest (uf_value f), uf_value f)
    = None ->
    cache_lookup study_key_eq_dec (w_study_cache w) (md5_hexdigest encoded, text) = None ->
    attempt_value (w_net w (w_posts w)) = Ok v ->
    (forall c s, v <> PStr (c :: s)) ->
    exists w',
      process_file_with_status f w = (Ok None, w')
      /\ w_posts w' = S (w_posts w)
      /\ cache_lookup study_key_eq_dec (w_study_cache w') (md5_hexdigest encoded, text)
         = Some v.
Proof.
  intros L f doc encoded w v full_text text Hlen Hpdf Hopen Hne Henc Hm1 Hm2 Hv Hnot.
  destruct (@pipeline_first_answer L f doc encoded w _ Hlen Hpdf Hopen Hne Henc Hm1 Hm2 Hv)
    as [w' [Hrun [Htrace [Hposts [Hc1 Hc2]]]]].
  exists w'. split; [| split; assumption].
  rewrite Hrun. destruct v; try reflexivity.
  destruct s as [| c s]; [reflexivity |]. exfalso. now apply (Hnot c s).
Qed.

Lemma answer_that_is_no_text_gives_none_witness :
  exists w',
    process_file_with_status (L := Sample.libraries) trial_upload (flaky_world 0 (PInt 7))
    = (Ok None, w')
    /\ w_posts w' = S (w_posts (flaky_world 0 (PInt 7)))
    /\ cache_lookup study_key_eq_dec (w_study_cache w')
         (md5_hexdigest (Libraries := Sample.libraries) trial_encoded, trial_text)
       = Some (PInt 7).
Proof.
  apply (@answer_that_is_no_text_gives_none Sample.libraries trial_upload
           trial_document trial_encoded (flaky_world 0 (PInt 7)) (PInt 7)).
  - vm_compute. discriminate.
  - reflexivity.
  - reflexivity.
  - vm_compute. discriminate.
  - reflexivity.
  - reflexivity.
  - reflexivity.
  - reflexivity.
  - discriminate.
Defined.

(** X23: a text whose first 30000 characters cannot be encoded in UTF-8 (a
    lone surrogate) stops the pipeline before the model: [None] is
    returned after the extraction and no request is made. *)
Theorem unencodable_text_never_reaches_the_model :
  forall (L : Libraries) (f : uploaded_file) (doc : document) (w : world) (e : exn),
    let full_text := join newline (document_text_blocks doc) in
    len (uf_value f) <= MAX_FILE_SIZE ->
    ends_with_pdf (uf_name f) = true ->
    fitz_open (uf_value f) = Some doc ->
    utf8_encode (slice_to 30000 full_text) = Raise e ->
    cache_lookup pdf_key_eq_dec (w_pdf_cache w) (md5_hexdigest (uf_value f), uf_value f)
    = None ->
    exists w1,
      process_file_with_status f w = (Ok None, w1)
      /\ w_trace w1 = w_trace w ++ [EvExtract (uf_value f)]
      /\ w_posts w1 = w_posts w.
Proof.
  intros L f doc w e full_text Hlen Hpdf Hopen Henc Hmiss.
  eexists. split; [| split].
  - unfold process_file_with_status. cbv zeta.
    rewrite (@pipeline_text_run L f doc w Hlen Hpdf Hopen Hmiss). fold full_text.
    unfold try_except at 1.
    destruct (negb (truthy (PStr full_text))); [reflexivity |].
    unfold bind at 1, lift at 1. rewrite Henc. reflexivity.
  - reflexivity.
  - reflexivity.
Qed.

Lemma unencodable_text_never_reaches_the_model_witness :
  exists w1,
    process_file_with_status (L := surrogate_libraries) trial_upload Sample.quiet_world
    = (Ok None, w1)
    /\ w_trace w1 = w_trace Sample.quiet_world ++ [EvExtract (uf_value trial_upload)]
    /\ w_posts w1 = w_posts Sample.quiet_world.
Proof.
  apply (@unencodable_text_never_reaches_the_model surrogate_libraries trial_upload
           [[ {| b4 := repeat 55296%N 30; b6 := 0 |} ]] Sample.quiet_world
           UnicodeEncodeError).
  - vm_compute. discriminate.
  - reflexivity.
  - reflexivity.
  - reflexivity.
  - reflexivity.
Defined.

(** ** The history store, beyond the retention of three entries *)

Section StoreFacts.
Context {L : Libraries}.

Lemma is_recent_unstamped (cutoff : Z) (r : pyval) :
  unstamped r -> exists e, is_recent cutoff r = Raise e.
Proof.
  unfold unstamped, is_recent. destruct (getitem_str r key_time) as [v | e]; cbn [result_bind].
  - destruct v; try (intros _; eexists; reflexivity).
    intros ->. eexists; reflexivity.
  - intros _. eexists; reflexivity.
Qed.

Lemma filter_result_raise {A : Type} (p : A -> result bool) (l : list A) (x : A) :
  In x l -> (exists e, p x = Raise e) -> exists e, filter_result p l = Raise e.
Proof.
  intros Hin [e He]. induction l as [| y l IH]; [contradiction |].
  cbn [filter_result]. destruct (p y) as [keep | e'] eqn:Hy; cbn [result_bind].
  - destruct Hin as [-> | Hin]; [congruence |].
    destruct (IH Hin) as [e'' ->]. eexists; reflexivity.
  - eexists; reflexivity.
Qed.

Lemma save_history_unstamped (records : list pyval) (r : pyval) (w : world) :
  In r records -> unstamped r ->
  save_history (PList records) w = (Ok false, ticked w).
Proof.
  intros Hin Hr.
  destruct (@filter_result_raise _
              (is_recent (w_clock w (w_clock_reads w) - timedelta_days 7)) records r Hin
              (@is_recent_unstamped _ r Hr)) as [e He].
  unfold save_history, try_except, bind, datetime_now, lift. cbv zeta.
  rewrite He. reflexivity.
Qed.

(** A failed save leaves the file as it was. *)
Lemma save_history_false_keeps_file (records : pyval) (w w' : world) :
  save_history records w = (Ok false, w') -> w_history_file w' = w_history_file w.
Proof.
  destruct records as [| | | | | l0 |]; try (intros [= <-]; reflexivity).
  unfold save_history, try_except, bind, datetime_now, lift, write_history_json, ret.
  cbv zeta.
  destruct (filter_result _ l0) as [kept | e]; [| intros [= <-]; reflexivity].
  cbn [ticked w_history_writable].
  destruct (w_history_writable w); [discriminate | intros [= <-]; reflexivity].
Qed.

Lemma combine_fst_snd {A B : Type} (l : list (A * B)) :
  combine (map fst l) (map snd l) = l.
Proof. induction l as [| [a b] l IH]; simpl; [reflexivity | now rewrite IH]. Qed.

Lemma stamped_filter (f : pyval * Z -> bool) (records : list pyval) (times : list Z) :
  Forall2 stamped records times ->
  Forall2 stamped (map fst (filter f (combine records times)))
                  (map snd (filter f (combine records times))).
Proof.
  induction 1 as [| r t records times Hr _ IH]; simpl; [constructor |].
  destruct (f (r, t)); simpl; [constructor; assumption | exact IH].
Qed.

Lemma filter_filter_stronger {A : Type} (f g : A -> bool) (l : list A) :
  (forall x, g x = true -> f x = true) -> filter g (filter f l) = filter g l.
Proof.
  intros H. induction l as [| x l IH]; simpl; [reflexivity |].
  destruct (f x) eqn:Hf; simpl.
  - now rewrite IH.
  - destruct (g x) eqn:Hg; [rewrite (H x Hg) in Hf; discriminate | exact IH].
Qed.

Lemma kept_at_later (now later : Z) (records : list pyval) (times : list Z) :
  Forall2 stamped records times ->
  now <= later ->
  filter_result (is_recent (later - timedelta_days 7)) (kept_at now records times)
  = Ok (kept_at later records times).
Proof.
  intros Hst Hle. unfold kept_at.
  rewrite (retention_filter (later - timedelta_days 7) (stamped_filter _ Hst)).
  rewrite combine_fst_snd. rewrite filter_filter_stronger; [reflexivity |].
  intros [r t]. cbn [snd]. rewrite !Z.gtb_ltb, !Z.ltb_lt. lia.
Qed.

Lemma filter_length_lt {A : Type} (p : A -> bool) (l : list A) (x : A) :
  In x l -> p x = false -> (List.length (filter p l) < List.length l)%nat.
Proof.
  intros Hin Hx. induction l as [| y l IH]; [contradiction |]. simpl.
  destruct Hin as [-> | Hin].
  - rewrite Hx. pose proof (filter_length_le p l). lia.
  - specialize (IH Hin). destruct (p y); simpl; lia.
Qed.

Lemma kept_at_length (now : Z) (records : list pyval) (times : list Z) :
  Forall2 stamped records times ->
  0 <= len (kept_at now records times) <= len records.
Proof.
  intros Hst. unfold kept_at, len. rewrite length_map.
  pose proof (filter_length_le (fun rt : pyval * Z => snd rt >? now - timedelta_days 7)
                (combine records times)) as H.
  rewrite length_combine in H. lia.
Qed.

Lemma other_id_not_dict (record_id : str) (r : pyval) :
  ~ is_dict r -> exists e, other_id record_id r = Raise e.
Proof.
  intros H. destruct r; try (eexists; reflexivity). exfalso. apply H. exact I.
Qed.

End StoreFacts.

(** X24: one record without a usable stamp anywhere in the list makes
    [save_history] answer [False]: the clock is read once, nothing is
    written and the file keeps its old content, whatever the other records
    are. *)
Theorem one_unstamped_record_blocks_saving :
  forall (L : Libraries) (records : list pyval) (r : pyval) (w : world),
    In r records -> unstamped r ->
    save_history (PList records) w = (Ok false, ticked w)
    /\ w_history_file (ticked w) = w_history_file w.
Proof.
  intros L records r w Hin Hr. split; [| reflexivity].
  now apply (@save_history_unstamped L records r w).
Qed.

Lemma one_unstamped_record_blocks_saving_witness :
  save_history (L := Sample.libraries)
    (PList [Sample.entry_today; entry_without_stamp]) (Sample.history_world None None)
  = (Ok false, ticked (Sample.history_world None None))
  /\ w_history_file (ticked (Sample.history_world None None))
     = w_history_file (Sample.history_world None None).
Proof.
  apply (@one_unstamped_record_blocks_saving Sample.libraries
           [Sample.entry_today; entry_without_stamp] entry_without_stamp
           (Sample.history_world None None)).
  - right. left. reflexivity.
  - vm_compute. exact I.
Defined.

(** X25: one record without a usable stamp in the file makes
    [load_history] return the empty list: the well-formed records of the
    file are not returned either. *)
Theorem one_unstamped_record_hides_the_history :
  forall (L : Libraries) (w : world) (text : str) (d : list (str * pyval))
         (records : list pyval) (r : pyval),
    w_history_file w = Some text ->
    json_loads text = Some (PDict d) ->
    dict_get d (lit "records") = Some (PList records) ->
    In r records -> unstamped r ->
    load_history w = (Ok [], ticked w).
Proof.
  intros L w text d records r Hfile Hjson Hrecords Hin Hr.
  rewrite (load_history_parsed w Hfile Hjson), Hrecords.
  destruct (@filter_result_raise _
              (is_recent (w_clock w (w_clock_reads w) - timedelta_days 7)) records r Hin
              (@is_recent_unstamped L _ r Hr)) as [e ->].
  reflexivity.
Qed.

Lemma one_unstamped_record_hides_the_history_witness :
  load_history (L := Sample.libraries)
    (Sample.history_world (Some damaged_history_text) None)
  = (Ok [], ticked (Sample.history_world (Some damaged_history_text) None)).
Proof.
  apply (@one_unstamped_record_hides_the_history Sample.libraries
           (Sample.history_world (Some damaged_history_text) None)
           damaged_history_text
           [(lit "records", PList [Sample.entry_today; entry_without_stamp])]
           [Sample.entry_today; entry_without_stamp] entry_without_stamp).
  - reflexivity.
  - vm_compute. reflexivity.
  - reflexivity.
  - right. left. reflexivity.
  - vm_compute. exact I.
Defined.

(** X26: for stamped records and a writable file, [save_history] answers
    [True] and writes the records stamped later than seven days before the
    first reading of the clock, in their order, with their number, the
    number of dropped records (never negative) and the second reading of
    the clock as the time of the update; a record stamped exactly seven days
    before is dropped; the list in memory is not pruned. *)
Theorem save_history_writes_the_last_week :
  forall (L : Libraries) (records : list pyval) (times : list Z) (w : world),
    Forall2 stamped records times ->
    w_history_writable w = true ->
    let now := w_clock w (w_clock_reads w) in
    let kept := kept_at now records times in
    save_history (PList records) w
    = (Ok true,
       set_history_file
         (Some (json_dumps (history_document kept (len records)
                              (w_clock w (S (w_clock_reads w))))))
         (ticked (ticked w)))
    /\ 0 <= len records - len kept <= len records
    /\ (forall r,
          stamped r (now - timedelta_days 7) ->
          save_history (PList [r]) w
          = (Ok true,
             set_history_file
               (Some (json_dumps (history_document [] 1 (w_clock w (S (w_clock_reads w))))))
               (ticked (ticked w))))
    /\ w_session_history (snd (save_history (PList records) w)) = w_session_history w.
Proof.
  intros L records times w Hst Hw now kept.
  assert (Hrun : save_history (PList records) w
                 = (Ok true,
                    set_history_file
                      (Some (json_dumps (history_document kept (len records)
                                           (w_clock w (S (w_clock_reads w))))))
                      (ticked (ticked w)))).
  { apply save_history_run; [| exact Hw]. apply retention_filter. exact Hst. }
  split; [exact Hrun |]. split; [| split].
  - pose proof (kept_at_length now Hst) as H. fold kept in H. lia.
  - intros r Hr. apply (@save_history_run L [r] [] w); [| exact Hw].
    change (filter_result (is_recent (now - timedelta_days 7)) [r] = Ok []).
    rewrite (@retention_filter L (now - timedelta_days 7) [r] [now - timedelta_days 7]
               (Forall2_cons _ _ Hr (Forall2_nil _))).
    cbn [combine filter snd]. rewrite Z.gtb_ltb, Z.ltb_irrefl. reflexivity.
  - rewrite Hrun. reflexivity.
Qed.

Lemma save_history_writes_the_last_week_witness :
  save_history (L := Sample.libraries) (PList Sample.three_entries)
    (Sample.history_world None None)
  = (Ok true,
     set_history_file
       (Some (json_dumps (Libraries := Sample.libraries)
                (history_document (L := Sample.libraries)
                   (kept_at Sample.noon Sample.three_entries three_times)
                   (len Sample.three_entries) Sample.noon)))
       (ticked (ticked (Sample.history_world None None))))
  /\ kept_at Sample.noon Sample.three_entries three_times
     = [Sample.entry_today; Sample.entry_3_days].
Proof.
  split; [| reflexivity].
  apply (@save_history_writes_the_last_week Sample.libraries Sample.three_entries
           three_times (Sample.history_world None None)).
  - repeat constructor; eexists; split; reflexivity.
  - reflexivity.
Defined.

(** X27: what was saved is what is loaded: after a successful save of
    stamped records, given that the JSON text of the written document
    parses back to it and that the clock does not run backwards,
    [load_history] returns the records that the retention rule keeps at the
    time of loading, out of all the records that were given to the save. *)
Theorem load_after_save_returns_the_recent_records :
  forall (L : Libraries) (records : list pyval) (times : list Z) (w : world),
    Forall2 stamped records times ->
    w_history_writable w = true ->
    let now := w_clock w (w_clock_reads w) in
    let later := w_clock w (S (S (w_clock_reads w))) in
    let document :=
      history_document (kept_at now records times) (len records)
        (w_clock w (S (w_clock_reads w))) in
    json_loads (json_dumps document) = Some document ->
    now <= later ->
    fst (load_history (snd (save_history (PList records) w)))
    = Ok (kept_at later records times).
Proof.
  intros L records times w Hst Hw now later document Hjson Hclock.
  assert (Hrun : save_history (PList records) w
                 = (Ok true,
                    set_history_file (Some (json_dumps document)) (ticked (ticked w)))).
  { apply save_history_run; [| exact Hw]. apply retention_filter. exact Hst. }
  rewrite Hrun. cbn [snd].
  set (w1 := set_history_file (Some (json_dumps document)) (ticked (ticked w))).
  rewrite (@load_history_parsed L w1 (json_dumps document) document eq_refl Hjson).
  unfold document, history_document. cbn [dict_get].
  destruct (str_eq_dec (lit "records") (lit "records")) as [_ | Hne]; [| contradiction].
  change (w_clock w1 (w_clock_reads w1)) with later.
  rewrite (kept_at_later Hst Hclock). reflexivity.
Qed.

Lemma load_after_save_returns_the_recent_records_witness :
  fst (load_history (L := Sample.libraries)
         (snd (save_history (L := Sample.libraries) (PList Sample.three_entries)
                 (Sample.history_world None None))))
  = Ok (kept_at Sample.noon Sample.three_entries three_times).
Proof.
  apply (@load_after_save_returns_the_recent_records Sample.libraries
           Sample.three_entries three_times (Sample.history_world None None)).
  - repeat constructor; eexists; split; reflexivity.
  - reflexivity.
  - vm_compute. reflexivity.
  - vm_compute. discriminate.
Defined.

(** X28: a record in the session that is no dict makes every
    [delete_record] answer [False] and change nothing, whatever the id and
    the other records. *)
Theorem non_dict_record_blocks_deleting :
  forall (L : Libraries) (record_id : str) (records : list pyval) (r : pyval) (w : world),
    w_session_history w = Some records ->
    In r records -> ~ is_dict r ->
    delete_record record_id w = (Ok false, w).
Proof.
  intros L record_id records r w Hsession Hin Hr.
  destruct (@filter_result_raise _ (other_id record_id) records r Hin
              (@other_id_not_dict record_id r Hr)) as [e He].
  exact (@delete_record_raise L record_id records w e Hsession He).
Qed.

Lemma non_dict_record_blocks_deleting_witness :
  delete_record (L := Sample.libraries) (lit "a")
    (Sample.history_world None (Some [Sample.entry_today; stray_value]))
  = (Ok false, Sample.history_world None (Some [Sample.entry_today; stray_value])).
Proof.
  apply (@non_dict_record_blocks_deleting Sample.libraries (lit "a")
           [Sample.entry_today; stray_value] stray_value
           (Sample.history_world None (Some [Sample.entry_today; stray_value]))).
  - reflexivity.
  - right. left. reflexivity.
  - simpl. tauto.
Defined.

(** X29: a delete whose save fails is not rolled back: when the id is in
    the session and the file cannot be written, or one of the other records
    has no usable stamp, [delete_record] answers [False], the record is gone
    from the list in memory and the file still holds what it held. *)
Theorem failed_delete_is_not_rolled_back :
  forall (L : Libraries) (record_id : str) (records : list pyval) (r : pyval) (w : world),
    record_id <> [] ->
    w_session_history w = Some records ->
    Forall is_dict records ->
    In r records -> has_id record_id r = true ->
    (w_history_writable w = false
     \/ exists x, In x records /\ has_id record_id x = false /\ unstamped x) ->
    fst (delete_record record_id w) = Ok false
    /\ w_session_history (snd (delete_record record_id w))
       = Some (filter (fun x => negb (has_id record_id x)) records)
    /\ ~ In r (filter (fun x => negb (has_id record_id x)) records)
    /\ w_history_file (snd (delete_record record_id w)) = w_history_file w.
Proof.
  intros L record_id records r w Hid Hsession Hdicts Hin Hr Hfail.
  set (kept := filter (fun x => negb (has_id record_id x)) records).
  pose proof (@delete_record_run L record_id records kept w Hid Hsession
                (filter_other_id record_id Hdicts)) as Hrun.
  assert (Hlen : (len kept =? len records) = false).
  { apply Z.eqb_neq. unfold len.
    pose proof (@filter_length_lt _ (fun x => negb (has_id record_id x)) records r Hin) as H.
    cbv beta in H. rewrite Hr in H. specialize (H eq_refl). fold kept in H. lia. }
  rewrite Hlen in Hrun. set (w1 := set_session_history (Some kept) w) in *.
  assert (Hsave : save_history (PList kept) w1 = (Ok false, snd (save_history (PList kept) w1))).
  { destruct Hfail as [Hw | [x [Hx [Hidx Hun]]]].
    - destruct (@save_history_not_writable L kept w1 Hw) as [H _].
      destruct (save_history (PList kept) w1) as [res w2]. cbn [fst snd] in *. now rewrite H.
    - rewrite (@save_history_unstamped L kept x w1); [reflexivity | | exact Hun].
      apply filter_In. split; [exact Hx | now rewrite Hidx]. }
  destruct (@save_history_total L (PList kept) w1) as [saved [w2 [Htot Hframe]]].
  rewrite Hrun. rewrite Htot in Hsave. cbn [snd] in Hsave. injection Hsave as ->.
  rewrite Htot. cbn [fst snd].
  split; [reflexivity |]. split; [rewrite Hframe; reflexivity |]. split.
  - intros H. apply filter_In in H. destruct H as [_ H]. rewrite Hr in H. discriminate.
  - rewrite (save_history_false_keeps_file _ _ Htot). reflexivity.
Qed.

Lemma failed_delete_is_not_rolled_back_witness :
  fst (delete_record (L := Sample.libraries) (lit "a")
         (read_only_world (Some Sample.three_entries))) = Ok false
  /\ w_session_history
       (snd (delete_record (L := Sample.libraries) (lit "a")
               (read_only_world (Some Sample.three_entries))))
     = Some (filter (fun x => negb (has_id (lit "a") x)) Sample.three_entries)
  /\ ~ In Sample.entry_today
         (filter (fun x => negb (has_id (lit "a") x)) Sample.three_entries)
  /\ w_history_file
       (snd (delete_record (L := Sample.libraries) (lit "a")
               (read_only_world (Some Sample.three_entries))))
     = w_history_file (read_only_world (Some Sample.three_entries)).
Proof.
  apply (@failed_delete_is_not_rolled_back Sample.libraries (lit "a")
           Sample.three_entries Sample.entry_today
           (read_only_world (Some Sample.three_entries))).
  - discriminate.
  - reflexivity.
  - repeat constructor.
  - left. reflexivity.
  - reflexivity.
  - left. reflexivity.
Defined.

(** X30: the main page appends the record of a finished run to the history
    of the session before it saves: the record is in memory whatever the
    save answers, the answer is that of [save_history] on the whole list,
    and when it is [False] the file is as before. *)
Theorem finished_run_stays_in_memory :
  forall (L : Libraries) (record : pyval) (records : list pyval) (w : world),
    w_session_history w = Some records ->
    exists (saved : bool) (w' : world),
      remember_run record w = (Ok saved, w')
      /\ save_history (PList (records ++ [record]))
           (set_session_history (Some (records ++ [record])) w) = (Ok saved, w')
      /\ w_session_history w' = Some (records ++ [record])
      /\ (saved = false -> w_history_file w' = w_history_file w).
Proof.
  intros L record records w Hsession.
  destruct (@save_history_total L (PList (records ++ [record]))
              (set_session_history (Some (records ++ [record])) w))
    as [saved [w' [Hsave Hframe]]].
  exists saved, w'. split; [| split; [exact Hsave | split]].
  - unfold remember_run, bind, get_session_history, put_session_history.
    rewrite Hsession. exact Hsave.
  - rewrite Hframe. reflexivity.
  - intros ->. rewrite (save_history_false_keeps_file _ _ Hsave). reflexivity.
Qed.

Lemma finished_run_stays_in_memory_witness :
  exists (saved : bool) (w' : world),
    remember_run (L := Sample.libraries) Sample.entry_today
      (read_only_world (Some [Sample.entry_3_days])) = (Ok saved, w')
    /\ save_history (L := Sample.libraries)
         (PList ([Sample.entry_3_days] ++ [Sample.entry_today]))
         (set_session_history (Some ([Sample.entry_3_days] ++ [Sample.entry_today]))
            (read_only_world (Some [Sample.entry_3_days]))) = (Ok saved, w')
    /\ w_session_history w' = Some ([Sample.entry_3_days] ++ [Sample.entry_today])
    /\ (saved = false ->
        w_history_file w' = w_history_file (read_only_world (Some [Sample.entry_3_days]))).
Proof.
  apply (@finished_run_stays_in_memory Sample.libraries Sample.entry_today
           [Sample.entry_3_days] (read_only_world (Some [Sample.entry_3_days]))).
  reflexivity.
Defined.
